(** * nvidia-fan-control: a shallow embedding of [main.go]

    The fan-speed decision engine of the daemon (step policy, curve profile
    builder, curve lookup, AUTO/MANUAL mode machine, per-device tick) and the
    command-line front end ([main] and its subcommands), embedded as Rocq
    functions and verified against the properties of the specification.

    Conventions.
    - Go's [int] is the 64-bit two's-complement integer of the reference
      platform (amd64).  A value is a [Z]; [+], [-], [*] and unary [-] wrap
      around ([GoInt.add], [GoInt.sub], [GoInt.mul], [GoInt.neg]);
      comparisons are the comparisons of [Z].
    - Go's [float64] is IEEE-754 binary64, modelled by the executable
      [spec_float] of the Standard Library with precision 53 and maximal
      exponent 1024, rounding to nearest, ties to even.  The operations are
      evaluated one by one, as the amd64 compiler emits them (no fused
      multiply-add).
    - NVML, the hardware collaborator, is an environment that answers each
      call from the history of the calls made so far; every call is logged,
      so that a statement about "no hardware write" is a statement about the
      log. *)

From Stdlib Require Import ZArith List Bool Lia String QArith.
From Stdlib Require Import Sorting.Sorted Sorting.Permutation.
From Stdlib Require Import Floats.SpecFloat.
Import ListNotations.
Local Open Scope Z_scope.

(* ------------------------------------------------------------------ *)
(** * Machine integers *)

Module GoInt.

Definition min_int : Z := - 2 ^ 63.
Definition max_int : Z := 2 ^ 63 - 1.

Definition in_range (x : Z) : Prop := min_int <= x <= max_int.

(** The representative of [x] modulo [2^64] in the range of [int]. *)
Definition wrap (x : Z) : Z := (x + 2 ^ 63) mod 2 ^ 64 - 2 ^ 63.

Definition add (x y : Z) : Z := wrap (x + y).
Definition sub (x y : Z) : Z := wrap (x - y).
Definition neg (x : Z) : Z := wrap (- x).
Definition mul (x y : Z) : Z := wrap (x * y).

End GoInt.

(* ------------------------------------------------------------------ *)
(** * Floating point: [float64], [math.Round], conversion to [int] *)

Module GoFloat.

Definition prec : Z := 53.
Definition emax : Z := 1024.

Definition float64 : Type := spec_float.

(** [float64(n)] for an [int] [n]: the nearest binary64 number. *)
Definition of_int (n : Z) : float64 := binary_normalize prec emax n 0 false.

Definition add : float64 -> float64 -> float64 := SFadd prec emax.
Definition mul : float64 -> float64 -> float64 := SFmul prec emax.
Definition div : float64 -> float64 -> float64 := SFdiv prec emax.

(** The magnitude [m * 2^e] ([e < 0]) rounded to the nearest integer,
    halves away from zero. *)
Definition round_magnitude (m : positive) (e : Z) : Z :=
  let d := 2 ^ (- e) in
  let q := Z.pos m / d in
  let r := Z.pos m mod d in
  if 2 * r >=? d then q + 1 else q.

(** [math.Round]: nearest integer, halves away from zero; zeros,
    infinities and NaN are returned unchanged. *)
Definition Round (x : float64) : float64 :=
  match x with
  | S754_finite s m e =>
      if e >=? 0 then x
      else
        let n := round_magnitude m e in
        if n =? 0 then S754_zero s
        else binary_normalize prec emax (if s then - n else n) 0 false
  | _ => x
  end.

(** What the conversion [int(x)] yields when the truncated value does not
    fit an [int] (or [x] is NaN or infinite).  The language leaves it to
    the implementation; amd64's [CVTTSD2SQ] yields the "integer
    indefinite" value, the smallest [int]. *)
Definition int_indefinite : Z := GoInt.min_int.

(** [int(x)]: truncation toward zero. *)
Definition to_int (x : float64) : Z :=
  match x with
  | S754_zero _ => 0
  | S754_finite s m e =>
      let mag := if e >=? 0 then Z.pos m * 2 ^ e else Z.pos m / 2 ^ (- e) in
      let n := if s then - mag else mag in
      if (GoInt.min_int <=? n) && (n <=? GoInt.max_int) then n
      else int_indefinite
  | _ => int_indefinite
  end.

End GoFloat.

(* ------------------------------------------------------------------ *)
(** * Data model *)

Record TemperatureRange : Type := mkRange {
  MinTemperature : Z;
  MaxTemperature : Z;
  FanSpeed : Z;
  Hysteresis : Z
}.

Record curvePoint : Type := mkPoint {
  temp : Z;
  speed : Z;
  hyst : Z
}.

Record curveProfile : Type := mkProfile {
  floorEndTemp : Z;
  floorSpeed : Z;
  floorHyst : Z;
  points : list curvePoint
}.

(* ------------------------------------------------------------------ *)
(** * Step policy *)

Definition abs (x : Z) : Z :=
  if x <? 0 then GoInt.neg x else x.

(** The test of the [for] loop of [getFanSpeedForTemperature]:
    [temp > r.MinTemperature && temp <= r.MaxTemperature]. *)
Definition inBand (tempC : Z) (r : TemperatureRange) : bool :=
  (tempC >? MinTemperature r) && (tempC <=? MaxTemperature r).

(** The test of the inner [if]:
    [abs(temp-prevTemp) >= r.Hysteresis || prevSpeed != r.FanSpeed]. *)
Definition mayChange (tempC prevTemp prevSpeed : Z) (r : TemperatureRange) : bool :=
  (abs (GoInt.sub tempC prevTemp) >=? Hysteresis r) || negb (prevSpeed =? FanSpeed r).

Fixpoint getFanSpeedForTemperature
  (tempC prevTemp prevSpeed : Z) (ranges : list TemperatureRange) : Z :=
  match ranges with
  | [] => prevSpeed
  | r :: rest =>
      if inBand tempC r then
        if mayChange tempC prevTemp prevSpeed r then FanSpeed r else prevSpeed
      else getFanSpeedForTemperature tempC prevTemp prevSpeed rest
  end.

(* ------------------------------------------------------------------ *)
(** * Curve profile builder *)

Definition clampInt (x lo hi : Z) : Z :=
  if x <? lo then lo
  else if x >? hi then hi
  else x.

(** [sort.SliceStable] belongs to Go's standard library, not to the
    repository.  Its contract is: the slice is sorted by [less] and
    elements that [less] does not order keep their original order.  The
    model is the insertion sort that inserts each element in front of the
    already sorted elements that followed it; [sliceStable_unique] below
    shows that every function meeting the contract computes the same
    list. *)
Section SliceStable.

Context {A : Type}.
Variable less : A -> A -> bool.

Fixpoint insertStable (x : A) (l : list A) : list A :=
  match l with
  | [] => [x]
  | y :: l' => if less y x then y :: insertStable x l' else x :: l
  end.

Fixpoint sliceStable (l : list A) : list A :=
  match l with
  | [] => []
  | x :: l' => insertStable x (sliceStable l')
  end.

(** [x] may stand in front of [y] in a sorted slice. *)
Definition notAfter (x y : A) : Prop := less y x = false.

(** [less] orders neither of the two. *)
Definition unordered (x y : A) : bool := negb (less x y) && negb (less y x).

End SliceStable.

(** The [less] function of the first sort: by [MinTemperature], then by
    [MaxTemperature]. *)
Definition rangeLess (ri rj : TemperatureRange) : bool :=
  if MinTemperature ri =? MinTemperature rj
  then MaxTemperature ri <? MaxTemperature rj
  else MinTemperature ri <? MinTemperature rj.

(** The [less] function of the second sort: by [temp]. *)
Definition pointLess (pi pj : curvePoint) : bool :=
  temp pi <? temp pj.

(** The [curvePoint] appended for a range [r]. *)
Definition pointOfRange (r : TemperatureRange) : curvePoint :=
  {| temp := MinTemperature r;
     speed := clampInt (FanSpeed r) 0 100;
     hyst := Hysteresis r |}.

(** One iteration of the deduplication loop: [dedup] is the slice built so
    far, [p] the next sorted point. *)
Definition dedupStep (dedup : list curvePoint) (p : curvePoint) : list curvePoint :=
  match dedup with
  | [] => dedup ++ [p]
  | _ :: _ =>
      if temp (last dedup p) =? temp p
      then removelast dedup ++ [p]
      else dedup ++ [p]
  end.

Definition dedupPoints (pts : list curvePoint) : list curvePoint :=
  fold_left dedupStep pts [].

(** The result is [inl msg] for [fmt.Errorf(msg)], [inr prof] otherwise.
    [rs] has the length of [ranges], so [rs[0]] exists whenever the first
    test passes; the default of [hd] is never used. *)
Definition buildCurveProfileFromRanges
  (ranges : list TemperatureRange) : string + curveProfile :=
  match ranges with
  | [] => inl "no temperature_ranges provided"%string
  | r0 :: _ =>
      let rs := sliceStable rangeLess ranges in
      let floor := hd r0 rs in
      let pts := map pointOfRange (tl rs) in
      let pts := sliceStable pointLess pts in
      inr {| floorEndTemp := MaxTemperature floor;
             floorSpeed := clampInt (FanSpeed floor) 0 100;
             floorHyst := Hysteresis floor;
             points := dedupPoints pts |}
  end.

(* ------------------------------------------------------------------ *)
(** * Curve lookup *)

(** The [return] statement at which [curveSpeedForTempWithProfile] leaves,
    in the order of the source. *)
Inductive returnSite : Type :=
| AtFloor        (* temp < prof.floorEndTemp *)
| AtNoPoints     (* len(prof.points) == 0 *)
| AtGap          (* temp < prof.points[0].temp *)
| AtCeiling      (* temp >= last.temp *)
| AtDenGuard     (* den <= 0 *)
| AtSegment      (* the interpolated value *)
| AtFallback.    (* after the loop *)

(** [int(math.Round(float64(a.speed) + t*float64(b.speed-a.speed)))] with
    [t = float64(temp-a.temp) / float64(den)]. *)
Definition interpolate (tempC den : Z) (a b : curvePoint) : Z :=
  let t := GoFloat.div (GoFloat.of_int (GoInt.sub tempC (temp a)))
                       (GoFloat.of_int den) in
  let val := GoFloat.add (GoFloat.of_int (speed a))
                         (GoFloat.mul t (GoFloat.of_int (GoInt.sub (speed b) (speed a)))) in
  GoFloat.to_int (GoFloat.Round val).

(** The segment loop over [prof.points[i], prof.points[i+1]], started at
    the points that remain. *)
Fixpoint segmentLoop (tempC : Z) (pts : list curvePoint) (lastPt : curvePoint)
  : returnSite * (Z * Z) :=
  match pts with
  | a :: rest =>
      match rest with
      | b :: _ =>
          if (tempC >=? temp a) && (tempC <? temp b) then
            let den := GoInt.sub (temp b) (temp a) in
            if den <=? 0 then (AtDenGuard, (speed a, hyst a))
            else (AtSegment, (clampInt (interpolate tempC den a b) 0 100, hyst a))
          else segmentLoop tempC rest lastPt
      | [] => (AtFallback, (speed lastPt, hyst lastPt))
      end
  | [] => (AtFallback, (speed lastPt, hyst lastPt))
  end.

(** The function with the return site it leaves at. *)
Definition curveSpeedSite (tempC : Z) (prof : curveProfile) : returnSite * (Z * Z) :=
  if tempC <? floorEndTemp prof then (AtFloor, (floorSpeed prof, floorHyst prof))
  else
    match points prof with
    | [] => (AtNoPoints, (floorSpeed prof, floorHyst prof))
    | p0 :: _ =>
        if tempC <? temp p0 then (AtGap, (floorSpeed prof, floorHyst prof))
        else
          let lastPt := last (points prof) p0 in
          if tempC >=? temp lastPt then (AtCeiling, (speed lastPt, hyst lastPt))
          else segmentLoop tempC (points prof) lastPt
    end.

(** Returns [(speed, hysteresisUsed)]. *)
Definition curveSpeedForTempWithProfile (tempC : Z) (prof : curveProfile) : Z * Z :=
  snd (curveSpeedSite tempC prof).

(** The ranges of the README's configuration, which are the example of the
    specification. *)
Definition exampleRanges : list TemperatureRange :=
  [ mkRange 0 40 30 3; mkRange 40 60 40 3; mkRange 60 80 70 3;
    mkRange 80 100 100 3; mkRange 100 200 100 0 ].

Definition exampleProfile : curveProfile :=
  mkProfile 40 30 3 [ mkPoint 40 40 3; mkPoint 60 70 3; mkPoint 80 100 3; mkPoint 100 100 0 ].

(* ------------------------------------------------------------------ *)
(** * The hardware collaborator and the program monad *)

Inductive nvmlReturn : Type :=
| SUCCESS
| ERROR_NOT_SUPPORTED
| ERROR_OTHER.            (* any other NVML return code *)

Inductive fanPolicy : Type :=
| FAN_POLICY_TEMPERATURE_CONTINOUS_SW
| FAN_POLICY_MANUAL.

(** The NVML entry points the program uses.  A device handle is the number
    NVML answered for the device. *)
Inductive nvmlCall : Type :=
| Init
| Shutdown
| DeviceGetCount
| DeviceGetHandleByIndex (i : Z)
| DeviceGetNumFans (device : N)
| DeviceGetTemperature (device : N)
| DeviceGetFanSpeed_v2 (device : N) (fanIdx : Z)
| DeviceGetFanSpeed (device : N)
| DeviceSetFanControlPolicy (device : N) (fanIdx : Z) (policy : fanPolicy)
| DeviceSetFanSpeed_v2 (device : N) (fanIdx : Z) (speedPct : Z).

(** NVML reports counts, temperatures and speeds as unsigned numbers. *)
Record nvmlAnswer : Type := mkAnswer {
  ret : nvmlReturn;
  value : N
}.

(** The hardware: the answer to a call after a history of calls. *)
Definition nvmlEnv : Type := list nvmlCall -> nvmlCall -> nvmlAnswer.

Inductive stream : Type := LogOut | Stderr | Stdout.

Record world : Type := mkWorld {
  calls : list nvmlCall;                 (* every NVML call, oldest first *)
  output : list (stream * string)        (* every line written: the format
                                            string, without its arguments
                                            and without the degree sign *)
}.

Definition Prog (A : Type) : Type := nvmlEnv -> world -> A * world.

Definition pure {A} (a : A) : Prog A := fun _ w => (a, w).

Definition bind {A B} (m : Prog A) (k : A -> Prog B) : Prog B :=
  fun env w => let (a, w') := m env w in k a env w'.

Declare Scope prog_scope.
Delimit Scope prog_scope with prog.
Notation "x <- m ;; k" := (bind m (fun x => k))
  (at level 61, m at next level, right associativity) : prog_scope.
Notation "m ;;; k" := (bind m (fun _ => k))
  (at level 61, right associativity) : prog_scope.
Local Open Scope prog_scope.

Definition nvml (c : nvmlCall) : Prog nvmlAnswer :=
  fun env w => (env (calls w) c, mkWorld (calls w ++ [c]) (output w)).

Definition write (s : stream) (msg : string) : Prog unit :=
  fun _ w => (tt, mkWorld (calls w) (output w ++ [(s, msg)])).

Definition logf : string -> Prog unit := write LogOut.

Definition isSuccess (r : nvmlReturn) : bool :=
  match r with SUCCESS => true | _ => false end.

Definition isNotSupported (r : nvmlReturn) : bool :=
  match r with ERROR_NOT_SUPPORTED => true | _ => false end.

(** The calls that command the hardware. *)
Definition isWrite (c : nvmlCall) : bool :=
  match c with
  | DeviceSetFanControlPolicy _ _ _ | DeviceSetFanSpeed_v2 _ _ _ => true
  | _ => false
  end.

Definition isSpeedWrite (c : nvmlCall) : bool :=
  match c with
  | DeviceSetFanSpeed_v2 _ _ _ => true
  | _ => false
  end.

(* ------------------------------------------------------------------ *)
(** * The monitoring loop *)

Record Config : Type := mkConfig {
  TimeToUpdate : Z;
  TemperatureRanges : list TemperatureRange;
  Curve : bool
}.

(** The state of one GPU in the loop: the entries at its index of the
    slices [fanCounts], [prevTemps], [prevFanSpeeds], [inAuto] and
    [lastFanChangeTemp].  [prevFanSpeeds] has [fanCount] entries (it is
    made so by [initializeDevices]); the fan loops run over its entries. *)
Record gpuState : Type := mkGpu {
  fanCount : Z;
  prevTemp : Z;
  prevFanSpeeds : list Z;
  inAuto : bool;
  lastFanChangeTemp : Z
}.

(** What the prelude of [runMonitoringLoop] fixes for the whole run. *)
Record loopMode : Type := mkMode {
  useCurve : bool;
  prof : curveProfile
}.

(** The zero value of [curveProfile]. *)
Definition zeroProfile : curveProfile := mkProfile 0 0 0 [].

(** Lines 320-336: the choice between curve and step mode. *)
Definition chooseMode (config : Config) : Prog loopMode :=
  if Curve config then
    match buildCurveProfileFromRanges (TemperatureRanges config) with
    | inl _ =>
        logf "WARN: curve mode requested but invalid curve profile: %v. Falling back to step mode." ;;;
        pure (mkMode false zeroProfile)
    | inr p =>
        logf "INFO: Curve mode enabled: floor(<%d C)=AUTO, setpoints=%v (floor hyst=%d C)" ;;;
        pure (mkMode true p)
    end
  else pure (mkMode false zeroProfile).

(** Line 341: [inAuto[i] = prevTemps[i] < prof.floorEndTemp]. *)
Definition initialInAuto (initialTemp : Z) (p : curveProfile) : bool :=
  initialTemp <? floorEndTemp p.

(** Lines 374-384: the deadband around [floorEndTemp]. *)
Definition nextInAuto (wasAuto : bool) (tempInt : Z) (p : curveProfile) : bool :=
  if wasAuto then
    if tempInt >=? GoInt.add (floorEndTemp p) (floorHyst p) then false else true
  else
    if tempInt <=? GoInt.sub (floorEndTemp p) (floorHyst p) then true else false.

(** Lines 389-398: the AUTO policy for every fan. *)
Fixpoint autoFanLoop (device : N) (fanIdx : Z) (fans : list Z) : Prog unit :=
  match fans with
  | [] => pure tt
  | _ :: rest =>
      a <- nvml (DeviceSetFanControlPolicy device fanIdx FAN_POLICY_TEMPERATURE_CONTINOUS_SW) ;;
      (if negb (isSuccess (ret a)) && negb (isNotSupported (ret a)) then
         logf "ERROR: Unable to set AUTO fan policy for GPU %d Fan %d: %v"
       else if isNotSupported (ret a) then
         logf "WARN: AUTO fan policy not supported for GPU %d Fan %d."
       else pure tt) ;;;
      autoFanLoop device (fanIdx + 1) rest
  end.

(** The two writes that both modes make (lines 422-435 and 459-472):
    MANUAL policy, then the speed.  [true] when both succeeded.  The two
    modes differ in the lines they log when the policy write fails:
    [policyError] and [policyUnsupported]. *)
Definition writeManualSpeed (policyError policyUnsupported : string)
  (device : N) (fanIdx newFanSpeed : Z) : Prog bool :=
  a <- nvml (DeviceSetFanControlPolicy device fanIdx FAN_POLICY_MANUAL) ;;
  if negb (isSuccess (ret a)) && negb (isNotSupported (ret a)) then
    logf policyError ;;; pure false
  else if isNotSupported (ret a) then
    logf policyUnsupported ;;; pure false
  else
    b <- nvml (DeviceSetFanSpeed_v2 device fanIdx newFanSpeed) ;;
    if negb (isSuccess (ret b)) then
      logf "ERROR: Unable to set fan speed for GPU %d Fan %d to %d%%: %v" ;;; pure false
    else pure true.

(** Lines 409-442: the fans of a GPU in MANUAL.  Returns the new
    [prevFanSpeeds[i]] and [anyFanUpdated]. *)
Fixpoint curveFanLoop (device : N) (tempInt : Z) (p : curveProfile)
  (lastChange : Z) (fanIdx : Z) (fans : list Z) : Prog (list Z * bool) :=
  match fans with
  | [] => pure ([], false)
  | prevSpeed :: rest =>
      let (newFanSpeed, hystUsed) := curveSpeedForTempWithProfile tempInt p in
      changed <-
        (if newFanSpeed =? prevSpeed then pure false
         else if abs (GoInt.sub tempInt lastChange) <? hystUsed then pure false
         else
           ok <- writeManualSpeed
                   "ERROR: Unable to set MANUAL fan policy for GPU %d Fan %d: %v"
                   "WARN: MANUAL fan policy not supported for GPU %d Fan %d."
                   device fanIdx newFanSpeed ;;
           if ok then
             logf "INFO: Updated GPU %d Fan %d (curve): Temp=%d C, PrevSpeed=%d%%, NewSpeed=%d%%, Hyst=%d C" ;;;
             pure true
           else pure false) ;;
      r <- curveFanLoop device tempInt p lastChange (fanIdx + 1) rest ;;
      pure ((if changed then newFanSpeed else prevSpeed) :: fst r,
            changed || snd r)
  end.

(** Lines 452-478: the fans of a GPU in step mode. *)
Fixpoint stepFanLoop (device : N) (tempInt prevT : Z)
  (ranges : list TemperatureRange) (fanIdx : Z) (fans : list Z) : Prog (list Z) :=
  match fans with
  | [] => pure []
  | prevSpeed :: rest =>
      let newFanSpeed := getFanSpeedForTemperature tempInt prevT prevSpeed ranges in
      changed <-
        (if newFanSpeed =? prevSpeed then pure false
         else
           ok <- writeManualSpeed
                   "ERROR: Unable to set manual fan control policy for GPU %d Fan %d: %v"
                   "WARN: Manual fan control policy not supported for GPU %d Fan %d. Cannot set speed."
                   device fanIdx newFanSpeed ;;
           if ok then
             logf "INFO: Updated GPU %d Fan %d: Temp=%d C, PrevSpeed=%d%%, NewSpeed=%d%%" ;;;
             pure true
           else pure false) ;;
      r <- stepFanLoop device tempInt prevT ranges (fanIdx + 1) rest ;;
      pure ((if changed then newFanSpeed else prevSpeed) :: r)
  end.

(** Lines 370-479: what a tick does for GPU [i] once its handle and its
    temperature are read. *)
Definition controlGpu (config : Config) (m : loopMode) (device : N)
  (tempInt : Z) (g : gpuState) : Prog gpuState :=
  if useCurve m then
    let nowAuto := nextInAuto (inAuto g) tempInt (prof m) in
    (if inAuto g && negb nowAuto then
       logf "INFO: GPU %d crossing above floor: switching to MANUAL control (temp=%d C)"
     else if negb (inAuto g) && nowAuto then
       logf "INFO: GPU %d crossing below floor: switching to AUTO control (temp=%d C)"
     else pure tt) ;;;
    if nowAuto then
      autoFanLoop device 0 (prevFanSpeeds g) ;;;
      pure (mkGpu (fanCount g) tempInt (prevFanSpeeds g) nowAuto tempInt)
    else
      r <- curveFanLoop device tempInt (prof m) (lastFanChangeTemp g) 0 (prevFanSpeeds g) ;;
      pure (mkGpu (fanCount g) tempInt (fst r) nowAuto
                  (if snd r then tempInt else lastFanChangeTemp g))
  else
    r <- stepFanLoop device tempInt (prevTemp g) (TemperatureRanges config) 0 (prevFanSpeeds g) ;;
    pure (mkGpu (fanCount g) tempInt r (inAuto g) (lastFanChangeTemp g)).

(** Lines 352-480: the body of the loop over the GPUs, for GPU [i]. *)
Definition tickGpu (config : Config) (m : loopMode) (i : Z) (g : gpuState) : Prog gpuState :=
  if fanCount g =? 0 then pure g
  else
    h <- nvml (DeviceGetHandleByIndex i) ;;
    if negb (isSuccess (ret h)) then
      logf "ERROR: Unable to get handle for device %d during update: %v. Skipping cycle for this device." ;;;
      pure g
    else
      t <- nvml (DeviceGetTemperature (value h)) ;;
      if negb (isSuccess (ret t)) then
        logf "ERROR: Unable to get temperature for device %d: %v. Skipping cycle for this device." ;;;
        pure g
      else controlGpu config m (value h) (Z.of_N (value t)) g.

Fixpoint tickGpus (config : Config) (m : loopMode) (i : Z) (gs : list gpuState)
  : Prog (list gpuState) :=
  match gs with
  | [] => pure []
  | g :: rest =>
      g' <- tickGpu config m i g ;;
      rest' <- tickGpus config m (i + 1) rest ;;
      pure (g' :: rest')
  end.

(** The first [n] ticks of [for range ticker.C]. *)
Fixpoint ticks (config : Config) (m : loopMode) (n : nat) (gs : list gpuState)
  : Prog (list gpuState) :=
  match n with
  | O => pure gs
  | S n' => gs' <- tickGpus config m 0 gs ;; ticks config m n' gs'
  end.

(** What [initializeDevices] hands to the loop for one GPU. *)
Record gpuInit : Type := mkGpuInit {
  initFanCount : Z;
  initTemp : Z;
  initFanSpeeds : list Z
}.

(** Lines 339-346: the per-GPU state at the start of the loop. *)
Definition startGpu (m : loopMode) (d : gpuInit) : gpuState :=
  mkGpu (initFanCount d) (initTemp d) (initFanSpeeds d)
        (initialInAuto (initTemp d) (prof m)) (initTemp d).

(** Line 348: [time.Duration(config.TimeToUpdate) * time.Second], a
    64-bit count of nanoseconds. *)
Definition tickerInterval (config : Config) : Z :=
  GoInt.mul (TimeToUpdate config) 1000000000.

(** [runMonitoringLoop], observed for its first [n] ticks (the loop itself
    never ends).  Returns the mode chosen and the state after [n] ticks,
    or [None] in its place when [time.NewTicker] panicked: it does so for
    an interval that is not positive, before the first tick. *)
Definition runMonitoringLoop (config : Config) (devices : list gpuInit) (n : nat)
  : Prog (loopMode * option (list gpuState)) :=
  logf "INFO: Starting monitoring loop..." ;;;
  m <- chooseMode config ;;
  let gs := map (startGpu m) devices in
  if tickerInterval config <=? 0 then pure (m, None)
  else
    gs' <- ticks config m n gs ;;
    pure (m, Some gs').

(* ------------------------------------------------------------------ *)
(** * The command line *)

(** The values of the flags of a subcommand after [fs.Parse], defaults
    included ([-speed] defaults to [-1], [-fans] to the fan [0]). *)
Record flagValues : Type := mkFlags {
  configPath : string;
  logPath : string;
  curve : bool;
  gpuIdx : Z;
  fansStr : string;
  speedFlag : Z;
  verbose : bool
}.

(** What the program takes from the operating system and from Go's
    standard library: [flag] parsing of [os.Args[2:]] for a subcommand
    ([None] is a parse error, and [flagErrorText] what the [flag] package
    then writes to the standard error stream, the output of the flag
    set), [strings.TrimSpace], [strings.Split] at
    commas, [strconv.Atoi], [os.OpenFile] of the log file, and
    [os.ReadFile] followed by [json.Unmarshal] of the configuration. *)
Record osEnv : Type := mkOs {
  flagParse : string -> list string -> option flagValues;
  flagErrorText : string -> list string -> string;
  TrimSpace : string -> string;
  SplitComma : string -> list string;
  Atoi : string -> option Z;
  openLogFile : string -> bool;
  loadConfig : string -> option Config
}.

(** The process after the part of the run that is observed: it has exited
    with a code, or it is in the monitoring loop with a state. *)
Inductive outcome : Type :=
| Exited (code : Z)
| Looping (m : loopMode) (gs : list gpuState).

(** The usage text names four subcommands.  Its first lines (the
    quotation marks around the fan list are left out). *)
Definition printUsage : Prog unit :=
  write Stderr "Usage:" ;;;
  write Stderr "  nvidia_fan_control daemon   [-config PATH] [-log PATH] [-curve]" ;;;
  write Stderr "  nvidia_fan_control status   [-gpu N] [-v]" ;;;
  write Stderr "  nvidia_fan_control set      [-gpu N] [-fans 0,1] -speed PERCENT [-v]" ;;;
  write Stderr "  nvidia_fan_control auto     [-gpu N] [-fans 0,1] [-v]".

(** The loop of [parseFanList] over the parts. *)
Fixpoint parseFanParts (os : osEnv) (parts : list string) : option (list Z) :=
  match parts with
  | [] => Some []
  | p :: rest =>
      let p := TrimSpace os p in
      if String.eqb p "" then parseFanParts os rest
      else
        match Atoi os p with
        | None => None
        | Some n =>
            if n <? 0 then None
            else
              match parseFanParts os rest with
              | None => None
              | Some out => Some (n :: out)
              end
        end
  end.

(** [None] stands for the error result. *)
Definition parseFanList (os : osEnv) (s : string) : option (list Z) :=
  let s := TrimSpace os s in
  if String.eqb s "" then None
  else
    match parseFanParts os (SplitComma os s) with
    | None => None
    | Some [] => None
    | Some out => Some out
    end.

(** [initializeNVML]: [true] when NVML is up (and the cleanup is due). *)
Definition initializeNVML : Prog bool :=
  a <- nvml Init ;;
  if negb (isSuccess (ret a)) then pure false
  else logf "INFO: NVML initialized successfully." ;;; pure true.

(** The deferred cleanup function. *)
Definition nvmlCleanup : Prog unit :=
  logf "INFO: Shutting down NVML..." ;;;
  a <- nvml Shutdown ;;
  if negb (isSuccess (ret a)) then logf "ERROR: Unable to shutdown NVML cleanly: %v"
  else logf "INFO: NVML Shutdown complete.".

(** Only chooses where the [log] package writes (standard error or
    nowhere); the lines themselves are recorded under [LogOut] either
    way. *)
Definition configureCLILogging (v : bool) : Prog unit := pure tt.

(** Both loops of [cmdSet] and [cmdAuto] over the fan list. *)
Fixpoint fansInRange (fans : list Z) (numFans : Z) : bool :=
  match fans with
  | [] => true
  | fanIdx :: rest =>
      if (fanIdx <? 0) || (fanIdx >=? numFans) then false
      else fansInRange rest numFans
  end.

Fixpoint setFans (dev : N) (fans : list Z) (speedPct : Z) : Prog Z :=
  match fans with
  | [] => pure 0
  | fanIdx :: rest =>
      a <- nvml (DeviceSetFanControlPolicy dev fanIdx FAN_POLICY_MANUAL) ;;
      if negb (isSuccess (ret a)) && negb (isNotSupported (ret a)) then
        write Stderr "unable to set manual fan policy for GPU %d Fan %d: %v" ;;; pure 1
      else if isNotSupported (ret a) then
        write Stderr "manual fan policy not supported for GPU %d Fan %d" ;;; pure 1
      else
        b <- nvml (DeviceSetFanSpeed_v2 dev fanIdx speedPct) ;;
        if negb (isSuccess (ret b)) then
          write Stderr "unable to set fan speed for GPU %d Fan %d to %d%%: %v" ;;; pure 1
        else setFans dev rest speedPct
  end.

(** The part of [cmdSet] and [cmdAuto] between the deferred cleanup and
    the fan loops: device count, GPU index, handle, fan count, fan
    indices.  [inl code] is an early [return code]. *)
Definition openGpu (gpu : Z) (fans : list Z) : Prog (Z + N) :=
  c <- nvml DeviceGetCount ;;
  if negb (isSuccess (ret c)) then
    write Stderr "unable to get NVIDIA device count: %v" ;;; pure (inl 1)
  else if (gpu <? 0) || (gpu >=? Z.of_N (value c)) then
    write Stderr "invalid -gpu %d (found %d device(s), valid range: 0..%d)" ;;; pure (inl 1)
  else
    h <- nvml (DeviceGetHandleByIndex gpu) ;;
    if negb (isSuccess (ret h)) then
      write Stderr "unable to get handle for device %d: %v" ;;; pure (inl 1)
    else
      nf <- nvml (DeviceGetNumFans (value h)) ;;
      if negb (isSuccess (ret nf)) then
        write Stderr "unable to get fan count for device %d: %v" ;;; pure (inl 1)
      else if negb (fansInRange fans (Z.of_N (value nf))) then
        write Stderr "invalid fan index %d for GPU %d (device reports %d fan(s))" ;;; pure (inl 1)
      else pure (inr (value h)).

Definition cmdSet (gpu : Z) (fans : list Z) (speedPct : Z) (v : bool) : Prog Z :=
  configureCLILogging v ;;;
  if (speedPct <? 0) || (speedPct >? 100) then
    write Stderr "-speed must be 0..100 (got %d)" ;;; pure 1
  else
    up <- initializeNVML ;;
    if negb up then write Stderr "unable to initialize NVML: %v" ;;; pure 1
    else
      code <- (g <- openGpu gpu fans ;;
               match g with
               | inl code => pure code
               | inr dev => setFans dev fans speedPct
               end) ;;
      nvmlCleanup ;;;
      pure code.

Fixpoint autoFans (dev : N) (fans : list Z) : Prog Z :=
  match fans with
  | [] => pure 0
  | fanIdx :: rest =>
      a <- nvml (DeviceSetFanControlPolicy dev fanIdx FAN_POLICY_TEMPERATURE_CONTINOUS_SW) ;;
      if negb (isSuccess (ret a)) && negb (isNotSupported (ret a)) then
        write Stderr "unable to set temperature fan policy for GPU %d Fan %d: %v" ;;; pure 1
      else if isNotSupported (ret a) then
        write Stderr "temperature fan policy not supported for GPU %d Fan %d" ;;; pure 1
      else autoFans dev rest
  end.

Definition cmdAuto (gpu : Z) (fans : list Z) (v : bool) : Prog Z :=
  configureCLILogging v ;;;
  up <- initializeNVML ;;
  if negb up then write Stderr "unable to initialize NVML: %v" ;;; pure 1
  else
    code <- (g <- openGpu gpu fans ;;
             match g with
             | inl code => pure code
             | inr dev => autoFans dev fans
             end) ;;
    nvmlCleanup ;;;
    pure code.

(** [getFanSpeedPercent] and the loop of [cmdStatus] that prints it. *)
Fixpoint statusFans (dev : N) (fanIdx : Z) (n : nat) : Prog unit :=
  match n with
  | O => pure tt
  | S n' =>
      s <- nvml (DeviceGetFanSpeed_v2 dev fanIdx) ;;
      (if isSuccess (ret s) then write Stdout "  Fan %d: speed=%d%%"
       else if fanIdx =? 0 then
         l <- nvml (DeviceGetFanSpeed dev) ;;
         if isSuccess (ret l) then write Stdout "  Fan %d: speed=%d%%"
         else write Stdout "  Fan %d: speed=unknown (%v)"
       else write Stdout "  Fan %d: speed=unknown (%v)") ;;;
      statusFans dev (fanIdx + 1) n'
  end.

Definition cmdStatus (gpu : Z) (v : bool) : Prog Z :=
  configureCLILogging v ;;;
  up <- initializeNVML ;;
  if negb up then write Stderr "unable to initialize NVML: %v" ;;; pure 1
  else
    code <- (c <- nvml DeviceGetCount ;;
             if negb (isSuccess (ret c)) then
               write Stderr "unable to get NVIDIA device count: %v" ;;; pure 1
             else if (gpu <? 0) || (gpu >=? Z.of_N (value c)) then
               write Stderr "invalid -gpu %d (found %d device(s), valid range: 0..%d)" ;;; pure 1
             else
               h <- nvml (DeviceGetHandleByIndex gpu) ;;
               if negb (isSuccess (ret h)) then
                 write Stderr "unable to get handle for device %d: %v" ;;; pure 1
               else
                 t <- nvml (DeviceGetTemperature (value h)) ;;
                 if negb (isSuccess (ret t)) then
                   write Stderr "unable to get temperature for device %d: %v" ;;; pure 1
                 else
                   nf <- nvml (DeviceGetNumFans (value h)) ;;
                   if negb (isSuccess (ret nf)) then
                     write Stdout "GPU %d: Temp=%d C, Fans=unknown (DeviceGetNumFans: %v)" ;;; pure 0
                   else
                     write Stdout "GPU %d: Temp=%d C, Fans=%d" ;;;
                     statusFans (value h) 0 (N.to_nat (value nf)) ;;;
                     pure 0) ;;
    nvmlCleanup ;;;
    pure code.

(** The initial speed of each fan of a GPU in [initializeDevices]. *)
Fixpoint initialFanSpeeds (dev : N) (fanIdx : Z) (n : nat) : Prog (list Z) :=
  match n with
  | O => pure []
  | S n' =>
      s <- nvml (DeviceGetFanSpeed_v2 dev fanIdx) ;;
      v <- (if isSuccess (ret s) then pure (Z.of_N (value s))
            else
              l <- nvml (DeviceGetFanSpeed dev) ;;
              if isSuccess (ret l) && (fanIdx =? 0) then
                logf "WARN: Using legacy DeviceGetFanSpeed for initial speed for device %d Fan %d." ;;;
                pure (Z.of_N (value l))
              else
                logf "WARN: Failed to get initial speed for device %d Fan %d using v2 (%v) or legacy (%v). Using 0." ;;;
                pure 0) ;;
      rest <- initialFanSpeeds dev (fanIdx + 1) n' ;;
      pure (v :: rest)
  end.

(** The body of the loop of [initializeDevices] for GPU [i]; the boolean
    is the increment of [initializedDevices]. *)
Definition initializeDevice (i : Z) : Prog (gpuInit * bool) :=
  h <- nvml (DeviceGetHandleByIndex i) ;;
  if negb (isSuccess (ret h)) then
    logf "WARN: Unable to get handle for device %d: %v. Skipping device." ;;;
    pure (mkGpuInit 0 0 [], false)
  else
    nf <- nvml (DeviceGetNumFans (value h)) ;;
    if negb (isSuccess (ret nf)) then
      logf "WARN: Unable to get fan count for device %d: %v. Assuming 0 fans or fan control not supported." ;;;
      pure (mkGpuInit 0 0 [], false)
    else if Z.of_N (value nf) <=? 0 then
      logf "INFO: Device %d reports %d controllable fans. Skipping fan initialization." ;;;
      pure (mkGpuInit (Z.of_N (value nf)) 0 [], false)
    else
      logf "INFO: Device %d has %d controllable fan(s). Initializing state." ;;;
      t <- nvml (DeviceGetTemperature (value h)) ;;
      t0 <- (if isSuccess (ret t) then pure (Z.of_N (value t))
             else
               logf "WARN: Failed to get initial temperature for device %d: %v. Using 0." ;;;
               pure 0) ;;
      speeds <- initialFanSpeeds (value h) 0 (N.to_nat (value nf)) ;;
      logf "INFO: Initial state for device %d: Temp=%d C, Fan Speeds=%v%%" ;;;
      pure (mkGpuInit (Z.of_N (value nf)) t0 speeds, true).

Fixpoint initializeDeviceLoop (i : Z) (n : nat) : Prog (list gpuInit * Z) :=
  match n with
  | O => pure ([], 0)
  | S n' =>
      d <- initializeDevice i ;;
      r <- initializeDeviceLoop (i + 1) n' ;;
      pure (fst d :: fst r, (if snd d then 1 else 0) + snd r)
  end.

(** [None] stands for a non-nil [err]. *)
Definition initializeDevices : Prog (option (list gpuInit)) :=
  c <- nvml DeviceGetCount ;;
  if negb (isSuccess (ret c)) then pure None
  else if Z.of_N (value c) =? 0 then pure None
  else
    logf "INFO: Found %d NVIDIA device(s)." ;;;
    r <- initializeDeviceLoop 0 (N.to_nat (value c)) ;;
    if (snd r =? 0) && (Z.of_N (value c) >? 0) then pure None
    else
      logf "INFO: Device initialization complete. Monitoring %d devices." ;;;
      pure (Some (fst r)).

(** [loadConfiguration] after [loadConfig] succeeded. *)
Definition validateConfiguration (config : Config) : Prog Config :=
  config <- (if TimeToUpdate config <=? 0 then
               logf "WARN: time_to_update (%d) is invalid, defaulting to 5 seconds." ;;;
               pure (mkConfig 5 (TemperatureRanges config) (Curve config))
             else pure config) ;;
  (if (Z.of_nat (List.length (TemperatureRanges config)) =? 0) then
     logf "WARN: temperature_ranges is empty."
   else pure tt) ;;;
  logf "INFO: Configuration loaded and validated." ;;;
  pure config.

(** [cmdDaemon], observed for the first [n] ticks of its loop.
    [log.Fatalf] ends the process with code 1 and runs no deferred call.
    A panic of [time.NewTicker] runs the deferred cleanup, then the Go
    runtime reports the panic on the standard error stream and ends the
    process with code 2. *)
Definition cmdDaemon (os : osEnv) (cfgPath lgPath : string) (curveOverride : bool)
  (n : nat) : Prog outcome :=
  if negb (openLogFile os lgPath) then
    logf "FATAL: %v" ;;; pure (Exited 1)
  else
    logf "INFO: Logging setup complete." ;;;
    match loadConfig os cfgPath with
    | None => logf "FATAL: %v" ;;; pure (Exited 1)
    | Some config =>
        config <- validateConfiguration config ;;
        let config := if curveOverride
                      then mkConfig (TimeToUpdate config) (TemperatureRanges config) true
                      else config in
        up <- initializeNVML ;;
        if negb up then logf "FATAL: %v" ;;; pure (Exited 1)
        else
          d <- initializeDevices ;;
          match d with
          | None => logf "FATAL: %v" ;;; pure (Exited 1)
          | Some devices =>
              if negb (existsb (fun g => initFanCount g >? 0) devices) then
                logf "INFO: No devices with controllable fans were found or initialized. Exiting." ;;;
                nvmlCleanup ;;;
                pure (Exited 0)
              else
                r <- runMonitoringLoop config devices n ;;
                match snd r with
                | None =>
                    nvmlCleanup ;;;
                    write Stderr "panic: non-positive interval for NewTicker" ;;;
                    pure (Exited 2)
                | Some gs => pure (Looping (fst r) gs)
                end
          end
    end.

(** [main]: [args] is [os.Args]; the process outcome is the argument of
    [os.Exit], or the monitoring loop. *)
Definition main (os : osEnv) (args : list string) (n : nat) : Prog outcome :=
  match args with
  | [] | [_] => printUsage ;;; pure (Exited 2)
  | _ :: cmd :: rest =>
      if String.eqb cmd "daemon" then
        match flagParse os "daemon" rest with
        | None => write Stderr (flagErrorText os "daemon" rest) ;;; pure (Exited 2)
        | Some f => cmdDaemon os (configPath f) (logPath f) (curve f) n
        end
      else if String.eqb cmd "status" then
        match flagParse os "status" rest with
        | None => write Stderr (flagErrorText os "status" rest) ;;; pure (Exited 2)
        | Some f => code <- cmdStatus (gpuIdx f) (verbose f) ;; pure (Exited code)
        end
      else if String.eqb cmd "set" then
        match flagParse os "set" rest with
        | None => write Stderr (flagErrorText os "set" rest) ;;; pure (Exited 2)
        | Some f =>
            if speedFlag f <? 0 then
              write Stderr "set: -speed is required" ;;; pure (Exited 2)
            else
              match parseFanList os (fansStr f) with
              | None => write Stderr "set: %v" ;;; pure (Exited 2)
              | Some fans =>
                  code <- cmdSet (gpuIdx f) fans (speedFlag f) (verbose f) ;;
                  pure (Exited code)
              end
        end
      else if String.eqb cmd "auto" then
        match flagParse os "auto" rest with
        | None => write Stderr (flagErrorText os "auto" rest) ;;; pure (Exited 2)
        | Some f =>
            match parseFanList os (fansStr f) with
            | None => write Stderr "auto: %v" ;;; pure (Exited 2)
            | Some fans =>
                code <- cmdAuto (gpuIdx f) fans (verbose f) ;;
                pure (Exited code)
            end
        end
      else printUsage ;;; pure (Exited 2)
  end.

(* ------------------------------------------------------------------ *)
(** * The words of the specification *)

(** "Ascending by [(minTemp, maxTemp)]". *)
Definition rangeKeyLe (r1 r2 : TemperatureRange) : Prop :=
  MinTemperature r1 < MinTemperature r2 \/
  (MinTemperature r1 = MinTemperature r2 /\ MaxTemperature r1 <= MaxTemperature r2).

Definition hasRangeKey (lo hi : Z) (r : TemperatureRange) : bool :=
  (MinTemperature r =? lo) && (MaxTemperature r =? hi).

Definition hasTemp (t : Z) (p : curvePoint) : bool := temp p =? t.

(** "Stable-sort": [sorted] is [l] in ascending order of [le], and the
    elements of every class [sameKey k] stand in the order they have in
    [l]. *)
Definition StableSorted {A K : Type} (le : A -> A -> Prop) (sameKey : K -> A -> bool)
  (l sorted : list A) : Prop :=
  Permutation l sorted /\
  StronglySorted le sorted /\
  forall k, filter (sameKey k) sorted = filter (sameKey k) l.

(** "Deduplicate equal-temp points keeping the last occurrence": in a
    list sorted by temperature a point is dropped exactly when the point
    after it has its temperature. *)
Fixpoint keepLastPerTemp (pts : list curvePoint) : list curvePoint :=
  match pts with
  | [] => []
  | p :: rest =>
      match rest with
      | [] => [p]
      | q :: _ =>
          if temp p =? temp q then keepLastPerTemp rest
          else p :: keepLastPerTemp rest
      end
  end.

(** "[a.speed + (temp - a.temp)/(b.temp - a.temp) * (b.speed - a.speed)]"
    over the rationals. *)
Definition exactInterpolation (tempC : Z) (a b : curvePoint) : Q :=
  (inject_Z (speed a) +
   (inject_Z (tempC - temp a) / inject_Z (temp b - temp a)) *
   inject_Z (speed b - speed a))%Q.

(** "Round-half-away-from-zero" of a rational. *)
Definition roundHalfAway (q : Q) : Z :=
  let n := Qnum q in
  let d := Z.pos (Qden q) in
  Z.sgn n * ((2 * Z.abs n + d) / (2 * d)).


(** "[speedAt(temp, profile)]", rules 1 to 4 in priority order, with the
    interpolation over the rationals and halves rounded away from zero.
    [None] where the rules name no result (no adjacent pair around the
    temperature). *)
Definition speedAtSpec (tempC : Z) (p : curveProfile) : option (Z * Z) :=
  if tempC <? floorEndTemp p then Some (floorSpeed p, floorHyst p)
  else
    match points p with
    | [] => Some (floorSpeed p, floorHyst p)
    | p0 :: _ =>
        if tempC <? temp p0 then Some (floorSpeed p, floorHyst p)
        else
          let lastPt := last (points p) p0 in
          if temp lastPt <=? tempC then Some (speed lastPt, hyst lastPt)
          else
            match find (fun ab => (temp (fst ab) <=? tempC) && (tempC <? temp (snd ab)))
                       (combine (points p) (tl (points p))) with
            | Some (a, b) =>
                Some (clampInt (roundHalfAway (exactInterpolation tempC a b)) 0 100, hyst a)
            | None => None
            end
    end.





(** "Repeated ticks with unchanged temperature": [n] ticks of a GPU that
    all read the temperature [t]. *)
Fixpoint repeatControl (config : Config) (m : loopMode) (device : N) (t : Z)
  (n : nat) (g : gpuState) : Prog gpuState :=
  match n with
  | O => pure g
  | S n' => g' <- controlGpu config m device t g ;; repeatControl config m device t n' g'
  end.

(** The writes of a log that address fan [k]. *)
Definition writesToFan (k : Z) (c : nvmlCall) : bool :=
  match c with
  | DeviceSetFanControlPolicy _ fanIdx _ | DeviceSetFanSpeed_v2 _ fanIdx _ => fanIdx =? k
  | _ => false
  end.



(** The AUTO policy write for each fan index from [fanIdx] on. *)
Fixpoint autoWrites (device : N) (fanIdx : Z) (fans : list Z) : list nvmlCall :=
  match fans with
  | [] => []
  | _ :: rest =>
      DeviceSetFanControlPolicy device fanIdx FAN_POLICY_TEMPERATURE_CONTINOUS_SW
        :: autoWrites device (fanIdx + 1) rest
  end.

(* ------------------------------------------------------------------ *)
(** * Example data *)

(** A hardware that answers every call with [SUCCESS] and the value [v]
    (one GPU, one fan, temperature [v], as the call asks). *)
Definition steadyEnv (v : N) : nvmlEnv := fun _ _ => mkAnswer SUCCESS v.

Definition emptyWorld : world := mkWorld [] [].


Definition tieProfile : curveProfile :=
  mkProfile 40 0 3 [ mkPoint 40 0 3; mkPoint 50 45 3 ].

(** Bands that cover the whole range of [int]. *)
Definition wideRanges : list TemperatureRange :=
  [ mkRange (- 2 ^ 63) (- 2 ^ 62) 0 3;
    mkRange (- 2 ^ 62) (2 ^ 62) 50 3;
    mkRange (2 ^ 62) (2 ^ 63 - 1) 100 3 ].

Definition wideProfile : curveProfile :=
  mkProfile (- 2 ^ 62) 0 3 [ mkPoint (- 2 ^ 62) 50 3; mkPoint (2 ^ 62) 100 3 ].

(** A band from 0 to 63963661655121 degrees, more than [2^45] wide. *)
Definition farRanges : list TemperatureRange :=
  [ mkRange (- 10) 0 64 3;
    mkRange 0 63963661655121 64 3;
    mkRange 63963661655121 63963661655200 87 3 ].

Definition farProfile : curveProfile :=
  mkProfile 0 64 3 [ mkPoint 0 64 3; mkPoint 63963661655121 87 3 ].

(** A profile no builder makes: setpoint speeds of magnitude [2^60]. *)
Definition steepProfile : curveProfile :=
  mkProfile 0 0 3 [ mkPoint 0 (- 2 ^ 60) 3; mkPoint 2 (2 ^ 60 + 100) 3 ].

(** An operating system whose flag parser yields [f] and whose string
    functions read every fan list as the fan [0]. *)
Definition fixedOs (f : flagValues) (cfg : option Config) : osEnv :=
  mkOs (fun _ _ => Some f) (fun _ _ => "flag provided but not defined"%string) (fun s => s) (fun s => [s]) (fun _ => Some 0)
       (fun _ => true) (fun _ => cfg).

Definition flagsWithSpeed (s : Z) : flagValues :=
  mkFlags "config.json" "/var/log/nvidia_fan_control.log" false 0 "0" s false.

(* ------------------------------------------------------------------ *)
(** * Traces of hardware calls *)

(** Every call the program [m] adds to the log satisfies [Q]. *)
Definition callsAll {A : Type} (Q : nvmlCall -> Prop) (m : Prog A) : Prop :=
  forall (env : nvmlEnv) (w : world),
    exists new, calls (snd (m env w)) = calls w ++ new /\ Forall Q new.

(** What the step loop decides for a fan with the recorded speed
    [prevSpeed]: [Some v] to write [v], [None] to leave the fan. *)
Definition stepDecision (tempInt prevT : Z) (ranges : list TemperatureRange)
  (prevSpeed : Z) : option Z :=
  let newFanSpeed := getFanSpeedForTemperature tempInt prevT prevSpeed ranges in
  if newFanSpeed =? prevSpeed then None else Some newFanSpeed.

(** What the curve loop decides for a fan. *)
Definition curveDecision (tempInt : Z) (p : curveProfile) (lastChange : Z)
  (prevSpeed : Z) : option Z :=
  let (newFanSpeed, hystUsed) := curveSpeedForTempWithProfile tempInt p in
  if newFanSpeed =? prevSpeed then None
  else if abs (GoInt.sub tempInt lastChange) <? hystUsed then None
  else Some newFanSpeed.

(** The shape the two fan loops share: for each fan the decision, and for
    a decision [Some v] the two writes; [msg] is the line logged after a
    write that succeeded.  Returns the new speeds and whether any fan was
    updated. *)
Fixpoint attemptLoop (device : N) (pe pu msg : string) (decide : Z -> option Z)
  (fanIdx : Z) (fans : list Z) : Prog (list Z * bool) :=
  match fans with
  | [] => pure ([], false)
  | prevSpeed :: rest =>
      changed <-
        match decide prevSpeed with
        | None => pure false
        | Some v =>
            ok <- writeManualSpeed pe pu device fanIdx v ;;
            if ok then logf msg ;;; pure true else pure false
        end ;;
      r <- attemptLoop device pe pu msg decide (fanIdx + 1) rest ;;
      pure ((if changed
             then match decide prevSpeed with Some v => v | None => prevSpeed end
             else prevSpeed) :: fst r,
            changed || snd r)
  end.

(** The calls a fan loop can make for the fans [fans], the first of them
    with the index [fanIdx]: for each fan nothing, or the MANUAL policy
    write alone, or the policy write followed by the write of the speed
    decided for the fan. *)
Inductive fanCalls (device : N) (decide : Z -> option Z)
  : Z -> list Z -> list nvmlCall -> Prop :=
| fanCalls_nil (fanIdx : Z) : fanCalls device decide fanIdx [] []
| fanCalls_none (fanIdx s : Z) (fans : list Z) (cs : list nvmlCall) :
    fanCalls device decide (fanIdx + 1) fans cs ->
    fanCalls device decide fanIdx (s :: fans) cs
| fanCalls_policy (fanIdx s v : Z) (fans : list Z) (cs : list nvmlCall) :
    decide s = Some v ->
    fanCalls device decide (fanIdx + 1) fans cs ->
    fanCalls device decide fanIdx (s :: fans)
      (DeviceSetFanControlPolicy device fanIdx FAN_POLICY_MANUAL :: cs)
| fanCalls_speed (fanIdx s v : Z) (fans : list Z) (cs : list nvmlCall) :
    decide s = Some v ->
    fanCalls device decide (fanIdx + 1) fans cs ->
    fanCalls device decide fanIdx (s :: fans)
      (DeviceSetFanControlPolicy device fanIdx FAN_POLICY_MANUAL
         :: DeviceSetFanSpeed_v2 device fanIdx v :: cs).

(** The slice [prevFanSpeeds[i]] has [fanCounts[i]] entries. *)
Definition gpuSized (g : gpuState) : Prop :=
  List.length (prevFanSpeeds g) = Z.to_nat (fanCount g).

Definition gpuInitSized (d : gpuInit) : Prop :=
  List.length (initFanSpeeds d) = Z.to_nat (initFanCount d).

(** The two writes of [cmdSet] for each fan of the list. *)
Definition setWrites (device : N) (speedPct : Z) (fans : list Z) : list nvmlCall :=
  flat_map (fun fanIdx =>
              [DeviceSetFanControlPolicy device fanIdx FAN_POLICY_MANUAL;
               DeviceSetFanSpeed_v2 device fanIdx speedPct]) fans.

(** A hardware that refuses: every write is answered with an error. *)
Definition refusesWrites (env : nvmlEnv) : Prop :=
  forall h c, isWrite c = true -> ret (env h c) <> SUCCESS.

(** A hardware that accepts: every write is answered with [SUCCESS]. *)
Definition acceptsWrites (env : nvmlEnv) : Prop :=
  forall h c, isWrite c = true -> ret (env h c) = SUCCESS.

(** A hardware that answers every call with the error [r]. *)
Definition failingEnv (r : nvmlReturn) : nvmlEnv := fun _ _ => mkAnswer r 0.

(** The NVML session of a command: when [Init] fails it is the only call
    and the result is 1; when it succeeds it is the first call, [Shutdown]
    is the last, and neither occurs in between. *)
Definition bracketed (m : Prog Z) : Prop :=
  forall (env : nvmlEnv) (w : world),
    (ret (env (calls w) Init) <> SUCCESS ->
     fst (m env w) = 1 /\ calls (snd (m env w)) = calls w ++ [Init]) /\
    (ret (env (calls w) Init) = SUCCESS ->
     exists mid,
       calls (snd (m env w)) = calls w ++ Init :: mid ++ [Shutdown] /\
       ~ In Init mid /\ ~ In Shutdown mid).

(** The AUTO policy write of [cmdAuto] for each fan of the list. *)
Definition autoPolicyWrites (device : N) (fans : list Z) : list nvmlCall :=
  map (fun fanIdx =>
         DeviceSetFanControlPolicy device fanIdx FAN_POLICY_TEMPERATURE_CONTINOUS_SW)
      fans.

(* ================================================================== *)
(** * Properties *)

(* ------------------------------------------------------------------ *)
(** ** Machine integers *)

Lemma wrap_in_range (x : Z) : GoInt.in_range x -> GoInt.wrap x = x.
Proof.
  unfold GoInt.in_range, GoInt.wrap, GoInt.min_int, GoInt.max_int. intros H.
  rewrite Z.mod_small; lia.
Qed.

Lemma wrap_range (x : Z) : GoInt.in_range (GoInt.wrap x).
Proof.
  unfold GoInt.in_range, GoInt.wrap, GoInt.min_int, GoInt.max_int.
  pose proof (Z.mod_pos_bound (x + 2 ^ 63) (2 ^ 64) ltac:(lia)). lia.
Qed.

Lemma abs_sub_exact (x y : Z) :
  - 2 ^ 63 < x - y < 2 ^ 63 -> abs (GoInt.sub x y) = Z.abs (x - y).
Proof.
  intros H. unfold abs, GoInt.sub, GoInt.neg.
  rewrite (wrap_in_range (x - y))
    by (unfold GoInt.in_range, GoInt.min_int, GoInt.max_int; lia).
  destruct (Z.ltb_spec (x - y) 0).
  - rewrite wrap_in_range
      by (unfold GoInt.in_range, GoInt.min_int, GoInt.max_int; lia). lia.
  - lia.
Qed.

Lemma clampInt_bounds (x lo hi : Z) : lo <= hi -> lo <= clampInt x lo hi <= hi.
Proof.
  intros H. unfold clampInt.
  destruct (Z.ltb_spec x lo); [lia|].
  destruct (Z.gtb_spec x hi); lia.
Qed.

Lemma clampInt_max_min (x lo hi : Z) :
  lo <= hi -> clampInt x lo hi = Z.max lo (Z.min x hi).
Proof.
  intros H. unfold clampInt.
  destruct (Z.ltb_spec x lo); [lia|].
  destruct (Z.gtb_spec x hi); lia.
Qed.

(* ------------------------------------------------------------------ *)
(** ** Step policy *)

Lemma inBand_spec (tempC : Z) (r : TemperatureRange) :
  inBand tempC r = true <-> MinTemperature r < tempC <= MaxTemperature r.
Proof.
  unfold inBand. rewrite andb_true_iff, Z.gtb_lt, Z.leb_le. tauto.
Qed.

Lemma mayChange_spec (tempC prevT prevSpeed : Z) (r : TemperatureRange) :
  mayChange tempC prevT prevSpeed r = true <->
  abs (GoInt.sub tempC prevT) >= Hysteresis r \/ prevSpeed <> FanSpeed r.
Proof.
  unfold mayChange. rewrite orb_true_iff, negb_true_iff, Z.geb_le, Z.eqb_neq. lia.
Qed.

Lemma step_skips_prefix (tempC prevT prevSpeed : Z) (pre rest : list TemperatureRange) :
  (forall q, In q pre -> ~ (MinTemperature q < tempC <= MaxTemperature q)) ->
  getFanSpeedForTemperature tempC prevT prevSpeed (pre ++ rest) =
  getFanSpeedForTemperature tempC prevT prevSpeed rest.
Proof.
  induction pre as [|q pre IH]; intros Hpre; simpl; [reflexivity|].
  destruct (inBand tempC q) eqn:E.
  - apply inBand_spec in E. exfalso. apply (Hpre q); [now left | exact E].
  - apply IH. intros q' Hq'. apply Hpre. now right.
Qed.

(** In the hold branch the previous speed is the speed of the range: a
    matching range always decides the value returned. *)
Lemma step_match_value (tempC prevT prevSpeed : Z) (r : TemperatureRange)
  (rest : list TemperatureRange) :
  inBand tempC r = true ->
  getFanSpeedForTemperature tempC prevT prevSpeed (r :: rest) = FanSpeed r.
Proof.
  intros E. simpl. rewrite E.
  destruct (mayChange tempC prevT prevSpeed r) eqn:M; [reflexivity|].
  unfold mayChange in M. apply orb_false_iff in M. destruct M as [_ M].
  apply negb_false_iff in M. now apply Z.eqb_eq in M.
Qed.

(** C4.  The step policy scans the ranges in the given order; the first
    range with [minTemp < temp <= maxTemp] is the match.  With a match the
    result is the range's fan speed when [abs(temp - prevTemp) >=
    hysteresis] or [prevSpeed] differs from that fan speed, and
    [prevSpeed] otherwise; with no matching range it is [prevSpeed].
    [abs] and [-] are the program's; they are the absolute value and the
    difference of the integers whenever the difference fits an [int]. *)
Theorem step_policy_first_match :
  forall (tempC prevT prevSpeed : Z) (ranges : list TemperatureRange),
    (forall pre r post,
        ranges = pre ++ r :: post ->
        (forall q, In q pre -> ~ (MinTemperature q < tempC <= MaxTemperature q)) ->
        MinTemperature r < tempC <= MaxTemperature r ->
        (abs (GoInt.sub tempC prevT) >= Hysteresis r \/ prevSpeed <> FanSpeed r ->
         getFanSpeedForTemperature tempC prevT prevSpeed ranges = FanSpeed r) /\
        (~ (abs (GoInt.sub tempC prevT) >= Hysteresis r \/ prevSpeed <> FanSpeed r) ->
         getFanSpeedForTemperature tempC prevT prevSpeed ranges = prevSpeed)) /\
    ((forall q, In q ranges -> ~ (MinTemperature q < tempC <= MaxTemperature q)) ->
     getFanSpeedForTemperature tempC prevT prevSpeed ranges = prevSpeed) /\
    (- 2 ^ 63 < tempC - prevT < 2 ^ 63 ->
     abs (GoInt.sub tempC prevT) = Z.abs (tempC - prevT)).
Proof.
  intros tempC prevT prevSpeed ranges. split; [|split].
  - intros pre r post -> Hpre Hr.
    rewrite step_skips_prefix by exact Hpre.
    apply inBand_spec in Hr. simpl. rewrite Hr.
    split; intros H.
    + apply mayChange_spec in H. now rewrite H.
    + destruct (mayChange tempC prevT prevSpeed r) eqn:M; [|reflexivity].
      apply mayChange_spec in M. contradiction.
  - intros Hnone.
    rewrite <- (app_nil_r ranges). now rewrite step_skips_prefix.
  - apply abs_sub_exact.
Qed.

Lemma step_policy_first_match_witness :
  getFanSpeedForTemperature 50 45 30 exampleRanges = 40 /\
  getFanSpeedForTemperature 50 49 40 exampleRanges = 40 /\
  getFanSpeedForTemperature 300 45 30 exampleRanges = 30 /\
  abs (GoInt.sub 50 45) = 5.
Proof.
  destruct (step_policy_first_match 50 45 30 exampleRanges) as [H1 [_ H3]].
  destruct (step_policy_first_match 50 49 40 exampleRanges) as [H4 _].
  destruct (step_policy_first_match 300 45 30 exampleRanges) as [_ [H2 _]].
  split; [|split; [|split]].
  - refine (proj1 (H1 [mkRange 0 40 30 3] (mkRange 40 60 40 3) _ eq_refl _ _) _).
    + intros q [<-|[]]; simpl; lia.
    + simpl; lia.
    + right; simpl; lia.
  - refine (proj2 (H4 [mkRange 0 40 30 3] (mkRange 40 60 40 3) _ eq_refl _ _) _).
    + intros q [<-|[]]; simpl; lia.
    + simpl; lia.
    + vm_compute. intros [H|H]; [apply H; reflexivity | apply H; reflexivity].
  - apply H2. intros q Hq. simpl in Hq.
    repeat (destruct Hq as [<-|Hq]; [simpl; lia|]). destruct Hq.
  - rewrite H3; [reflexivity | lia].
Defined.

(* ------------------------------------------------------------------ *)
(** ** The stable sort *)

Section SliceStableFacts.

Context {A : Type}.
Variable less : A -> A -> bool.

Local Abbreviation notAfter := (notAfter less).
Local Abbreviation unordered := (unordered less).

Hypothesis less_irrefl : forall x, less x x = false.
Hypothesis less_asym : forall x y, less x y = true -> less y x = false.
Hypothesis notAfter_trans :
  forall x y z, notAfter x y -> notAfter y z -> notAfter x z.

Lemma insertStable_perm (x : A) (l : list A) :
  Permutation (x :: l) (insertStable less x l).
Proof.
  induction l as [|y l IH]; simpl; [reflexivity|].
  destruct (less y x); [|reflexivity].
  rewrite perm_swap. now constructor.
Qed.

Lemma sliceStable_perm (l : list A) : Permutation l (sliceStable less l).
Proof.
  induction l as [|x l IH]; simpl; [reflexivity|].
  rewrite <- insertStable_perm. now constructor.
Qed.

Lemma sliceStable_length (l : list A) :
  List.length (sliceStable less l) = List.length l.
Proof. symmetry. apply Permutation_length, sliceStable_perm. Qed.

Lemma insertStable_sorted (x : A) (l : list A) :
  StronglySorted notAfter l -> StronglySorted notAfter (insertStable less x l).
Proof.
  induction l as [|y l IH]; intros Hs; simpl.
  - constructor; constructor.
  - inversion Hs as [|y' l' Hl Hy]; subst.
    destruct (less y x) eqn:E.
    + constructor; [now apply IH|].
      rewrite Forall_forall. intros z Hz.
      apply (Permutation_in _ (Permutation_sym (insertStable_perm x l))) in Hz.
      destruct Hz as [<-|Hz].
      * unfold notAfter. now apply less_asym.
      * rewrite Forall_forall in Hy. now apply Hy.
    + constructor; [exact Hs|].
      constructor; [exact E|].
      rewrite Forall_forall in *. intros z Hz.
      apply notAfter_trans with y; [exact E | now apply Hy].
Qed.

Lemma sliceStable_sorted (l : list A) : StronglySorted notAfter (sliceStable less l).
Proof.
  induction l as [|x l IH]; simpl; [constructor|].
  now apply insertStable_sorted.
Qed.

(** A class of elements that [less] does not order among themselves
    keeps its order. *)
Lemma insertStable_filter (P : A -> bool) (x : A) (l : list A) :
  (forall a b, P a = true -> P b = true -> less a b = false) ->
  filter P (insertStable less x l) = filter P (x :: l).
Proof.
  intros HP. induction l as [|y l IH]; [reflexivity|].
  simpl insertStable. destruct (less y x) eqn:E; [|reflexivity].
  simpl. simpl in IH. rewrite IH.
  destruct (P x) eqn:Px, (P y) eqn:Py; try reflexivity.
  rewrite (HP y x Py Px) in E. discriminate.
Qed.

Lemma sliceStable_filter (P : A -> bool) (l : list A) :
  (forall a b, P a = true -> P b = true -> less a b = false) ->
  filter P (sliceStable less l) = filter P l.
Proof.
  intros HP. induction l as [|x l IH]; [reflexivity|].
  simpl sliceStable. rewrite insertStable_filter by exact HP.
  simpl. now rewrite IH.
Qed.

Lemma unordered_class (x a b : A) :
  unordered x a = true -> unordered x b = true -> less a b = false.
Proof.
  unfold unordered. rewrite !andb_true_iff, !negb_true_iff.
  intros [Hxa Hax] [Hxb Hbx].
  apply (notAfter_trans b x a); assumption.
Qed.

(** The contract determines the result: a sorted list in which every
    class of unordered elements appears as in [l] is [sliceStable l]. *)
Lemma sorted_stable_unique (l1 l2 : list A) :
  StronglySorted notAfter l1 -> StronglySorted notAfter l2 ->
  (forall x, filter (unordered x) l1 = filter (unordered x) l2) ->
  l1 = l2.
Proof.
  assert (Hrefl : forall x, unordered x x = true)
    by (intros x; unfold unordered; now rewrite less_irrefl).
  revert l2. induction l1 as [|x l1 IH]; intros l2 S1 S2 HF.
  - destruct l2 as [|y l2]; [reflexivity|].
    specialize (HF y). simpl in HF. rewrite Hrefl in HF. discriminate.
  - destruct l2 as [|y l2].
    + specialize (HF x). simpl in HF. rewrite Hrefl in HF. discriminate.
    + inversion S1 as [|? ? S1' F1]; inversion S2 as [|? ? S2' F2]; subst.
      rewrite Forall_forall in F1, F2.
      assert (Hxy : less x y = false).
      { assert (In x (filter (unordered x) (y :: l2))) as Hin.
        { rewrite <- HF. simpl. rewrite Hrefl. now left. }
        apply filter_In in Hin. destruct Hin as [[->|Hin] _].
        - apply less_irrefl.
        - exact (F2 x Hin). }
      assert (Hyx : less y x = false).
      { assert (In y (filter (unordered y) (x :: l1))) as Hin.
        { rewrite HF. simpl. rewrite Hrefl. now left. }
        apply filter_In in Hin. destruct Hin as [[->|Hin] _].
        - apply less_irrefl.
        - exact (F1 y Hin). }
      assert (x = y) as <-.
      { specialize (HF x). simpl in HF. rewrite Hrefl in HF.
        assert (unordered x y = true) as Hu
          by (unfold unordered; now rewrite Hxy, Hyx).
        rewrite Hu in HF. now injection HF. }
      f_equal. apply IH; [assumption|assumption|].
      intros z. specialize (HF z). simpl in HF.
      destruct (unordered z x); [now injection HF | exact HF].
Qed.

(** Every list that meets the contract of [sort.SliceStable] for [l] is
    the list of the model. *)
Lemma sliceStable_unique (l l' : list A) :
  StronglySorted notAfter l' ->
  (forall x, filter (unordered x) l' = filter (unordered x) l) ->
  l' = sliceStable less l.
Proof.
  intros S HF. apply sorted_stable_unique; [exact S | apply sliceStable_sorted |].
  intros x. rewrite HF. symmetry. apply sliceStable_filter.
  apply unordered_class.
Qed.

End SliceStableFacts.

(* ------------------------------------------------------------------ *)
(** ** The curve profile builder *)

Lemma rangeLess_irrefl (r : TemperatureRange) : rangeLess r r = false.
Proof. unfold rangeLess. rewrite Z.eqb_refl. apply Z.ltb_irrefl. Qed.

Lemma rangeLess_false (r1 r2 : TemperatureRange) :
  rangeLess r2 r1 = false <-> rangeKeyLe r1 r2.
Proof.
  unfold rangeLess, rangeKeyLe.
  destruct (Z.eqb_spec (MinTemperature r2) (MinTemperature r1));
    rewrite Z.ltb_ge; lia.
Qed.

Lemma rangeLess_asym (r1 r2 : TemperatureRange) :
  rangeLess r1 r2 = true -> rangeLess r2 r1 = false.
Proof.
  unfold rangeLess.
  destruct (Z.eqb_spec (MinTemperature r1) (MinTemperature r2));
    destruct (Z.eqb_spec (MinTemperature r2) (MinTemperature r1));
    rewrite Z.ltb_lt, Z.ltb_ge; lia.
Qed.

Lemma rangeLess_trans (r1 r2 r3 : TemperatureRange) :
  notAfter rangeLess r1 r2 -> notAfter rangeLess r2 r3 -> notAfter rangeLess r1 r3.
Proof.
  unfold notAfter. rewrite !rangeLess_false. unfold rangeKeyLe. lia.
Qed.

Lemma pointLess_asym (p q : curvePoint) :
  pointLess p q = true -> pointLess q p = false.
Proof. unfold pointLess. rewrite Z.ltb_lt, Z.ltb_ge. lia. Qed.

Lemma pointLess_trans (p q r : curvePoint) :
  notAfter pointLess p q -> notAfter pointLess q r -> notAfter pointLess p r.
Proof. unfold notAfter, pointLess. rewrite !Z.ltb_ge. lia. Qed.

Lemma StronglySorted_impl {A : Type} (R S : A -> A -> Prop) (l : list A) :
  (forall x y, R x y -> S x y) -> StronglySorted R l -> StronglySorted S l.
Proof.
  intros HRS. induction 1 as [|x l Hl IH Hx]; constructor; [exact IH|].
  rewrite Forall_forall in *. auto.
Qed.

Lemma sliceStable_ranges (ranges : list TemperatureRange) :
  StableSorted rangeKeyLe (fun k => hasRangeKey (fst k) (snd k))
               ranges (sliceStable rangeLess ranges).
Proof.
  split; [apply sliceStable_perm|split].
  - apply StronglySorted_impl with (R := notAfter rangeLess).
    + intros x y. apply rangeLess_false.
    + apply sliceStable_sorted; [apply rangeLess_asym | apply rangeLess_trans].
  - intros [lo hi]. apply sliceStable_filter. simpl.
    unfold hasRangeKey, rangeLess. intros a b.
    rewrite !andb_true_iff, !Z.eqb_eq. intros [-> ->] [-> ->].
    rewrite Z.eqb_refl. apply Z.ltb_irrefl.
Qed.

Lemma sliceStable_points (pts : list curvePoint) :
  StableSorted (fun p q => temp p <= temp q) hasTemp pts (sliceStable pointLess pts).
Proof.
  split; [apply sliceStable_perm|split].
  - apply StronglySorted_impl with (R := notAfter pointLess).
    + intros x y. unfold notAfter, pointLess. now rewrite Z.ltb_ge.
    + apply sliceStable_sorted; [apply pointLess_asym | apply pointLess_trans].
  - intros t. apply sliceStable_filter.
    unfold hasTemp, pointLess. intros a b.
    rewrite !Z.eqb_eq. intros -> ->. apply Z.ltb_irrefl.
Qed.

Lemma keepLastPerTemp_nonempty (p : curvePoint) (l : list curvePoint) :
  keepLastPerTemp (p :: l) <> [].
Proof.
  revert p. induction l as [|q l IH]; intros p; simpl; [discriminate|].
  destruct (temp p =? temp q); [apply IH | discriminate].
Qed.

Lemma dedupStep_cons (a p : curvePoint) (l : list curvePoint) :
  l <> [] -> dedupStep (a :: l) p = a :: dedupStep l p.
Proof.
  intros Hl. destruct l as [|b l]; [contradiction|].
  unfold dedupStep.
  change (last (a :: b :: l) p) with (last (b :: l) p).
  change (removelast (a :: b :: l)) with (a :: removelast (b :: l)).
  destruct (temp (last (b :: l) p) =? temp p); reflexivity.
Qed.

Lemma dedupStep_keepLast (l : list curvePoint) (p : curvePoint) :
  dedupStep (keepLastPerTemp l) p = keepLastPerTemp (l ++ [p]).
Proof.
  induction l as [|a l IH]; [reflexivity|].
  destruct l as [|b l].
  - simpl. destruct (temp a =? temp p); reflexivity.
  - change (keepLastPerTemp (a :: b :: l))
      with (if temp a =? temp b then keepLastPerTemp (b :: l)
            else a :: keepLastPerTemp (b :: l)).
    change (keepLastPerTemp ((a :: b :: l) ++ [p]))
      with (if temp a =? temp b then keepLastPerTemp ((b :: l) ++ [p])
            else a :: keepLastPerTemp ((b :: l) ++ [p])).
    destruct (temp a =? temp b); [exact IH|].
    rewrite dedupStep_cons by apply keepLastPerTemp_nonempty.
    now rewrite IH.
Qed.

(** The loop of the source computes the deduplication of the
    specification. *)
Lemma dedupPoints_keepLast (pts : list curvePoint) :
  dedupPoints pts = keepLastPerTemp pts.
Proof.
  unfold dedupPoints. induction pts as [|p pts IH] using rev_ind; [reflexivity|].
  rewrite fold_left_app. simpl. rewrite IH. apply dedupStep_keepLast.
Qed.

Lemma keepLastPerTemp_incl (pts : list curvePoint) (p : curvePoint) :
  In p (keepLastPerTemp pts) -> In p pts.
Proof.
  induction pts as [|a l IH]; [easy|].
  destruct l as [|b l]; [easy|].
  change (keepLastPerTemp (a :: b :: l))
    with (if temp a =? temp b then keepLastPerTemp (b :: l)
          else a :: keepLastPerTemp (b :: l)).
  destruct (temp a =? temp b).
  - intros H. right. now apply IH.
  - intros [<-|H]; [now left | right; now apply IH].
Qed.


(** C2.  For a non-empty list of ranges the builder stable-sorts the
    ranges ascending by [(minTemp, maxTemp)]; the first sorted range is the
    floor ([floorEndTemp] its [maxTemp], [floorSpeed] its fan speed clamped
    to [0,100], [floorHysteresis] its hysteresis); every remaining range
    becomes the setpoint [(minTemp, clamped fan speed, hysteresis)]; the
    setpoints are stable-sorted ascending by temperature and deduplicated
    per temperature, the last occurrence kept.  On the example ranges the
    result is the example profile. *)
Theorem builder_sorts_floor_setpoints :
  (forall ranges : list TemperatureRange,
      ranges <> [] ->
      exists (rs : list TemperatureRange) (floor : TemperatureRange)
             (rest : list TemperatureRange) (pts : list curvePoint)
             (prof : curveProfile),
        buildCurveProfileFromRanges ranges = inr prof /\
        StableSorted rangeKeyLe (fun k => hasRangeKey (fst k) (snd k)) ranges rs /\
        rs = floor :: rest /\
        floorEndTemp prof = MaxTemperature floor /\
        floorSpeed prof = Z.max 0 (Z.min (FanSpeed floor) 100) /\
        floorHyst prof = Hysteresis floor /\
        StableSorted (fun p q => temp p <= temp q) hasTemp
          (map (fun r => mkPoint (MinTemperature r)
                                 (Z.max 0 (Z.min (FanSpeed r) 100))
                                 (Hysteresis r)) rest)
          pts /\
        points prof = keepLastPerTemp pts) /\
  buildCurveProfileFromRanges exampleRanges = inr exampleProfile.
Proof.
  split; [|reflexivity].
  intros ranges Hne.
  destruct ranges as [|r0 ranges0] eqn:Er; [contradiction|]. rewrite <- Er.
  destruct (sliceStable rangeLess ranges) as [|floor rest] eqn:Es.
  { pose proof (sliceStable_length rangeLess ranges) as HL.
    rewrite Es, Er in HL. discriminate. }
  exists (floor :: rest), floor, rest,
         (sliceStable pointLess (map pointOfRange rest)),
         (mkProfile (MaxTemperature floor) (clampInt (FanSpeed floor) 0 100)
                    (Hysteresis floor)
                    (dedupPoints (sliceStable pointLess (map pointOfRange rest)))).
  split; [|split; [|split; [|split; [|split; [|split; [|split]]]]]].
  - rewrite Er. unfold buildCurveProfileFromRanges. rewrite <- Er, Es. reflexivity.
  - rewrite <- Es. apply sliceStable_ranges.
  - reflexivity.
  - reflexivity.
  - simpl. apply clampInt_max_min. lia.
  - reflexivity.
  - replace (map _ rest) with (map pointOfRange rest).
    + apply sliceStable_points.
    + apply map_ext. intros r. unfold pointOfRange.
      now rewrite clampInt_max_min by lia.
  - simpl. apply dedupPoints_keepLast.
Qed.

Lemma builder_sorts_floor_setpoints_witness :
  exists prof, buildCurveProfileFromRanges exampleRanges = inr prof /\
               floorEndTemp prof = 40.
Proof.
  destruct (proj1 builder_sorts_floor_setpoints exampleRanges)
    as (rs & fl & rest & pts & prof & Hb & _).
  - discriminate.
  - exists prof. split; [exact Hb|].
    vm_compute in Hb. injection Hb as <-. reflexivity.
Defined.

(* ------------------------------------------------------------------ *)
(** ** The curve lookup *)





Lemma last_In {A : Type} (x d : A) (l : list A) : In (last (x :: l) d) (x :: l).
Proof.
  revert x. induction l as [|y l IH]; intros x; [now left|].
  change (last (x :: y :: l) d) with (last (y :: l) d). right. apply IH.
Qed.

Lemma segmentLoop_speed_bounds (tempC : Z) (pts : list curvePoint) (lastPt : curvePoint) :
  (forall p, In p pts -> 0 <= speed p <= 100) ->
  0 <= speed lastPt <= 100 ->
  0 <= fst (snd (segmentLoop tempC pts lastPt)) <= 100.
Proof.
  induction pts as [|a pts IH]; intros Hpts Hlast; [exact Hlast|].
  destruct pts as [|b pts]; [exact Hlast|].
  cbn [segmentLoop].
  destruct ((tempC >=? temp a) && (tempC <? temp b)).
  - destruct (GoInt.sub (temp b) (temp a) <=? 0); cbn [fst snd].
    + apply Hpts. now left.
    + apply clampInt_bounds. lia.
  - apply IH; [|exact Hlast]. intros p Hp. apply Hpts. now right.
Qed.

(** The shape of every profile the builder returns. *)
Lemma builder_inv (ranges : list TemperatureRange) (prof : curveProfile) :
  buildCurveProfileFromRanges ranges = inr prof ->
  exists floor rest,
    sliceStable rangeLess ranges = floor :: rest /\
    prof = mkProfile (MaxTemperature floor) (clampInt (FanSpeed floor) 0 100)
                     (Hysteresis floor)
                     (keepLastPerTemp (sliceStable pointLess (map pointOfRange rest))).
Proof.
  intros Hb. destruct ranges as [|r0 ranges0] eqn:Er; [discriminate|]. rewrite <- Er in *.
  destruct (sliceStable rangeLess ranges) as [|floor rest] eqn:Es.
  { pose proof (sliceStable_length rangeLess ranges) as HL.
    rewrite Es, Er in HL. discriminate. }
  exists floor, rest. split; [reflexivity|].
  rewrite Er in Hb. unfold buildCurveProfileFromRanges in Hb.
  rewrite <- Er, Es in Hb. simpl in Hb. rewrite dedupPoints_keepLast in Hb.
  now injection Hb as <-.
Qed.

Lemma builder_point_speed (ranges : list TemperatureRange) (prof : curveProfile) :
  buildCurveProfileFromRanges ranges = inr prof ->
  0 <= floorSpeed prof <= 100 /\
  forall p, In p (points prof) -> 0 <= speed p <= 100.
Proof.
  intros Hb. destruct (builder_inv _ _ Hb) as (floor & rest & _ & ->). simpl.
  split; [apply clampInt_bounds; lia|].
  intros p Hp. apply keepLastPerTemp_incl in Hp.
  apply (Permutation_in _ (Permutation_sym (sliceStable_perm pointLess _))) in Hp.
  apply in_map_iff in Hp. destruct Hp as (r & <- & _). simpl.
  apply clampInt_bounds. lia.
Qed.


(** C9.  On every profile the builder returns, the lookup yields a speed
    in [0,100] at every temperature, whatever the configured fan speeds:
    the floor speed and every setpoint speed of the profile are in
    [0,100], and so is every interpolated result. *)
Theorem curve_speed_in_percent_range :
  forall (ranges : list TemperatureRange) (prof : curveProfile),
    buildCurveProfileFromRanges ranges = inr prof ->
    0 <= floorSpeed prof <= 100 /\
    (forall p, In p (points prof) -> 0 <= speed p <= 100) /\
    (forall tempC : Z, 0 <= fst (curveSpeedForTempWithProfile tempC prof) <= 100).
Proof.
  intros ranges prof Hb.
  destruct (builder_point_speed _ _ Hb) as [Hfloor Hpts].
  split; [exact Hfloor|]. split; [exact Hpts|]. intros tempC.
  unfold curveSpeedForTempWithProfile, curveSpeedSite.
  destruct (tempC <? floorEndTemp prof); [exact Hfloor|].
  destruct (points prof) as [|p0 rest] eqn:Ep; [exact Hfloor|].
  destruct (tempC <? temp p0); [exact Hfloor|].
  assert (Hl : 0 <= speed (last (p0 :: rest) p0) <= 100)
    by (apply Hpts, last_In).
  destruct (tempC >=? temp (last (p0 :: rest) p0)); [exact Hl|].
  now apply segmentLoop_speed_bounds.
Qed.

Lemma curve_speed_in_percent_range_witness :
  0 <= fst (curveSpeedForTempWithProfile 50 exampleProfile) <= 100 /\
  0 <= fst (curveSpeedForTempWithProfile 70
              (mkProfile 40 100 3 [mkPoint 40 0 3; mkPoint 60 100 3])) <= 100.
Proof.
  split.
  - apply (curve_speed_in_percent_range exampleRanges exampleProfile eq_refl).
  - apply (curve_speed_in_percent_range
             [mkRange 0 40 250 3; mkRange 40 60 (-7) 3; mkRange 60 80 400 3]
             (mkProfile 40 100 3 [mkPoint 40 0 3; mkPoint 60 100 3]) eq_refl).
Defined.


(* ------------------------------------------------------------------ *)
(** ** The interpolation in binary64 *)

(** The operations of [float64] are those of the Standard Library's
    [SpecFloat].  The lemmas below read them as operations on values: each
    result is within half a unit in the last place of the exact result,
    and the conversion of an integer below [2^53] is exact. *)









































(** On the example profile the program and the rules over the rationals
    agree at every temperature from -50 to 250 degrees. *)
Lemma example_profile_exact :
  forallb (fun t => match speedAtSpec t exampleProfile with
                    | Some (s, h) =>
                        let r := curveSpeedForTempWithProfile t exampleProfile in
                        (fst r =? s) && (snd r =? h)
                    | None => false
                    end)
          (map (fun i => Z.of_nat i - 50) (seq 0 301)) = true.
Proof. vm_compute. reflexivity. Qed.

(** The tie is the only kind of exception on a segment of at most [2^40]
    degrees: at 47 degrees of the tie profile the interpolation is
    [31 + 1/2] and the program returns 31, the lower of the two
    neighbours. *)
Lemma curve_lookup_tie_is_half :
  let a := mkPoint 40 0 3 in
  let b := mkPoint 50 45 3 in
  (exactInterpolation 47 a b == inject_Z 31 + (1 # 2))%Q /\
  fst (curveSpeedForTempWithProfile 47 tieProfile) = 31 /\
  clampInt (interpolate 47 (temp b - temp a) a b) 0 100 = 31.
Proof. cbv zeta. repeat split; reflexivity. Qed.

(** Why the segments are bounded: on a segment of more than [2^45]
    degrees the binary64 error reaches a value that is not halfway.  At
    62573147271314 degrees between (0 degrees, 64 percent) and
    (63963661655121 degrees, 87 percent) the interpolation is
    5532856733167966 / 63963661655121, under 86.5 and not a half, and the
    program returns 87. *)
Lemma curve_lookup_far_setpoints :
  buildCurveProfileFromRanges farRanges = inr farProfile /\
  (let a := mkPoint 0 64 3 in
   let b := mkPoint 63963661655121 87 3 in
   let q := exactInterpolation 62573147271314 a b in
   2 ^ 45 < temp b - temp a /\
   (q == 5532856733167966 # 63963661655121)%Q /\
   (inject_Z 86 < q)%Q /\ (q < inject_Z 86 + (1 # 2))%Q /\
   clampInt (roundHalfAway q) 0 100 = 86) /\
  curveSpeedForTempWithProfile 62573147271314 farProfile = (87, 3).
Proof.
  split; [reflexivity|]. cbv zeta.
  split; [|vm_compute; reflexivity].
  split; [vm_compute; reflexivity|].
  split; [vm_compute; reflexivity|].
  split; [vm_compute; reflexivity|].
  split; [vm_compute; reflexivity|].
  vm_compute; reflexivity.
Qed.

(** Why the setpoint speeds are bounded: with speeds of magnitude [2^60]
    the sum [a.speed + ratio * (b.speed - a.speed)] loses the low bits.
    At 1 degree between (0 degrees, [-2^60]) and (2 degrees, [2^60 + 100])
    the interpolation is 50 and the program returns 0. *)
Lemma curve_lookup_steep_setpoints :
  let a := mkPoint 0 (- 2 ^ 60) 3 in
  let b := mkPoint 2 (2 ^ 60 + 100) 3 in
  (exactInterpolation 1 a b == inject_Z 50)%Q /\
  clampInt (roundHalfAway (exactInterpolation 1 a b)) 0 100 = 50 /\
  curveSpeedForTempWithProfile 1 steepProfile = (0, 3).
Proof. cbv zeta. repeat split; vm_compute; reflexivity. Qed.

(** The other way the interpolation is left: the difference of two
    setpoint temperatures that does not fit an [int]. *)
Lemma curve_lookup_den_overflow :
  buildCurveProfileFromRanges wideRanges = inr wideProfile /\
  GoInt.sub (2 ^ 62) (- 2 ^ 62) = - 2 ^ 63 /\
  curveSpeedSite 0 wideProfile = (AtDenGuard, (50, 3)).
Proof. repeat split; reflexivity. Qed.






(* ------------------------------------------------------------------ *)
(** ** The mode machine *)

Lemma nextInAuto_from_auto (t : Z) (p : curveProfile) :
  nextInAuto true t p = false <-> t >= GoInt.add (floorEndTemp p) (floorHyst p).
Proof.
  unfold nextInAuto.
  destruct (Z.geb_spec t (GoInt.add (floorEndTemp p) (floorHyst p)));
    split; intros; try reflexivity; try discriminate; lia.
Qed.

Lemma nextInAuto_from_manual (t : Z) (p : curveProfile) :
  nextInAuto false t p = true <-> t <= GoInt.sub (floorEndTemp p) (floorHyst p).
Proof.
  unfold nextInAuto.
  destruct (Z.leb_spec t (GoInt.sub (floorEndTemp p) (floorHyst p)));
    split; intros; try reflexivity; try discriminate; lia.
Qed.

Lemma controlGpu_inAuto (config : Config) (m : loopMode) (device : N) (t : Z)
  (g : gpuState) (env : nvmlEnv) (w : world) :
  useCurve m = true ->
  inAuto (fst (controlGpu config m device t g env w)) = nextInAuto (inAuto g) t (prof m).
Proof.
  intros Hc. unfold controlGpu. rewrite Hc. unfold bind.
  match goal with |- context [?l env w] =>
    match type of (l env w) with (unit * world)%type => destruct (l env w) as [[] w1] end
  end.
  destruct (nextInAuto (inAuto g) t (prof m)).
  - destruct (autoFanLoop device 0 (prevFanSpeeds g) env w1). reflexivity.
  - destruct (curveFanLoop device t (prof m) (lastFanChangeTemp g) 0
                (prevFanSpeeds g) env w1). reflexivity.
Qed.

(** C3 (as amended).  In curve mode a GPU starts in AUTO exactly when its
    initial temperature is below [floorEndTemp].  When [floorEndTemp +
    floorHysteresis] fits an [int], a GPU in AUTO goes to MANUAL on a tick
    exactly when [temp >= floorEndTemp + floorHysteresis]; when
    [floorEndTemp - floorHysteresis] fits an [int], a GPU in MANUAL goes
    to AUTO exactly when [temp <= floorEndTemp - floorHysteresis];
    otherwise the mode stays.  In general the two thresholds are the
    program's wrapping sum and difference.  With [floorEndTemp = 40] and
    [floorHysteresis = 3]: AUTO stays at 42 and leaves at 43, MANUAL stays
    at 38 and leaves at 37. *)
Theorem mode_machine_deadband :
  (forall (m : loopMode) (d : gpuInit),
      inAuto (startGpu m d) = true <-> initTemp d < floorEndTemp (prof m)) /\
  (forall (config : Config) (m : loopMode) (device : N) (t : Z) (g : gpuState)
          (env : nvmlEnv) (w : world),
      useCurve m = true ->
      let after := inAuto (fst (controlGpu config m device t g env w)) in
      let fe := floorEndTemp (prof m) in
      let fh := floorHyst (prof m) in
      (GoInt.in_range (fe + fh) ->
       inAuto g = true -> (after = false <-> t >= fe + fh)) /\
      (GoInt.in_range (fe - fh) ->
       inAuto g = false -> (after = true <-> t <= fe - fh)) /\
      (inAuto g = true -> (after = false <-> t >= GoInt.add fe fh)) /\
      (inAuto g = false -> (after = true <-> t <= GoInt.sub fe fh)) /\
      (GoInt.in_range (fe + fh) -> GoInt.add fe fh = fe + fh) /\
      (GoInt.in_range (fe - fh) -> GoInt.sub fe fh = fe - fh)) /\
  nextInAuto true 42 exampleProfile = true /\
  nextInAuto true 43 exampleProfile = false /\
  nextInAuto false 38 exampleProfile = false /\
  nextInAuto false 37 exampleProfile = true /\
  initialInAuto 20 exampleProfile = true.
Proof.
  split; [|split; [|repeat split; reflexivity]].
  - intros m d. simpl. unfold initialInAuto. apply Z.ltb_lt.
  - intros config m device t g env w Hc after fe fh. subst after fe fh.
    rewrite (controlGpu_inAuto _ _ _ _ _ _ _ Hc).
    split; [|split; [|split; [|split; [|split]]]].
    + intros Hr ->. rewrite <- (wrap_in_range _ Hr). apply nextInAuto_from_auto.
    + intros Hr ->. rewrite <- (wrap_in_range _ Hr). apply nextInAuto_from_manual.
    + intros ->. apply nextInAuto_from_auto.
    + intros ->. apply nextInAuto_from_manual.
    + apply wrap_in_range.
    + apply wrap_in_range.
Qed.

Lemma mode_machine_deadband_witness :
  inAuto (fst (controlGpu (mkConfig 5 exampleRanges true) (mkMode true exampleProfile)
                 0%N 43 (mkGpu 1 20 [30] true 20) (steadyEnv 43) emptyWorld)) = false /\
  inAuto (fst (controlGpu (mkConfig 5 exampleRanges true) (mkMode true exampleProfile)
                 0%N 37 (mkGpu 1 45 [40] false 45) (steadyEnv 37) emptyWorld)) = true /\
  GoInt.add 40 3 = 43 /\ GoInt.sub 40 3 = 37.
Proof.
  destruct mode_machine_deadband as (_ & H & _).
  pose proof (H (mkConfig 5 exampleRanges true) (mkMode true exampleProfile)
                0%N 43 (mkGpu 1 20 [30] true 20) (steadyEnv 43) emptyWorld eq_refl) as H1.
  pose proof (H (mkConfig 5 exampleRanges true) (mkMode true exampleProfile)
                0%N 37 (mkGpu 1 45 [40] false 45) (steadyEnv 37) emptyWorld eq_refl) as H2.
  cbv zeta in H1, H2.
  destruct H1 as (H1 & _ & _ & _ & H1a & _). destruct H2 as (_ & H2 & _ & _ & _ & H2s).
  assert (Ha : GoInt.in_range (40 + 3)) by (vm_compute; split; discriminate).
  assert (Hs : GoInt.in_range (40 - 3)) by (vm_compute; split; discriminate).
  split; [|split; [|split]].
  - apply (H1 Ha eq_refl). vm_compute. discriminate.
  - apply (H2 Hs eq_refl). vm_compute. discriminate.
  - apply H1a. exact Ha.
  - apply H2s. exact Hs.
Defined.

(** C3, the claim as stated fails: with a floor range that ends at the
    largest [int] and a floor hysteresis of 1 (a profile the builder
    returns) the sum [floorEndTemp + floorHysteresis] wraps around to the
    smallest [int].  A GPU at 50 degrees starts in AUTO and goes to MANUAL
    on its first tick at 50 degrees, although 50 is below the sum. *)
Lemma mode_machine_sum_overflow :
  let ranges := [mkRange 0 9223372036854775807 30 1; mkRange 40 60 50 3] in
  let p := mkProfile 9223372036854775807 30 1 [mkPoint 40 50 3] in
  let m := mkMode true p in
  let g := startGpu m (mkGpuInit 1 50 [30]) in
  buildCurveProfileFromRanges ranges = inr p /\
  inAuto g = true /\
  ~ (50 >= floorEndTemp p + floorHyst p) /\
  GoInt.add (floorEndTemp p) (floorHyst p) = -9223372036854775808 /\
  inAuto (fst (controlGpu (mkConfig 5 ranges true) m 0%N 50 g (steadyEnv 50) emptyWorld)) =
    false.
Proof.
  cbv zeta. split; [reflexivity|]. split; [reflexivity|].
  split; [vm_compute; intros H; now apply H|]. split; reflexivity.
Qed.

(* ------------------------------------------------------------------ *)
(** ** Hardware writes of a tick *)

Lemma filter_snoc_false {A : Type} (f : A -> bool) (l : list A) (x : A) :
  f x = false -> filter f (l ++ [x]) = filter f l.
Proof. intros H. rewrite filter_app. simpl. rewrite H. apply app_nil_r. Qed.

(** The two writes of [writeManualSpeed] address the fan it is given. *)
Lemma writeManualSpeed_other_fan (pe pu : string) (device : N) (fanIdx v k : Z)
  (env : nvmlEnv) (w : world) :
  fanIdx <> k ->
  filter (writesToFan k) (calls (snd (writeManualSpeed pe pu device fanIdx v env w))) =
  filter (writesToFan k) (calls w).
Proof.
  intros Hk. apply Z.eqb_neq in Hk.
  unfold writeManualSpeed, bind, nvml, logf, write, pure.
  destruct (ret (env (calls w) _)); simpl.
  - destruct (ret (env _ _)); simpl;
      rewrite !filter_snoc_false by (simpl; exact Hk); reflexivity.
  - rewrite filter_snoc_false by (simpl; exact Hk); reflexivity.
  - rewrite filter_snoc_false by (simpl; exact Hk); reflexivity.
Qed.

Lemma bind_eq {A B : Type} (m : Prog A) (k : A -> Prog B) (env : nvmlEnv)
  (w w1 : world) (a : A) :
  m env w = (a, w1) -> bind m k env w = k a env w1.
Proof. intros H. unfold bind. now rewrite H. Qed.

Lemma stepFanLoop_quiet_fan (device : N) (t prevT : Z) (ranges : list TemperatureRange)
  (k : Z) :
  forall (fans : list Z) (fanIdx : Z) (env : nvmlEnv) (w : world),
    (forall j s, nth_error fans j = Some s -> fanIdx + Z.of_nat j = k ->
                 getFanSpeedForTemperature t prevT s ranges = s) ->
    let r := stepFanLoop device t prevT ranges fanIdx fans env w in
    filter (writesToFan k) (calls (snd r)) = filter (writesToFan k) (calls w) /\
    (forall j s, nth_error fans j = Some s -> fanIdx + Z.of_nat j = k ->
                 nth_error (fst r) j = Some s).
Proof.
  induction fans as [|s0 fans IH]; intros fanIdx env w Hk; cbv zeta.
  - split; [reflexivity|]. intros j s Hj. destruct j; discriminate.
  - cbn [stepFanLoop].
    set (target := getFanSpeedForTemperature t prevT s0 ranges).
    assert (exists changed w2,
      (if target =? s0 then pure false
       else bind (writeManualSpeed
                "ERROR: Unable to set manual fan control policy for GPU %d Fan %d: %v"
                "WARN: Manual fan control policy not supported for GPU %d Fan %d. Cannot set speed."
                device fanIdx target)
              (fun ok => if ok
                 then bind (logf "INFO: Updated GPU %d Fan %d: Temp=%d C, PrevSpeed=%d%%, NewSpeed=%d%%") (fun _ => pure true)
                 else pure false)) env w = (changed, w2) /\
      filter (writesToFan k) (calls w2) = filter (writesToFan k) (calls w) /\
      (fanIdx = k -> changed = false)) as (changed & w2 & Hrun & Hw2 & Hch).
    { destruct (Z.eqb_spec target s0) as [E|E].
      - exists false, w. repeat split; reflexivity.
      - assert (Hne : fanIdx <> k).
        { intros <-. apply E. apply (Hk 0%nat s0 eq_refl). simpl. lia. }
        unfold bind at 1.
        match goal with
        | |- context [writeManualSpeed ?pe ?pu device fanIdx target env w] =>
            pose proof (writeManualSpeed_other_fan pe pu device fanIdx target k env w Hne) as HW;
            destruct (writeManualSpeed pe pu device fanIdx target env w) as [ok w1]
        end.
        simpl in HW.
        destruct ok; eexists; eexists; (split; [reflexivity|]);
          (split; [exact HW | intros; contradiction]). }
    rewrite (bind_eq _ _ _ _ _ _ Hrun).
    specialize (IH (fanIdx + 1) env w2).
    destruct (stepFanLoop device t prevT ranges (fanIdx + 1) fans env w2) as [r w'] eqn:Er.
    rewrite (bind_eq _ _ _ _ _ _ Er).
    cbv zeta in IH. simpl in IH. unfold pure. simpl.
    destruct IH as [IH1 IH2].
    { intros j s Hj Hjk. apply (Hk (S j) s Hj). lia. }
    split; [rewrite IH1; exact Hw2|].
    intros [|j] s Hj Hjk; simpl in *.
    + rewrite Hch by lia. exact Hj.
    + apply IH2; [exact Hj|lia].
Qed.

Lemma curveFanLoop_quiet_fan (device : N) (t : Z) (p : curveProfile) (lastChange k : Z) :
  forall (fans : list Z) (fanIdx : Z) (env : nvmlEnv) (w : world),
    (forall j s, nth_error fans j = Some s -> fanIdx + Z.of_nat j = k ->
                 fst (curveSpeedForTempWithProfile t p) = s) ->
    let r := curveFanLoop device t p lastChange fanIdx fans env w in
    filter (writesToFan k) (calls (snd r)) = filter (writesToFan k) (calls w) /\
    (forall j s, nth_error fans j = Some s -> fanIdx + Z.of_nat j = k ->
                 nth_error (fst (fst r)) j = Some s).
Proof.
  induction fans as [|s0 fans IH]; intros fanIdx env w Hk; cbv zeta.
  - split; [reflexivity|]. intros j s Hj. destruct j; discriminate.
  - cbn [curveFanLoop].
    destruct (curveSpeedForTempWithProfile t p) as [target hystUsed] eqn:Ec.
    simpl in Hk.
    assert (exists changed w2,
      (if target =? s0 then pure false
       else if abs (GoInt.sub t lastChange) <? hystUsed then pure false
       else bind (writeManualSpeed
                "ERROR: Unable to set MANUAL fan policy for GPU %d Fan %d: %v"
                "WARN: MANUAL fan policy not supported for GPU %d Fan %d."
                device fanIdx target)
              (fun ok => if ok
                 then bind (logf "INFO: Updated GPU %d Fan %d (curve): Temp=%d C, PrevSpeed=%d%%, NewSpeed=%d%%, Hyst=%d C") (fun _ => pure true)
                 else pure false)) env w = (changed, w2) /\
      filter (writesToFan k) (calls w2) = filter (writesToFan k) (calls w) /\
      (fanIdx = k -> changed = false)) as (changed & w2 & Hrun & Hw2 & Hch).
    { destruct (Z.eqb_spec target s0) as [E|E].
      - exists false, w. repeat split; reflexivity.
      - assert (Hne : fanIdx <> k).
        { intros <-. apply E. apply (Hk 0%nat s0 eq_refl). simpl. lia. }
        destruct (abs (GoInt.sub t lastChange) <? hystUsed).
        + exists false, w. repeat split; reflexivity.
        + unfold bind at 1.
          match goal with
          | |- context [writeManualSpeed ?pe ?pu device fanIdx target env w] =>
              pose proof (writeManualSpeed_other_fan pe pu device fanIdx target k env w Hne) as HW;
              destruct (writeManualSpeed pe pu device fanIdx target env w) as [ok w1]
          end.
          simpl in HW.
          destruct ok; eexists; eexists; (split; [reflexivity|]);
            (split; [exact HW | intros; contradiction]). }
    rewrite (bind_eq _ _ _ _ _ _ Hrun).
    specialize (IH (fanIdx + 1) env w2).
    destruct (curveFanLoop device t p lastChange (fanIdx + 1) fans env w2) as [r w'] eqn:Er.
    rewrite (bind_eq _ _ _ _ _ _ Er).
    cbv zeta in IH. simpl in IH. unfold pure. simpl.
    destruct IH as [IH1 IH2].
    { intros j s Hj Hjk. apply (Hk (S j) s Hj). lia. }
    split; [rewrite IH1; exact Hw2|].
    intros [|j] s Hj Hjk; simpl in *.
    + rewrite Hch by lia. exact Hj.
    + apply IH2; [exact Hj|lia].
Qed.

Lemma autoFanLoop_calls (device : N) :
  forall (fans : list Z) (fanIdx : Z) (env : nvmlEnv) (w : world),
    calls (snd (autoFanLoop device fanIdx fans env w)) =
    calls w ++ autoWrites device fanIdx fans.
Proof.
  induction fans as [|s0 fans IH]; intros fanIdx env w.
  - simpl. now rewrite app_nil_r.
  - cbn [autoFanLoop autoWrites]. unfold bind at 1. unfold nvml at 1.
    set (w1 := mkWorld (calls w ++ [_]) (output w)).
    unfold bind at 1.
    assert (exists w2,
      (if negb (isSuccess (ret (env (calls w)
                (DeviceSetFanControlPolicy device fanIdx FAN_POLICY_TEMPERATURE_CONTINOUS_SW))))
          && negb (isNotSupported (ret (env (calls w)
                (DeviceSetFanControlPolicy device fanIdx FAN_POLICY_TEMPERATURE_CONTINOUS_SW))))
       then logf "ERROR: Unable to set AUTO fan policy for GPU %d Fan %d: %v"
       else if isNotSupported (ret (env (calls w)
                (DeviceSetFanControlPolicy device fanIdx FAN_POLICY_TEMPERATURE_CONTINOUS_SW)))
            then logf "WARN: AUTO fan policy not supported for GPU %d Fan %d."
            else pure tt) env w1 = (tt, w2) /\ calls w2 = calls w1) as (w2 & -> & Hw2).
    { destruct (ret (env (calls w) _)); simpl; eexists; split; reflexivity. }
    rewrite IH, Hw2. subst w1. simpl. now rewrite <- app_assoc.
Qed.

Lemma autoWrites_no_speed (device : N) (fans : list Z) (fanIdx : Z) :
  filter isSpeedWrite (autoWrites device fanIdx fans) = [].
Proof.
  revert fanIdx. induction fans as [|s fans IH]; intros fanIdx; [reflexivity|].
  simpl. apply IH.
Qed.

Lemma controlGpu_quiet_step (config : Config) (m : loopMode) (device : N) (t : Z)
  (g : gpuState) (env : nvmlEnv) (w : world) (k : nat) (s : Z) :
  nth_error (prevFanSpeeds g) k = Some s ->
  useCurve m = false ->
  getFanSpeedForTemperature t (prevTemp g) s (TemperatureRanges config) = s ->
  filter (writesToFan (Z.of_nat k)) (calls (snd (controlGpu config m device t g env w))) =
  filter (writesToFan (Z.of_nat k)) (calls w) /\
  nth_error (prevFanSpeeds (fst (controlGpu config m device t g env w))) k = Some s.
Proof.
  intros Hk Hc Ht. unfold controlGpu. rewrite Hc.
  pose proof (stepFanLoop_quiet_fan device t (prevTemp g) (TemperatureRanges config)
                (Z.of_nat k) (prevFanSpeeds g) 0 env w) as H.
  cbv zeta in H.
  destruct (stepFanLoop device t (prevTemp g) (TemperatureRanges config) 0
              (prevFanSpeeds g) env w) as [r w'] eqn:Er.
  rewrite (bind_eq _ _ _ _ _ _ Er). unfold pure. simpl in *.
  destruct H as [H1 H2].
  { intros j s' Hj Hjk. assert (j = k) as -> by lia.
    rewrite Hk in Hj. injection Hj as <-. exact Ht. }
  split; [exact H1 | apply H2; [exact Hk | lia]].
Qed.

Lemma controlGpu_quiet_curve (config : Config) (m : loopMode) (device : N) (t : Z)
  (g : gpuState) (env : nvmlEnv) (w : world) (k : nat) (s : Z) :
  nth_error (prevFanSpeeds g) k = Some s ->
  useCurve m = true ->
  nextInAuto (inAuto g) t (prof m) = false ->
  fst (curveSpeedForTempWithProfile t (prof m)) = s ->
  filter (writesToFan (Z.of_nat k)) (calls (snd (controlGpu config m device t g env w))) =
  filter (writesToFan (Z.of_nat k)) (calls w) /\
  nth_error (prevFanSpeeds (fst (controlGpu config m device t g env w))) k = Some s.
Proof.
  intros Hk Hc Hm Ht. unfold controlGpu. rewrite Hc, Hm.
  match goal with |- context [bind ?l _ env w] =>
    destruct (l env w) as [[] w1] eqn:El;
    assert (calls w1 = calls w) as Hw1
      by (destruct (inAuto g); simpl in El; injection El as <-; reflexivity);
    rewrite (bind_eq _ _ _ _ _ _ El)
  end.
  pose proof (curveFanLoop_quiet_fan device t (prof m) (lastFanChangeTemp g)
                (Z.of_nat k) (prevFanSpeeds g) 0 env w1) as H.
  cbv zeta in H.
  destruct (curveFanLoop device t (prof m) (lastFanChangeTemp g) 0
              (prevFanSpeeds g) env w1) as [r w'] eqn:Er.
  rewrite (bind_eq _ _ _ _ _ _ Er). unfold pure. simpl in *.
  destruct H as [H1 H2].
  { intros j s' Hj Hjk. assert (j = k) as -> by lia.
    rewrite Hk in Hj. injection Hj as <-. exact Ht. }
  split; [rewrite H1, Hw1; reflexivity | apply H2; [exact Hk | lia]].
Qed.

Lemma controlGpu_auto_calls (config : Config) (m : loopMode) (device : N) (t : Z)
  (g : gpuState) (env : nvmlEnv) (w : world) :
  useCurve m = true ->
  nextInAuto (inAuto g) t (prof m) = true ->
  calls (snd (controlGpu config m device t g env w)) =
  calls w ++ autoWrites device 0 (prevFanSpeeds g) /\
  prevFanSpeeds (fst (controlGpu config m device t g env w)) = prevFanSpeeds g.
Proof.
  intros Hc Hm. unfold controlGpu. rewrite Hc, Hm.
  match goal with |- context [bind ?l _ env w] =>
    destruct (l env w) as [[] w1] eqn:El;
    assert (calls w1 = calls w) as Hw1
      by (destruct (inAuto g); simpl in El; injection El as <-; reflexivity);
    rewrite (bind_eq _ _ _ _ _ _ El)
  end.
  pose proof (autoFanLoop_calls device (prevFanSpeeds g) 0 env w1) as H.
  destruct (autoFanLoop device 0 (prevFanSpeeds g) env w1) as [[] w'] eqn:Ea.
  rewrite (bind_eq _ _ _ _ _ _ Ea). unfold pure. simpl in *.
  rewrite H, Hw1. split; reflexivity.
Qed.

(** The value of the step policy does not depend on the previous
    temperature: a matching range decides it, and so does none. *)
Lemma step_value_any_prevTemp (t prevT prevT' s : Z) (ranges : list TemperatureRange) :
  getFanSpeedForTemperature t prevT s ranges =
  getFanSpeedForTemperature t prevT' s ranges.
Proof.
  induction ranges as [|r ranges IH]; [reflexivity|].
  destruct (inBand t r) eqn:E.
  - now rewrite !step_match_value.
  - simpl. rewrite E. exact IH.
Qed.

Lemma controlGpu_prevTemp (config : Config) (m : loopMode) (device : N) (t : Z)
  (g : gpuState) (env : nvmlEnv) (w : world) :
  useCurve m = false ->
  prevTemp (fst (controlGpu config m device t g env w)) = t.
Proof.
  intros Hc. unfold controlGpu. rewrite Hc. unfold bind.
  destruct (stepFanLoop device t (prevTemp g) (TemperatureRanges config) 0
              (prevFanSpeeds g) env w). reflexivity.
Qed.

Lemma repeatControl_quiet (config : Config) (m : loopMode) (device : N) (t : Z)
  (env : nvmlEnv) (k : nat) (s : Z) :
  (useCurve m = false \/
   (useCurve m = true /\ nextInAuto false t (prof m) = false /\
    fst (curveSpeedForTempWithProfile t (prof m)) = s)) ->
  forall (n : nat) (g : gpuState) (w : world),
    nth_error (prevFanSpeeds g) k = Some s ->
    (useCurve m = false ->
     getFanSpeedForTemperature t (prevTemp g) s (TemperatureRanges config) = s) ->
    (useCurve m = true -> inAuto g = false) ->
    filter (writesToFan (Z.of_nat k))
      (calls (snd (repeatControl config m device t n g env w))) =
    filter (writesToFan (Z.of_nat k)) (calls w).
Proof.
  intros Hmode. induction n as [|n IH]; intros g w Hk Hstep Hman; [reflexivity|].
  cbn [repeatControl].
  assert (Hone :
    filter (writesToFan (Z.of_nat k)) (calls (snd (controlGpu config m device t g env w))) =
    filter (writesToFan (Z.of_nat k)) (calls w) /\
    nth_error (prevFanSpeeds (fst (controlGpu config m device t g env w))) k = Some s).
  { destruct Hmode as [Hc|(Hc & Hm & Ht)].
    - now apply controlGpu_quiet_step; [|exact Hc|apply Hstep].
    - apply controlGpu_quiet_curve; try assumption. now rewrite (Hman Hc). }
  assert (Hnext1 : useCurve m = false ->
    getFanSpeedForTemperature t
      (prevTemp (fst (controlGpu config m device t g env w))) s
      (TemperatureRanges config) = s).
  { intros Hc. rewrite (step_value_any_prevTemp t _ (prevTemp g)). now apply Hstep. }
  assert (Hnext2 : useCurve m = true ->
    inAuto (fst (controlGpu config m device t g env w)) = false).
  { intros Hc. rewrite controlGpu_inAuto by exact Hc.
    rewrite (Hman Hc). destruct Hmode as [Hc'|(_ & Hm & _)]; [congruence|exact Hm]. }
  destruct (controlGpu config m device t g env w) as [g' w1] eqn:E1.
  rewrite (bind_eq _ _ _ _ _ _ E1). simpl in *.
  destruct Hone as [H1 H2].
  rewrite (IH g' w1 H2 Hnext1 Hnext2). exact H1.
Qed.

(** C6 (as amended).  For a fan whose computed target equals its previous
    speed a tick issues no policy write and no speed write, in step mode
    and in curve MANUAL mode, and leaves the fan's recorded speed as it
    is; so do any number of further ticks at the same temperature.  In
    curve AUTO mode a tick issues no speed write and leaves the recorded
    speeds as they are, and it issues the AUTO policy write once for every
    fan. *)
Theorem no_write_when_target_reached :
  (forall (config : Config) (m : loopMode) (device : N) (t : Z) (g : gpuState)
          (env : nvmlEnv) (w : world) (k : nat) (s : Z),
      nth_error (prevFanSpeeds g) k = Some s ->
      let r := controlGpu config m device t g env w in
      let quiet :=
        filter (writesToFan (Z.of_nat k)) (calls (snd r)) =
        filter (writesToFan (Z.of_nat k)) (calls w) /\
        nth_error (prevFanSpeeds (fst r)) k = Some s in
      (useCurve m = false ->
       getFanSpeedForTemperature t (prevTemp g) s (TemperatureRanges config) = s ->
       quiet) /\
      (useCurve m = true ->
       nextInAuto (inAuto g) t (prof m) = false ->
       fst (curveSpeedForTempWithProfile t (prof m)) = s ->
       quiet)) /\
  (forall (config : Config) (m : loopMode) (device : N) (t : Z) (g : gpuState)
          (env : nvmlEnv) (w : world) (k : nat) (s : Z) (n : nat),
      nth_error (prevFanSpeeds g) k = Some s ->
      let r := repeatControl config m device t n g env w in
      let quiet :=
        filter (writesToFan (Z.of_nat k)) (calls (snd r)) =
        filter (writesToFan (Z.of_nat k)) (calls w) in
      (useCurve m = false ->
       getFanSpeedForTemperature t (prevTemp g) s (TemperatureRanges config) = s ->
       quiet) /\
      (useCurve m = true ->
       inAuto g = false ->
       nextInAuto false t (prof m) = false ->
       fst (curveSpeedForTempWithProfile t (prof m)) = s ->
       quiet)) /\
  (forall (config : Config) (m : loopMode) (device : N) (t : Z) (g : gpuState)
          (env : nvmlEnv) (w : world),
      useCurve m = true ->
      nextInAuto (inAuto g) t (prof m) = true ->
      let r := controlGpu config m device t g env w in
      calls (snd r) = calls w ++ autoWrites device 0 (prevFanSpeeds g) /\
      filter isSpeedWrite (calls (snd r)) = filter isSpeedWrite (calls w) /\
      prevFanSpeeds (fst r) = prevFanSpeeds g).
Proof.
  split; [|split].
  - intros config m device t g env w k s Hk r quiet. subst r quiet. split.
    + intros Hc Ht. now apply controlGpu_quiet_step.
    + intros Hc Hm Ht. now apply controlGpu_quiet_curve.
  - intros config m device t g env w k s n Hk r quiet. subst r quiet. split.
    + intros Hc Ht. apply repeatControl_quiet with (s := s); try assumption.
      * now left.
      * intros _. exact Ht.
      * congruence.
    + intros Hc Ha Hm Ht. apply repeatControl_quiet with (s := s); try assumption.
      * right. now repeat split.
      * congruence.
      * intros _. exact Ha.
  - intros config m device t g env w Hc Hm r. subst r.
    destruct (controlGpu_auto_calls config m device t g env w Hc Hm) as [H1 H2].
    split; [exact H1|]. split; [|exact H2].
    rewrite H1, filter_app, autoWrites_no_speed. apply app_nil_r.
Qed.

Lemma no_write_when_target_reached_witness :
  filter (writesToFan 0)
    (calls (snd (controlGpu (mkConfig 5 exampleRanges false) (mkMode false zeroProfile)
                   0%N 50 (mkGpu 1 50 [40] false 50) (steadyEnv 50) emptyWorld))) = [] /\
  nth_error
    (prevFanSpeeds (fst (controlGpu (mkConfig 5 exampleRanges true)
                           (mkMode true exampleProfile)
                           0%N 50 (mkGpu 1 50 [55] false 50) (steadyEnv 50) emptyWorld)))
    0 = Some 55 /\
  filter (writesToFan 0)
    (calls (snd (repeatControl (mkConfig 5 exampleRanges true) (mkMode true exampleProfile)
                   0%N 50 7 (mkGpu 1 50 [55] false 50) (steadyEnv 50) emptyWorld))) = [] /\
  calls (snd (controlGpu (mkConfig 5 exampleRanges true) (mkMode true exampleProfile)
                0%N 20 (mkGpu 1 20 [30] true 20) (steadyEnv 20) emptyWorld)) =
  [DeviceSetFanControlPolicy 0 0 FAN_POLICY_TEMPERATURE_CONTINOUS_SW].
Proof.
  destruct no_write_when_target_reached as (H1 & H3 & H2).
  pose proof (H1 (mkConfig 5 exampleRanges false) (mkMode false zeroProfile)
                 0%N 50 (mkGpu 1 50 [40] false 50) (steadyEnv 50) emptyWorld
                 0%nat 40 eq_refl) as Ha.
  pose proof (H1 (mkConfig 5 exampleRanges true) (mkMode true exampleProfile)
                 0%N 50 (mkGpu 1 50 [55] false 50) (steadyEnv 50) emptyWorld
                 0%nat 55 eq_refl) as Hb.
  pose proof (H3 (mkConfig 5 exampleRanges true) (mkMode true exampleProfile)
                 0%N 50 (mkGpu 1 50 [55] false 50) (steadyEnv 50) emptyWorld
                 0%nat 55 7%nat eq_refl) as Hd.
  pose proof (H2 (mkConfig 5 exampleRanges true) (mkMode true exampleProfile)
                 0%N 20 (mkGpu 1 20 [30] true 20) (steadyEnv 20) emptyWorld
                 eq_refl eq_refl) as Hc.
  cbv zeta in Ha, Hb, Hc, Hd.
  destruct Ha as [Ha _]. destruct Hb as [_ Hb]. destruct Hc as [Hc _].
  destruct Hd as [_ Hd].
  split; [|split; [|split]].
  - exact (proj1 (Ha eq_refl eq_refl)).
  - exact (proj2 (Hb eq_refl eq_refl eq_refl)).
  - exact (Hd eq_refl eq_refl eq_refl eq_refl).
  - exact Hc.
Defined.

(** C6, the claim as stated fails: a GPU that is in AUTO and stays in AUTO
    at an unchanged temperature gets the AUTO policy write again on every
    tick. *)
Lemma auto_policy_written_every_tick :
  let config := mkConfig 5 exampleRanges true in
  let m := mkMode true exampleProfile in
  let g := mkGpu 1 20 [30] true 20 in
  let r1 := ticks config m 1 [g] (steadyEnv 20) emptyWorld in
  let r2 := ticks config m 2 [g] (steadyEnv 20) emptyWorld in
  fst r1 = [g] /\
  filter isWrite (calls (snd r1)) =
    [DeviceSetFanControlPolicy 20 0 FAN_POLICY_TEMPERATURE_CONTINOUS_SW] /\
  fst r2 = [g] /\
  filter isWrite (calls (snd r2)) =
    [DeviceSetFanControlPolicy 20 0 FAN_POLICY_TEMPERATURE_CONTINOUS_SW;
     DeviceSetFanControlPolicy 20 0 FAN_POLICY_TEMPERATURE_CONTINOUS_SW].
Proof. repeat split; reflexivity. Qed.

(* ------------------------------------------------------------------ *)
(** ** The [set] command *)

Lemma cmdSet_rejects (gpu : Z) (fans : list Z) (speedPct : Z) (v : bool)
  (env : nvmlEnv) (w : world) :
  ~ (0 <= speedPct <= 100) ->
  cmdSet gpu fans speedPct v env w =
  (1, mkWorld (calls w) (output w ++ [(Stderr, "-speed must be 0..100 (got %d)"%string)])).
Proof.
  intros H. unfold cmdSet, configureCLILogging.
  rewrite (bind_eq _ _ _ _ w tt eq_refl).
  destruct (Z.ltb_spec speedPct 0); destruct (Z.gtb_spec speedPct 100);
    try reflexivity. lia.
Qed.

(** C7 (as amended).  For the [set] command a [-speed] value outside
    [0,100] is rejected before any hardware call is made.  The exit code
    is 2 when the value is negative or the fan list does not parse, and 1
    when the value exceeds 100 and the fan list parses. *)
Theorem set_speed_out_of_range_rejected :
  forall (os : osEnv) (prog : string) (rest : list string) (n : nat)
         (env : nvmlEnv) (w : world) (f : flagValues),
    flagParse os "set" rest = Some f ->
    ~ (0 <= speedFlag f <= 100) ->
    let r := main os (prog :: "set"%string :: rest) n env w in
    calls (snd r) = calls w /\
    (speedFlag f < 0 -> fst r = Exited 2) /\
    (100 < speedFlag f -> parseFanList os (fansStr f) = None -> fst r = Exited 2) /\
    (100 < speedFlag f -> parseFanList os (fansStr f) <> None -> fst r = Exited 1).
Proof.
  intros os prog rest n env w f Hf Hs r. subst r.
  unfold main. cbn [String.eqb Ascii.eqb Bool.eqb]. rewrite Hf.
  destruct (Z.ltb_spec (speedFlag f) 0) as [Hneg|Hneg].
  - split; [reflexivity|]. split; [reflexivity|]. split; intros; lia.
  - destruct (parseFanList os (fansStr f)) as [fans|] eqn:Ep.
    + rewrite (bind_eq _ _ _ _ _ _ (cmdSet_rejects _ _ _ _ _ _ Hs)).
      split; [reflexivity|]. split; [lia|].
      split; [discriminate|reflexivity].
    + split; [reflexivity|]. split; [lia|].
      split; [reflexivity|]. intros _ H. now contradiction H.
Qed.

Lemma set_speed_out_of_range_rejected_witness :
  calls (snd (main (fixedOs (flagsWithSpeed 250) None)
                ["nvidia_fan_control"; "set"; "-speed"; "250"]%string
                0 (steadyEnv 1) emptyWorld)) = [] /\
  fst (main (fixedOs (flagsWithSpeed 250) None)
         ["nvidia_fan_control"; "set"; "-speed"; "250"]%string
         0 (steadyEnv 1) emptyWorld) = Exited 1.
Proof.
  pose proof (set_speed_out_of_range_rejected
                (fixedOs (flagsWithSpeed 250) None) "nvidia_fan_control"
                ["-speed"; "250"]%string 0 (steadyEnv 1) emptyWorld
                (flagsWithSpeed 250) eq_refl) as H.
  cbv zeta in H.
  destruct H as (H1 & _ & _ & H4); [simpl; lia|].
  split; [exact H1|].
  apply H4; [simpl; lia | discriminate].
Defined.

(** C7, the claim as stated fails: [set -speed 101] with a fan list that
    parses ends with exit code 1, not 2 (no hardware call is made). *)
Lemma set_speed_101_exits_1 :
  main (fixedOs (flagsWithSpeed 101) None)
       ["nvidia_fan_control"; "set"; "-speed"; "101"]%string
       0 (steadyEnv 1) emptyWorld =
  (Exited 1, mkWorld [] [(Stderr, "-speed must be 0..100 (got %d)"%string)]) /\
  fst (main (fixedOs (flagsWithSpeed 101) None)
         ["nvidia_fan_control"; "set"; "-speed"; "101"]%string
         0 (steadyEnv 1) emptyWorld) <> Exited 2.
Proof. split; [reflexivity | discriminate]. Qed.

(* ------------------------------------------------------------------ *)
(** ** Curve mode without ranges *)










(* ------------------------------------------------------------------ *)
(** ** Game mode *)

(** C5.  The README promises [gamemode on|off|status] and a latch that
    keeps a GPU in MANUAL.  The program has neither: [gamemode] is an
    unknown subcommand (usage text, exit code 2, no hardware call), and a
    GPU in MANUAL at 37 degrees, with [floorEndTemp = 40] and
    [floorHysteresis = 3], goes to AUTO whatever the rest of the state,
    the hardware and the process environment are. *)
Theorem gamemode_absent :
  (forall (os : osEnv) (prog sub : string) (n : nat) (env : nvmlEnv) (w : world),
      main os [prog; "gamemode"%string; sub] n env w =
      (Exited 2, snd (printUsage env w)) /\
      calls (snd (main os [prog; "gamemode"%string; sub] n env w)) = calls w) /\
  (forall (config : Config) (device : N) (fc prevT lastChange : Z) (fans : list Z)
          (env : nvmlEnv) (w : world),
      inAuto (fst (controlGpu config (mkMode true exampleProfile) device 37
                     (mkGpu fc prevT fans false lastChange) env w)) = true).
Proof.
  split.
  - intros os prog sub n env w. split; reflexivity.
  - intros config device fc prevT lastChange fans env w.
    rewrite controlGpu_inAuto by reflexivity. reflexivity.
Qed.

(* ================================================================== *)
(** * Further properties of the code *)

(* ------------------------------------------------------------------ *)
(** ** Step policy: the value returned *)

(** X1.  The speed the step policy returns is the fan speed of the first
    range whose band holds the temperature, and the previous speed when no
    band holds it; neither the previous temperature nor any hysteresis
    changes the value. *)
Theorem step_policy_value :
  forall (tempC prevT prevSpeed : Z) (ranges : list TemperatureRange),
    getFanSpeedForTemperature tempC prevT prevSpeed ranges =
    match find (inBand tempC) ranges with
    | Some r => FanSpeed r
    | None => prevSpeed
    end.
Proof.
  intros tempC prevT prevSpeed ranges.
  induction ranges as [|r ranges IH]; [reflexivity|].
  destruct (inBand tempC r) eqn:E.
  - rewrite step_match_value by exact E. simpl. now rewrite E.
  - simpl. rewrite E. exact IH.
Qed.

(** X2.  Applying the step policy to its own result at the same
    temperature changes nothing, whatever the previous temperatures: once
    the returned speed is recorded the policy asks for no further
    change. *)
Theorem step_policy_idempotent :
  forall (tempC prevT prevT' prevSpeed : Z) (ranges : list TemperatureRange),
    getFanSpeedForTemperature tempC prevT'
      (getFanSpeedForTemperature tempC prevT prevSpeed ranges) ranges =
    getFanSpeedForTemperature tempC prevT prevSpeed ranges.
Proof.
  intros tempC prevT prevT' prevSpeed ranges.
  induction ranges as [|r ranges IH]; [reflexivity|].
  destruct (inBand tempC r) eqn:E.
  - now rewrite !step_match_value by exact E.
  - simpl. rewrite E. exact IH.
Qed.

(* ------------------------------------------------------------------ *)
(** ** The builder: errors, size, origin of the setpoints *)

Lemma keepLastPerTemp_length (pts : list curvePoint) :
  (List.length (keepLastPerTemp pts) <= List.length pts)%nat.
Proof.
  induction pts as [|a l IH]; [apply Nat.le_refl|].
  destruct l as [|b l]; [apply Nat.le_refl|].
  change (keepLastPerTemp (a :: b :: l))
    with (if temp a =? temp b then keepLastPerTemp (b :: l)
          else a :: keepLastPerTemp (b :: l)).
  destruct (temp a =? temp b); simpl in *; lia.
Qed.

(** X3.  The builder fails exactly on the empty list of ranges; on any
    other list it returns a profile with fewer setpoints than there are
    ranges. *)
Theorem builder_fails_only_on_empty :
  forall ranges : list TemperatureRange,
    ((exists msg, buildCurveProfileFromRanges ranges = inl msg) <-> ranges = []) /\
    (forall prof, buildCurveProfileFromRanges ranges = inr prof ->
                  (List.length (points prof) < List.length ranges)%nat).
Proof.
  intros ranges. split; [split|].
  - intros [msg H]. destruct ranges; [reflexivity|discriminate].
  - intros ->. eexists. reflexivity.
  - intros prof Hb. destruct (builder_inv _ _ Hb) as (floor & rest & Hs & ->). simpl.
    pose proof (keepLastPerTemp_length (sliceStable pointLess (map pointOfRange rest))) as H1.
    rewrite sliceStable_length, length_map in H1.
    pose proof (sliceStable_length rangeLess ranges) as H2.
    rewrite Hs in H2. simpl in H2. lia.
Qed.

Lemma builder_fails_only_on_empty_witness :
  (List.length (points exampleProfile) < List.length exampleRanges)%nat.
Proof.
  exact (proj2 (builder_fails_only_on_empty exampleRanges) exampleProfile eq_refl).
Defined.

(** X4.  A single range gives a profile without setpoints, and the lookup
    on it is the clamped fan speed and the hysteresis of that range at
    every temperature. *)
Theorem single_range_is_constant :
  forall (r : TemperatureRange) (tempC : Z),
    exists prof,
      buildCurveProfileFromRanges [r] = inr prof /\
      points prof = [] /\
      curveSpeedForTempWithProfile tempC prof =
      (clampInt (FanSpeed r) 0 100, Hysteresis r).
Proof.
  intros r tempC. eexists. split; [reflexivity|]. split; [reflexivity|].
  unfold curveSpeedForTempWithProfile, curveSpeedSite. simpl.
  destruct (tempC <? MaxTemperature r); reflexivity.
Qed.

Lemma keepLastPerTemp_temps (pts : list curvePoint) (p : curvePoint) :
  In p pts -> exists q, In q (keepLastPerTemp pts) /\ temp q = temp p.
Proof.
  revert p. induction pts as [|a l IH]; intros p; [easy|].
  destruct l as [|b l].
  - intros [<-|[]]. exists a. split; [now left | reflexivity].
  - change (keepLastPerTemp (a :: b :: l))
      with (if temp a =? temp b then keepLastPerTemp (b :: l)
            else a :: keepLastPerTemp (b :: l)).
    intros Hin. destruct (Z.eqb_spec (temp a) (temp b)) as [E|E].
    + destruct Hin as [<-|Hin].
      * destruct (IH b (or_introl eq_refl)) as (q & Hq & Hqt).
        exists q. split; [exact Hq | congruence].
      * exact (IH p Hin).
    + destruct Hin as [<-|Hin].
      * exists a. split; [now left | reflexivity].
      * destruct (IH p Hin) as (q & Hq & Hqt). exists q. split; [now right | exact Hqt].
Qed.

(** X5.  The profile accounts for every range: the ranges are the floor
    range, which no other range precedes in the order by [(minTemp,
    maxTemp)], and the rest; every setpoint is made from one of the rest,
    and the minimum temperature of each of the rest is the temperature of
    a setpoint (deduplication loses no temperature). *)
Theorem builder_setpoints_from_ranges :
  forall (ranges : list TemperatureRange) (prof : curveProfile),
    buildCurveProfileFromRanges ranges = inr prof ->
    exists floor rest,
      Permutation ranges (floor :: rest) /\
      (forall r, In r rest -> rangeKeyLe floor r) /\
      floorEndTemp prof = MaxTemperature floor /\
      (forall p, In p (points prof) ->
                 exists r, In r rest /\
                           p = mkPoint (MinTemperature r) (clampInt (FanSpeed r) 0 100)
                                       (Hysteresis r)) /\
      (forall r, In r rest ->
                 exists p, In p (points prof) /\ temp p = MinTemperature r).
Proof.
  intros ranges prof Hb.
  destruct (builder_inv _ _ Hb) as (floor & rest & Hs & ->).
  exists floor, rest. simpl.
  pose proof (sliceStable_ranges ranges) as (Hperm & Hsorted & _).
  rewrite Hs in Hperm, Hsorted.
  split; [exact Hperm|]. split; [|split; [reflexivity|split]].
  - intros r Hr. inversion Hsorted as [|? ? _ Hf]; subst.
    rewrite Forall_forall in Hf. now apply Hf.
  - intros p Hp. apply keepLastPerTemp_incl in Hp.
    apply (Permutation_in _ (Permutation_sym (sliceStable_perm pointLess _))) in Hp.
    apply in_map_iff in Hp. destruct Hp as (r & <- & Hr). now exists r.
  - intros r Hr.
    assert (In (pointOfRange r) (sliceStable pointLess (map pointOfRange rest))) as Hin.
    { apply (Permutation_in _ (sliceStable_perm pointLess _)). now apply in_map. }
    destruct (keepLastPerTemp_temps _ _ Hin) as (q & Hq & Hqt).
    exists q. split; [exact Hq | exact Hqt].
Qed.

Lemma builder_setpoints_from_ranges_witness :
  exists floor rest,
    Permutation exampleRanges (floor :: rest) /\
    floorEndTemp exampleProfile = MaxTemperature floor.
Proof.
  destruct (builder_setpoints_from_ranges exampleRanges exampleProfile eq_refl)
    as (floor & rest & H1 & _ & H3 & _).
  exists floor, rest. split; [exact H1 | exact H3].
Defined.

(* ------------------------------------------------------------------ *)
(** ** The builder: the order of the ranges *)

Lemma filter_perm {A : Type} (f : A -> bool) (l l' : list A) :
  Permutation l l' -> Permutation (filter f l) (filter f l').
Proof.
  induction 1 as [|x l l' _ IH|x y l|l l' l'' _ IH1 _ IH2]; simpl.
  - constructor.
  - destruct (f x); [now constructor | exact IH].
  - destruct (f x), (f y); try reflexivity. apply perm_swap.
  - now transitivity (filter f l').
Qed.

Lemma perm_all_equal {A : Type} (l1 l2 : list A) :
  (forall a b, In a l1 -> In b l1 -> a = b) -> Permutation l1 l2 -> l1 = l2.
Proof.
  revert l2. induction l1 as [|a l1 IH]; intros l2 Heq Hp.
  - apply Permutation_nil in Hp. now subst.
  - destruct l2 as [|b l2].
    + apply Permutation_sym, Permutation_nil in Hp. discriminate.
    + assert (b = a) as ->.
      { apply Heq; [|now left].
        apply (Permutation_in _ (Permutation_sym Hp)). now left. }
      f_equal. apply IH.
      * intros x y Hx Hy. apply Heq; now right.
      * now apply Permutation_cons_inv in Hp.
Qed.

Lemma unordered_ranges (x a : TemperatureRange) :
  unordered rangeLess x a = true ->
  MinTemperature x = MinTemperature a /\ MaxTemperature x = MaxTemperature a.
Proof.
  unfold unordered, rangeLess. rewrite andb_true_iff, !negb_true_iff.
  destruct (Z.eqb_spec (MinTemperature x) (MinTemperature a));
    destruct (Z.eqb_spec (MinTemperature a) (MinTemperature x));
    rewrite !Z.ltb_ge; lia.
Qed.

Lemma sliceStable_ranges_perm (l l' : list TemperatureRange) :
  Permutation l l' ->
  (forall a b, In a l -> In b l ->
               MinTemperature a = MinTemperature b ->
               MaxTemperature a = MaxTemperature b -> a = b) ->
  sliceStable rangeLess l = sliceStable rangeLess l'.
Proof.
  intros Hp Hkey.
  apply (sorted_stable_unique rangeLess rangeLess_irrefl).
  - apply sliceStable_sorted; [apply rangeLess_asym | apply rangeLess_trans].
  - apply sliceStable_sorted; [apply rangeLess_asym | apply rangeLess_trans].
  - intros x.
    rewrite !sliceStable_filter by (apply unordered_class; apply rangeLess_trans).
    apply perm_all_equal; [|now apply filter_perm].
    intros a b Ha Hb. apply filter_In in Ha, Hb.
    destruct Ha as [Ha Hxa], Hb as [Hb Hxb].
    apply unordered_ranges in Hxa, Hxb.
    apply Hkey; try assumption; lia.
Qed.

(** X6.  In curve mode the order in which the configuration lists the
    ranges does not matter, as long as no two different ranges have the
    same [(minTemp, maxTemp)]: every permutation of the list gives the same
    profile. *)
Theorem builder_ignores_order :
  forall l l' : list TemperatureRange,
    Permutation l l' ->
    (forall a b, In a l -> In b l ->
                 MinTemperature a = MinTemperature b ->
                 MaxTemperature a = MaxTemperature b -> a = b) ->
    buildCurveProfileFromRanges l = buildCurveProfileFromRanges l'.
Proof.
  intros l l' Hp Hkey.
  pose proof (sliceStable_ranges_perm l l' Hp Hkey) as Hs.
  destruct l as [|r0 l0] eqn:El.
  - apply Permutation_nil in Hp. now subst.
  - destruct l' as [|r0' l0'] eqn:El'.
    + apply Permutation_sym, Permutation_nil in Hp. discriminate.
    + unfold buildCurveProfileFromRanges. rewrite <- Hs.
      destruct (sliceStable rangeLess (r0 :: l0)) as [|floor rest] eqn:Es.
      * pose proof (sliceStable_length rangeLess (r0 :: l0)) as HL.
        rewrite Es in HL. discriminate.
      * reflexivity.
Qed.

Lemma builder_ignores_order_witness :
  buildCurveProfileFromRanges (rev exampleRanges) = inr exampleProfile.
Proof.
  rewrite <- (builder_ignores_order exampleRanges (rev exampleRanges)).
  - reflexivity.
  - apply Permutation_rev.
  - intros a b Ha Hb. simpl in Ha, Hb.
    repeat (destruct Ha as [<-|Ha]; [
      repeat (destruct Hb as [<-|Hb]; [simpl; intros; (reflexivity || lia)|]);
      destruct Hb |]).
    destruct Ha.
Defined.

(* ------------------------------------------------------------------ *)
(** ** The mode machine at a fixed temperature *)

(** X7.  With a positive floor hysteresis (and [floorEndTemp] plus and
    minus it within [int]) the mode settles: a second tick at the same
    temperature leaves the mode the first tick chose. *)
Theorem mode_settles_with_positive_hysteresis :
  forall (config : Config) (m : loopMode) (device device' : N) (t : Z)
         (g : gpuState) (env env' : nvmlEnv) (w w' : world),
    useCurve m = true ->
    0 < floorHyst (prof m) ->
    GoInt.in_range (floorEndTemp (prof m) + floorHyst (prof m)) ->
    GoInt.in_range (floorEndTemp (prof m) - floorHyst (prof m)) ->
    let g1 := fst (controlGpu config m device t g env w) in
    inAuto (fst (controlGpu config m device' t g1 env' w')) = inAuto g1.
Proof.
  intros config m device device' t g env env' w w' Hc Hh Hadd Hsub g1. subst g1.
  rewrite !controlGpu_inAuto by exact Hc.
  unfold nextInAuto, GoInt.add, GoInt.sub.
  rewrite !wrap_in_range by assumption.
  destruct (inAuto g).
  - destruct (Z.geb_spec t (floorEndTemp (prof m) + floorHyst (prof m))).
    + destruct (Z.leb_spec t (floorEndTemp (prof m) - floorHyst (prof m)));
        [lia|reflexivity].
    + destruct (Z.geb_spec t (floorEndTemp (prof m) + floorHyst (prof m)));
        [lia|reflexivity].
  - destruct (Z.leb_spec t (floorEndTemp (prof m) - floorHyst (prof m))).
    + destruct (Z.geb_spec t (floorEndTemp (prof m) + floorHyst (prof m)));
        [lia|reflexivity].
    + destruct (Z.leb_spec t (floorEndTemp (prof m) - floorHyst (prof m)));
        [lia|reflexivity].
Qed.

Lemma mode_settles_with_positive_hysteresis_witness :
  inAuto (fst (controlGpu (mkConfig 5 exampleRanges true) (mkMode true exampleProfile)
                 0%N 43
                 (fst (controlGpu (mkConfig 5 exampleRanges true)
                         (mkMode true exampleProfile) 0%N 43 (mkGpu 1 20 [30] true 20)
                         (steadyEnv 43) emptyWorld))
                 (steadyEnv 43) emptyWorld)) = false.
Proof.
  rewrite (mode_settles_with_positive_hysteresis
             (mkConfig 5 exampleRanges true) (mkMode true exampleProfile)
             0%N 0%N 43 (mkGpu 1 20 [30] true 20) (steadyEnv 43) (steadyEnv 43)
             emptyWorld emptyWorld eq_refl).
  - reflexivity.
  - simpl. lia.
  - vm_compute. split; discriminate.
  - vm_compute. split; discriminate.
Defined.

(** X8.  With a floor hysteresis of 0 the deadband is empty: at the
    temperature [floorEndTemp] itself every tick switches the mode, AUTO
    to MANUAL and MANUAL to AUTO. *)
Theorem mode_toggles_with_zero_hysteresis :
  forall (config : Config) (m : loopMode) (device : N) (g : gpuState)
         (env : nvmlEnv) (w : world),
    useCurve m = true ->
    floorHyst (prof m) = 0 ->
    GoInt.in_range (floorEndTemp (prof m)) ->
    inAuto (fst (controlGpu config m device (floorEndTemp (prof m)) g env w)) =
    negb (inAuto g).
Proof.
  intros config m device g env w Hc Hh Hr.
  rewrite controlGpu_inAuto by exact Hc.
  unfold nextInAuto, GoInt.add, GoInt.sub. rewrite Hh, Z.add_0_r, Z.sub_0_r.
  rewrite !wrap_in_range by assumption.
  destruct (inAuto g).
  - destruct (Z.geb_spec (floorEndTemp (prof m)) (floorEndTemp (prof m)));
      [reflexivity|lia].
  - destruct (Z.leb_spec (floorEndTemp (prof m)) (floorEndTemp (prof m)));
      [reflexivity|lia].
Qed.

Lemma mode_toggles_with_zero_hysteresis_witness :
  inAuto (fst (controlGpu (mkConfig 5 [] true) (mkMode true (mkProfile 40 30 0 []))
                 0%N 40 (mkGpu 1 40 [30] false 40) (steadyEnv 40) emptyWorld)) = true.
Proof.
  refine (mode_toggles_with_zero_hysteresis
            (mkConfig 5 [] true) (mkMode true (mkProfile 40 30 0 []))
            0%N (mkGpu 1 40 [30] false 40) (steadyEnv 40) emptyWorld
            eq_refl eq_refl _).
  vm_compute. split; discriminate.
Defined.

(* ------------------------------------------------------------------ *)
(** ** The fan list of the command line *)

Lemma parseFanParts_spec (os : osEnv) (parts : list string) (out : list Z) :
  parseFanParts os parts = Some out ->
  (List.length out <= List.length parts)%nat /\
  forall n, In n out ->
            0 <= n /\
            exists part, In part parts /\ TrimSpace os part <> ""%string /\
                         Atoi os (TrimSpace os part) = Some n.
Proof.
  revert out. induction parts as [|p parts IH]; intros out H.
  - injection H as <-. split; [apply Nat.le_refl | intros n []].
  - cbn [parseFanParts] in H.
    destruct (String.eqb_spec (TrimSpace os p) "") as [E|E].
    + destruct (IH out H) as [HL HI]. split; [simpl; lia|].
      intros n Hn. destruct (HI n Hn) as (Hn0 & part & Hp & Hrest).
      split; [exact Hn0|]. exists part. split; [now right | exact Hrest].
    + destruct (Atoi os (TrimSpace os p)) as [n0|] eqn:Ea; [|discriminate].
      destruct (Z.ltb_spec n0 0); [discriminate|].
      destruct (parseFanParts os parts) as [out'|]; [|discriminate].
      injection H as <-.
      destruct (IH out' eq_refl) as [HL HI]. split; [simpl; lia|].
      intros n [<-|Hn].
      * split; [lia|]. exists p. split; [now left|]. split; assumption.
      * destruct (HI n Hn) as (Hn0 & part & Hp & Hrest).
        split; [exact Hn0|]. exists part. split; [now right | exact Hrest].
Qed.

(** X9.  A fan list that [parseFanList] accepts is not empty, holds only
    indices that are not negative, each the number read from a non-blank
    part of the text, and has at most as many indices as the text has
    parts; a text that is blank after trimming is refused. *)
Theorem parseFanList_accepts :
  forall (os : osEnv) (s : string),
    (TrimSpace os s = ""%string -> parseFanList os s = None) /\
    (forall fans,
        parseFanList os s = Some fans ->
        fans <> [] /\
        (List.length fans <= List.length (SplitComma os (TrimSpace os s)))%nat /\
        forall n, In n fans ->
                  0 <= n /\
                  exists part, In part (SplitComma os (TrimSpace os s)) /\
                               TrimSpace os part <> ""%string /\
                               Atoi os (TrimSpace os part) = Some n).
Proof.
  intros os s. unfold parseFanList. split.
  - intros ->. reflexivity.
  - intros fans H.
    destruct (String.eqb (TrimSpace os s) ""); [discriminate|].
    destruct (parseFanParts os (SplitComma os (TrimSpace os s))) as [out|] eqn:Ep;
      [|discriminate].
    destruct out as [|n0 out]; [discriminate|].
    injection H as <-.
    destruct (parseFanParts_spec _ _ _ Ep) as [HL HI].
    split; [discriminate|]. split; [exact HL | exact HI].
Qed.

Lemma parseFanList_accepts_witness :
  parseFanList (fixedOs (flagsWithSpeed 0) None) "" = None /\
  (exists fans, parseFanList (fixedOs (flagsWithSpeed 0) None) "0" = Some fans /\
                fans <> []).
Proof.
  destruct (parseFanList_accepts (fixedOs (flagsWithSpeed 0) None) "") as [H1 _].
  destruct (parseFanList_accepts (fixedOs (flagsWithSpeed 0) None) "0") as [_ H2].
  split; [apply H1; reflexivity|].
  exists [0]. split; [reflexivity|].
  exact (proj1 (H2 [0] eq_refl)).
Defined.

(* ------------------------------------------------------------------ *)
(** ** The fan loops of a tick *)

Lemma curveFanLoop_attempt (device : N) (t : Z) (p : curveProfile) (lastChange : Z) :
  forall (fans : list Z) (fanIdx : Z) (env : nvmlEnv) (w : world),
    curveFanLoop device t p lastChange fanIdx fans env w =
    attemptLoop device
      "ERROR: Unable to set MANUAL fan policy for GPU %d Fan %d: %v"
      "WARN: MANUAL fan policy not supported for GPU %d Fan %d."
      "INFO: Updated GPU %d Fan %d (curve): Temp=%d C, PrevSpeed=%d%%, NewSpeed=%d%%, Hyst=%d C"
      (curveDecision t p lastChange) fanIdx fans env w.
Proof.
  induction fans as [|s fans IH]; intros fanIdx env w; [reflexivity|].
  cbn [curveFanLoop attemptLoop].
  change (curveDecision t p lastChange s)
    with (let (v, h) := curveSpeedForTempWithProfile t p in
          if v =? s then None
          else if abs (GoInt.sub t lastChange) <? h then None else Some v).
  destruct (curveSpeedForTempWithProfile t p) as [v h].
  destruct (v =? s); [|destruct (abs (GoInt.sub t lastChange) <? h)];
    unfold bind; cbn [pure];
    try (rewrite IH; reflexivity).
  destruct (writeManualSpeed _ _ device fanIdx v env w) as [[] w1]; cbn [logf write pure];
    rewrite IH; reflexivity.
Qed.

Lemma stepFanLoop_attempt (device : N) (t prevT : Z) (ranges : list TemperatureRange) :
  forall (fans : list Z) (fanIdx : Z) (env : nvmlEnv) (w : world),
    stepFanLoop device t prevT ranges fanIdx fans env w =
    (fst (fst (attemptLoop device
                 "ERROR: Unable to set manual fan control policy for GPU %d Fan %d: %v"
                 "WARN: Manual fan control policy not supported for GPU %d Fan %d. Cannot set speed."
                 "INFO: Updated GPU %d Fan %d: Temp=%d C, PrevSpeed=%d%%, NewSpeed=%d%%"
                 (stepDecision t prevT ranges) fanIdx fans env w)),
     snd (attemptLoop device
            "ERROR: Unable to set manual fan control policy for GPU %d Fan %d: %v"
            "WARN: Manual fan control policy not supported for GPU %d Fan %d. Cannot set speed."
            "INFO: Updated GPU %d Fan %d: Temp=%d C, PrevSpeed=%d%%, NewSpeed=%d%%"
            (stepDecision t prevT ranges) fanIdx fans env w)).
Proof.
  induction fans as [|s fans IH]; intros fanIdx env w; [reflexivity|].
  cbn [stepFanLoop attemptLoop].
  change (stepDecision t prevT ranges s)
    with (if getFanSpeedForTemperature t prevT s ranges =? s then None
          else Some (getFanSpeedForTemperature t prevT s ranges)).
  destruct (getFanSpeedForTemperature t prevT s ranges =? s);
    unfold bind; cbn [pure].
  - rewrite IH. destruct (attemptLoop _ _ _ _ _ _ _) as [[r u] w']. reflexivity.
  - destruct (writeManualSpeed _ _ device fanIdx _ env w) as [[] w1]; cbn [logf write pure];
      rewrite IH; destruct (attemptLoop _ _ _ _ _ _ _) as [[r u] w']; reflexivity.
Qed.

(** The three ways an attempt to write a speed can go. *)
Lemma writeManualSpeed_cases (pe pu : string) (device : N) (fanIdx v : Z) (env : nvmlEnv) (w : world) :
  let P := DeviceSetFanControlPolicy device fanIdx FAN_POLICY_MANUAL in
  let S := DeviceSetFanSpeed_v2 device fanIdx v in
  let r := writeManualSpeed pe pu device fanIdx v env w in
  (ret (env (calls w) P) = SUCCESS /\ ret (env (calls w ++ [P]) S) = SUCCESS /\
   fst r = true /\ calls (snd r) = calls w ++ [P; S]) \/
  (ret (env (calls w) P) = SUCCESS /\ ret (env (calls w ++ [P]) S) <> SUCCESS /\
   fst r = false /\ calls (snd r) = calls w ++ [P; S]) \/
  (ret (env (calls w) P) <> SUCCESS /\
   fst r = false /\ calls (snd r) = calls w ++ [P]).
Proof.
  cbv zeta. unfold writeManualSpeed, bind, nvml, logf, write, pure.
  destruct (ret (env (calls w) _)) eqn:Ea; cbn.
  - destruct (ret (env (calls w ++ [_]) _)) eqn:Eb; cbn;
      rewrite <- ?app_assoc; cbn.
    + left. repeat split; reflexivity.
    + right. left. repeat split; (reflexivity || discriminate).
    + right. left. repeat split; (reflexivity || discriminate).
  - right. right. repeat split; (reflexivity || discriminate).
  - right. right. repeat split; (reflexivity || discriminate).
Qed.

(** One fan of [attemptLoop] with a decision to write. *)
Lemma attemptOne_cases (device : N) (pe pu msg : string) (fanIdx v : Z)
  (env : nvmlEnv) (w : world) :
  let P := DeviceSetFanControlPolicy device fanIdx FAN_POLICY_MANUAL in
  let S := DeviceSetFanSpeed_v2 device fanIdx v in
  let r := bind (writeManualSpeed pe pu device fanIdx v)
             (fun ok => if ok then bind (logf msg) (fun _ => pure true) else pure false)
             env w in
  (ret (env (calls w) P) = SUCCESS /\ ret (env (calls w ++ [P]) S) = SUCCESS /\
   fst r = true /\ calls (snd r) = calls w ++ [P; S]) \/
  (ret (env (calls w) P) = SUCCESS /\ ret (env (calls w ++ [P]) S) <> SUCCESS /\
   fst r = false /\ calls (snd r) = calls w ++ [P; S]) \/
  (ret (env (calls w) P) <> SUCCESS /\
   fst r = false /\ calls (snd r) = calls w ++ [P]).
Proof.
  cbv zeta. pose proof (writeManualSpeed_cases pe pu device fanIdx v env w) as H.
  cbv zeta in H.
  destruct (writeManualSpeed pe pu device fanIdx v env w) as [ok w1] eqn:E.
  rewrite !(bind_eq _ _ _ _ _ _ E). simpl in H.
  destruct H as [(Ha & Hb & -> & Hc)|[(Ha & Hb & -> & Hc)|(Ha & -> & Hc)]]; simpl.
  - left. repeat split; assumption.
  - right. left. repeat split; assumption.
  - right. right. repeat split; assumption.
Qed.

Lemma attemptLoop_length (device : N) (pe pu msg : string) (decide : Z -> option Z) :
  forall (fans : list Z) (fanIdx : Z) (env : nvmlEnv) (w : world),
    List.length (fst (fst (attemptLoop device pe pu msg decide fanIdx fans env w))) =
    List.length fans.
Proof.
  induction fans as [|s fans IH]; intros fanIdx env w; [reflexivity|].
  cbn [attemptLoop]. unfold bind at 1.
  match goal with |- context [let (a, w') := ?m env w in _] =>
    destruct (m env w) as [changed w1] end.
  unfold bind. specialize (IH (fanIdx + 1) env w1).
  destruct (attemptLoop device pe pu msg decide (fanIdx + 1) fans env w1) as [[r u] w'].
  simpl in *. now rewrite IH.
Qed.

Lemma attemptLoop_trace (device : N) (pe pu msg : string) (decide : Z -> option Z) :
  forall (fans : list Z) (fanIdx : Z) (env : nvmlEnv) (w : world),
    exists new,
      calls (snd (attemptLoop device pe pu msg decide fanIdx fans env w)) = calls w ++ new /\
      fanCalls device decide fanIdx fans new.
Proof.
  induction fans as [|s fans IH]; intros fanIdx env w.
  - exists []. split; [simpl; now rewrite app_nil_r | constructor].
  - cbn [attemptLoop].
    destruct (decide s) as [v|] eqn:Ed.
    + pose proof (attemptOne_cases device pe pu msg fanIdx v env w) as H. cbv zeta in H.
      unfold bind at 1.
      match goal with |- context [let (a, w') := ?m env w in _] =>
        change m with (bind (writeManualSpeed pe pu device fanIdx v)
                         (fun ok => if ok then bind (logf msg) (fun _ => pure true)
                                    else pure false)) in *;
        destruct (bind (writeManualSpeed pe pu device fanIdx v)
                       (fun ok => if ok then bind (logf msg) (fun _ => pure true)
                                  else pure false) env w) as [changed w1] end.
      simpl in H. unfold bind.
      destruct (IH (fanIdx + 1) env w1) as (new & Hnew & Hfc).
      destruct (attemptLoop device pe pu msg decide (fanIdx + 1) fans env w1) as [[r u] w'].
      simpl in *.
      destruct H as [(_ & _ & _ & Hc)|[(_ & _ & _ & Hc)|(_ & _ & Hc)]];
        rewrite Hnew, Hc, <- app_assoc; eexists; (split; [reflexivity|]); simpl.
      * now apply fanCalls_speed.
      * now apply fanCalls_speed.
      * now apply fanCalls_policy with v.
    + unfold bind at 1. cbn [pure]. unfold bind.
      destruct (IH (fanIdx + 1) env w) as (new & Hnew & Hfc).
      destruct (attemptLoop device pe pu msg decide (fanIdx + 1) fans env w) as [[r u] w'].
      simpl in *. exists new. split; [exact Hnew | now constructor].
Qed.

Lemma attemptLoop_refused (device : N) (pe pu msg : string) (decide : Z -> option Z)
  (env : nvmlEnv) :
  refusesWrites env ->
  forall (fans : list Z) (fanIdx : Z) (w : world),
    fst (attemptLoop device pe pu msg decide fanIdx fans env w) = (fans, false).
Proof.
  intros Href. induction fans as [|s fans IH]; intros fanIdx w; [reflexivity|].
  cbn [attemptLoop].
  assert (exists w1,
    match decide s with
    | None => pure false
    | Some v => bind (writeManualSpeed pe pu device fanIdx v)
                  (fun ok => if ok then bind (logf msg) (fun _ => pure true)
                             else pure false)
    end env w = (false, w1)) as [w1 H1].
  { destruct (decide s) as [v|]; [|now exists w].
    pose proof (attemptOne_cases device pe pu msg fanIdx v env w) as H. cbv zeta in H.
    destruct (bind _ _ env w) as [changed w1]. simpl in H. exists w1.
    destruct H as [(Ha & _)|[(_ & _ & -> & _)|(_ & -> & _)]]; try reflexivity.
    exfalso. eapply Href; [|exact Ha]. reflexivity. }
  rewrite (bind_eq _ _ _ _ _ _ H1). unfold bind.
  specialize (IH (fanIdx + 1) w1).
  destruct (attemptLoop device pe pu msg decide (fanIdx + 1) fans env w1) as [[r u] w'].
  simpl in *. now injection IH as -> ->.
Qed.

Lemma attemptLoop_accepted (device : N) (pe pu msg : string) (decide : Z -> option Z)
  (env : nvmlEnv) :
  acceptsWrites env ->
  forall (fans : list Z) (fanIdx : Z) (w : world),
    fst (attemptLoop device pe pu msg decide fanIdx fans env w) =
    (map (fun s => match decide s with Some v => v | None => s end) fans,
     existsb (fun s => match decide s with Some _ => true | None => false end) fans).
Proof.
  intros Hacc. induction fans as [|s fans IH]; intros fanIdx w; [reflexivity|].
  cbn [attemptLoop map existsb].
  assert (exists w1,
    match decide s with
    | None => pure false
    | Some v => bind (writeManualSpeed pe pu device fanIdx v)
                  (fun ok => if ok then bind (logf msg) (fun _ => pure true)
                             else pure false)
    end env w = (match decide s with Some _ => true | None => false end, w1))
    as [w1 H1].
  { destruct (decide s) as [v|]; [|now exists w].
    pose proof (attemptOne_cases device pe pu msg fanIdx v env w) as H. cbv zeta in H.
    destruct (bind _ _ env w) as [changed w1]. simpl in H. exists w1.
    destruct H as [(_ & _ & -> & _)|[(_ & Hb & _)|(Ha & _)]]; try reflexivity.
    - exfalso. apply Hb. now apply Hacc.
    - exfalso. apply Ha. now apply Hacc. }
  rewrite (bind_eq _ _ _ _ _ _ H1). unfold bind.
  specialize (IH (fanIdx + 1) w1).
  destruct (attemptLoop device pe pu msg decide (fanIdx + 1) fans env w1) as [[r u] w'].
  simpl in *. injection IH as -> ->.
  destruct (decide s); reflexivity.
Qed.


(** In the calls of a fan loop every speed write stands directly behind
    the MANUAL policy write for its fan, addresses the device of the loop
    and a fan of the list, and carries the speed decided for that fan. *)
Lemma fanCalls_speed_write (device : N) (decide : Z -> option Z) :
  forall (fanIdx : Z) (fans : list Z) (cs : list nvmlCall),
    fanCalls device decide fanIdx fans cs ->
    forall pre d f v post,
      cs = pre ++ DeviceSetFanSpeed_v2 d f v :: post ->
      d = device /\
      (exists pre', pre = pre' ++ [DeviceSetFanControlPolicy device f FAN_POLICY_MANUAL]) /\
      (exists (j : nat) (s : Z), nth_error fans j = Some s /\
                                 f = fanIdx + Z.of_nat j /\ decide s = Some v).
Proof.
  induction 1 as [i|i s fans cs _ IH|i s v0 fans cs Hd _ IH|i s v0 fans cs Hd _ IH];
    intros pre d f v post Heq.
  - destruct pre; discriminate.
  - destruct (IH pre d f v post Heq) as (Hdev & Hpre & j & s' & Hj & Hf & Hv).
    split; [exact Hdev|]. split; [exact Hpre|].
    exists (S j), s'. split; [exact Hj|]. split; [lia | exact Hv].
  - destruct pre as [|c pre]; [discriminate|].
    injection Heq as Hc Heq. subst c.
    destruct (IH pre d f v post Heq) as (Hdev & (pre' & ->) & j & s' & Hj & Hf & Hv).
    split; [exact Hdev|]. split; [now exists (DeviceSetFanControlPolicy device i FAN_POLICY_MANUAL :: pre')|].
    exists (S j), s'. split; [exact Hj|]. split; [lia | exact Hv].
  - destruct pre as [|c pre]; [discriminate|].
    injection Heq as Hc Heq. subst c.
    destruct pre as [|c' pre].
    + injection Heq as Hd' Hf' Hv' Hpost. subst d f v.
      split; [reflexivity|]. split; [now exists []|].
      exists 0%nat, s. split; [reflexivity|]. split; [simpl; lia | exact Hd].
    + injection Heq as Hc' Heq. subst c'.
      destruct (IH pre d f v post Heq) as (Hdev & (pre' & ->) & j & s' & Hj & Hf & Hv).
      split; [exact Hdev|].
      split; [now exists (DeviceSetFanControlPolicy device i FAN_POLICY_MANUAL
                            :: DeviceSetFanSpeed_v2 device i v0 :: pre')|].
      exists (S j), s'. split; [exact Hj|]. split; [lia | exact Hv].
Qed.

(* ------------------------------------------------------------------ *)
(** ** One tick of one GPU *)

Lemma controlGpu_step_form (config : Config) (m : loopMode) (device : N) (t : Z)
  (g : gpuState) (env : nvmlEnv) (w : world) :
  useCurve m = false ->
  controlGpu config m device t g env w =
  (mkGpu (fanCount g) t
     (fst (fst (attemptLoop device
                  "ERROR: Unable to set manual fan control policy for GPU %d Fan %d: %v"
                  "WARN: Manual fan control policy not supported for GPU %d Fan %d. Cannot set speed."
                  "INFO: Updated GPU %d Fan %d: Temp=%d C, PrevSpeed=%d%%, NewSpeed=%d%%"
                  (stepDecision t (prevTemp g) (TemperatureRanges config)) 0
                  (prevFanSpeeds g) env w)))
     (inAuto g) (lastFanChangeTemp g),
   snd (attemptLoop device
          "ERROR: Unable to set manual fan control policy for GPU %d Fan %d: %v"
          "WARN: Manual fan control policy not supported for GPU %d Fan %d. Cannot set speed."
          "INFO: Updated GPU %d Fan %d: Temp=%d C, PrevSpeed=%d%%, NewSpeed=%d%%"
          (stepDecision t (prevTemp g) (TemperatureRanges config)) 0
          (prevFanSpeeds g) env w)).
Proof.
  intros Hc. unfold controlGpu. rewrite Hc.
  rewrite (bind_eq _ _ _ _ _ _ (stepFanLoop_attempt _ _ _ _ _ _ _ _)). reflexivity.
Qed.

(** The line logged at a change of mode adds no call. *)
Lemma transition_log (b nowAuto : bool) (env : nvmlEnv) (w : world) :
  exists w1,
    (if b && negb nowAuto then
       logf "INFO: GPU %d crossing above floor: switching to MANUAL control (temp=%d C)"
     else if negb b && nowAuto then
       logf "INFO: GPU %d crossing below floor: switching to AUTO control (temp=%d C)"
     else pure tt) env w = (tt, w1) /\ calls w1 = calls w.
Proof. destruct b, nowAuto; simpl; eexists; split; reflexivity. Qed.

Lemma controlGpu_manual_form (config : Config) (m : loopMode) (device : N) (t : Z)
  (g : gpuState) (env : nvmlEnv) (w : world) :
  useCurve m = true ->
  nextInAuto (inAuto g) t (prof m) = false ->
  exists w1,
    calls w1 = calls w /\
    controlGpu config m device t g env w =
    (let r := attemptLoop device
                "ERROR: Unable to set MANUAL fan policy for GPU %d Fan %d: %v"
                "WARN: MANUAL fan policy not supported for GPU %d Fan %d."
                "INFO: Updated GPU %d Fan %d (curve): Temp=%d C, PrevSpeed=%d%%, NewSpeed=%d%%, Hyst=%d C"
                (curveDecision t (prof m) (lastFanChangeTemp g)) 0 (prevFanSpeeds g) env w1 in
     (mkGpu (fanCount g) t (fst (fst r)) false
            (if snd (fst r) then t else lastFanChangeTemp g),
      snd r)).
Proof.
  intros Hc Hm. unfold controlGpu. rewrite Hc, Hm.
  destruct (transition_log (inAuto g) false env w) as (w1 & Hlog & Hw1).
  exists w1. split; [exact Hw1|].
  rewrite (bind_eq _ _ _ _ _ _ Hlog).
  unfold bind. rewrite curveFanLoop_attempt.
  cbv zeta. destruct (attemptLoop _ _ _ _ _ _ _) as [[r u] w']. reflexivity.
Qed.

Lemma controlGpu_auto_state (config : Config) (m : loopMode) (device : N) (t : Z)
  (g : gpuState) (env : nvmlEnv) (w : world) :
  useCurve m = true ->
  nextInAuto (inAuto g) t (prof m) = true ->
  fst (controlGpu config m device t g env w) =
  mkGpu (fanCount g) t (prevFanSpeeds g) true t.
Proof.
  intros Hc Hm. unfold controlGpu. rewrite Hc, Hm.
  destruct (transition_log (inAuto g) true env w) as (w1 & Hlog & Hw1).
  rewrite (bind_eq _ _ _ _ _ _ Hlog).
  destruct (autoFanLoop device 0 (prevFanSpeeds g) env w1) as [[] w'] eqn:Ea.
  rewrite (bind_eq _ _ _ _ _ _ Ea). reflexivity.
Qed.

(** X10.  A tick keeps the shape of a GPU's state: the fan count and the
    number of recorded speeds stay, and the temperature read becomes the
    previous temperature. *)
Theorem tick_keeps_fan_slots :
  forall (config : Config) (m : loopMode) (device : N) (t : Z) (g : gpuState)
         (env : nvmlEnv) (w : world),
    let g' := fst (controlGpu config m device t g env w) in
    fanCount g' = fanCount g /\
    List.length (prevFanSpeeds g') = List.length (prevFanSpeeds g) /\
    prevTemp g' = t.
Proof.
  intros config m device t g env w g'. subst g'.
  destruct (useCurve m) eqn:Hc.
  - destruct (nextInAuto (inAuto g) t (prof m)) eqn:Hm.
    + rewrite controlGpu_auto_state by assumption. repeat split; reflexivity.
    + destruct (controlGpu_manual_form config m device t g env w Hc Hm) as (w1 & _ & ->).
      cbv zeta. simpl. rewrite attemptLoop_length. repeat split; reflexivity.
  - rewrite controlGpu_step_form by assumption. simpl.
    rewrite attemptLoop_length. repeat split; reflexivity.
Qed.

(** X11.  When a GPU has no fan, or its handle or its temperature cannot
    be read, the tick leaves the state of the GPU as it is and commands
    nothing: it makes no call, the handle call alone, or the handle and
    the temperature call. *)
Theorem tick_skips_unreadable_gpu :
  forall (config : Config) (m : loopMode) (i : Z) (g : gpuState)
         (env : nvmlEnv) (w : world),
    let r := tickGpu config m i g env w in
    let h := env (calls w) (DeviceGetHandleByIndex i) in
    let t := env (calls w ++ [DeviceGetHandleByIndex i]) (DeviceGetTemperature (value h)) in
    (fanCount g = 0 -> r = (g, w)) /\
    (fanCount g <> 0 -> ret h <> SUCCESS ->
     fst r = g /\ calls (snd r) = calls w ++ [DeviceGetHandleByIndex i]) /\
    (fanCount g <> 0 -> ret h = SUCCESS -> ret t <> SUCCESS ->
     fst r = g /\
     calls (snd r) =
     calls w ++ [DeviceGetHandleByIndex i; DeviceGetTemperature (value h)]).
Proof.
  intros config m i g env w r h t. subst r h t. unfold tickGpu.
  split; [|split].
  - intros ->. reflexivity.
  - intros Hf Hh. apply Z.eqb_neq in Hf. rewrite Hf.
    unfold bind, nvml. cbn -[controlGpu].
    destruct (ret (env (calls w) (DeviceGetHandleByIndex i))); [contradiction| |];
      cbn; split; reflexivity.
  - intros Hf Hh Ht. apply Z.eqb_neq in Hf. rewrite Hf.
    unfold bind, nvml. cbn -[controlGpu]. rewrite Hh. cbn -[controlGpu].
    destruct (ret (env (calls w ++ [DeviceGetHandleByIndex i]) _)); [contradiction| |];
      cbn; rewrite <- app_assoc; split; reflexivity.
Qed.

Lemma tick_skips_unreadable_gpu_witness :
  fst (tickGpu (mkConfig 5 exampleRanges true) (mkMode true exampleProfile) 0
         (mkGpu 1 50 [40] false 50) (failingEnv ERROR_OTHER) emptyWorld) =
  mkGpu 1 50 [40] false 50 /\
  tickGpu (mkConfig 5 exampleRanges true) (mkMode true exampleProfile) 0
    (mkGpu 0 0 [] false 0) (steadyEnv 50) emptyWorld =
  (mkGpu 0 0 [] false 0, emptyWorld).
Proof.
  destruct (tick_skips_unreadable_gpu (mkConfig 5 exampleRanges true)
              (mkMode true exampleProfile) 0 (mkGpu 1 50 [40] false 50)
              (failingEnv ERROR_OTHER) emptyWorld) as (_ & H2 & _).
  destruct (tick_skips_unreadable_gpu (mkConfig 5 exampleRanges true)
              (mkMode true exampleProfile) 0 (mkGpu 0 0 [] false 0)
              (steadyEnv 50) emptyWorld) as (H1 & _).
  split.
  - apply H2; [simpl; lia | discriminate].
  - apply H1. reflexivity.
Defined.

(** X12.  When the hardware refuses every write, a tick changes no
    recorded speed and, in MANUAL, does not move the reference temperature
    of the hysteresis: the same writes are due again on the next tick. *)
Theorem refused_writes_change_nothing :
  forall (config : Config) (m : loopMode) (device : N) (t : Z) (g : gpuState)
         (env : nvmlEnv) (w : world),
    refusesWrites env ->
    let g' := fst (controlGpu config m device t g env w) in
    prevFanSpeeds g' = prevFanSpeeds g /\
    (inAuto g' = false -> lastFanChangeTemp g' = lastFanChangeTemp g).
Proof.
  intros config m device t g env w Href g'. subst g'.
  destruct (useCurve m) eqn:Hc.
  - destruct (nextInAuto (inAuto g) t (prof m)) eqn:Hm.
    + rewrite controlGpu_auto_state by assumption. simpl.
      split; [reflexivity | discriminate].
    + destruct (controlGpu_manual_form config m device t g env w Hc Hm) as (w1 & _ & ->).
      cbv zeta. simpl. rewrite (attemptLoop_refused _ _ _ _ _ _ Href). simpl.
      split; reflexivity.
  - rewrite controlGpu_step_form by assumption. simpl.
    rewrite (attemptLoop_refused _ _ _ _ _ _ Href). simpl. split; reflexivity.
Qed.

Lemma refused_writes_change_nothing_witness :
  prevFanSpeeds (fst (controlGpu (mkConfig 5 exampleRanges true)
                        (mkMode true exampleProfile) 0%N 70
                        (mkGpu 1 50 [40] false 50) (failingEnv ERROR_NOT_SUPPORTED)
                        emptyWorld)) = [40].
Proof.
  refine (proj1 (refused_writes_change_nothing (mkConfig 5 exampleRanges true)
                   (mkMode true exampleProfile) 0%N 70
                   (mkGpu 1 50 [40] false 50) (failingEnv ERROR_NOT_SUPPORTED)
                   emptyWorld _)).
  intros h c _. discriminate.
Defined.

(** X13.  When the hardware accepts every write, a tick in step mode
    records for every fan the speed the step policy returns for it; a tick
    in curve MANUAL mode outside the hysteresis of the last change records
    the curve speed for every fan, and moves the reference temperature
    exactly when some fan had another speed. *)
Theorem accepted_writes_reach_target :
  forall (config : Config) (m : loopMode) (device : N) (t : Z) (g : gpuState)
         (env : nvmlEnv) (w : world),
    acceptsWrites env ->
    let g' := fst (controlGpu config m device t g env w) in
    (useCurve m = false ->
     prevFanSpeeds g' =
     map (fun s => getFanSpeedForTemperature t (prevTemp g) s (TemperatureRanges config))
         (prevFanSpeeds g)) /\
    (useCurve m = true ->
     nextInAuto (inAuto g) t (prof m) = false ->
     ~ (abs (GoInt.sub t (lastFanChangeTemp g)) <
        snd (curveSpeedForTempWithProfile t (prof m))) ->
     prevFanSpeeds g' =
     map (fun _ => fst (curveSpeedForTempWithProfile t (prof m))) (prevFanSpeeds g) /\
     lastFanChangeTemp g' =
     if forallb (fun s => fst (curveSpeedForTempWithProfile t (prof m)) =? s)
                (prevFanSpeeds g)
     then lastFanChangeTemp g else t).
Proof.
  intros config m device t g env w Hacc g'. subst g'. split.
  - intros Hc. rewrite controlGpu_step_form by assumption. simpl.
    rewrite (attemptLoop_accepted _ _ _ _ _ _ Hacc). simpl.
    apply map_ext. intros s. unfold stepDecision.
    destruct (Z.eqb_spec (getFanSpeedForTemperature t (prevTemp g) s
                            (TemperatureRanges config)) s); congruence.
  - intros Hc Hm Hhold.
    destruct (controlGpu_manual_form config m device t g env w Hc Hm) as (w1 & _ & ->).
    cbv zeta. simpl. rewrite (attemptLoop_accepted _ _ _ _ _ _ Hacc). simpl.
    assert (Hdec : forall s,
      curveDecision t (prof m) (lastFanChangeTemp g) s =
      if fst (curveSpeedForTempWithProfile t (prof m)) =? s then None
      else Some (fst (curveSpeedForTempWithProfile t (prof m)))).
    { intros s. unfold curveDecision.
      destruct (curveSpeedForTempWithProfile t (prof m)) as [v h]. simpl in *.
      destruct (v =? s); [reflexivity|].
      destruct (Z.ltb_spec (abs (GoInt.sub t (lastFanChangeTemp g))) h);
        [contradiction|reflexivity]. }
    split.
    + apply map_ext. intros s. rewrite Hdec.
      destruct (Z.eqb_spec (fst (curveSpeedForTempWithProfile t (prof m))) s);
        congruence.
    + induction (prevFanSpeeds g) as [|s l IH]; [reflexivity|].
      cbn [existsb forallb]. rewrite Hdec.
      destruct (fst (curveSpeedForTempWithProfile t (prof m)) =? s); simpl;
        [exact IH | reflexivity].
Qed.

Lemma accepted_writes_reach_target_witness :
  prevFanSpeeds (fst (controlGpu (mkConfig 5 exampleRanges true)
                        (mkMode true exampleProfile) 0%N 70
                        (mkGpu 2 50 [40; 85] false 50) (steadyEnv 70) emptyWorld)) =
  [85; 85] /\
  prevFanSpeeds (fst (controlGpu (mkConfig 5 exampleRanges false)
                        (mkMode false zeroProfile) 0%N 70
                        (mkGpu 2 50 [40; 70] false 50) (steadyEnv 70) emptyWorld)) =
  [70; 70].
Proof.
  assert (Hacc : forall v, acceptsWrites (steadyEnv v)) by (intros v h c _; reflexivity).
  split.
  - refine (proj1 (proj2 (accepted_writes_reach_target (mkConfig 5 exampleRanges true)
                            (mkMode true exampleProfile) 0%N 70
                            (mkGpu 2 50 [40; 85] false 50) (steadyEnv 70) emptyWorld
                            (Hacc 70%N)) eq_refl eq_refl _)).
    vm_compute. intros H. discriminate H.
  - exact (proj1 (accepted_writes_reach_target (mkConfig 5 exampleRanges false)
                    (mkMode false zeroProfile) 0%N 70
                    (mkGpu 2 50 [40; 70] false 50) (steadyEnv 70) emptyWorld
                    (Hacc 70%N)) eq_refl).
Defined.




(* ------------------------------------------------------------------ *)
(** ** The calls of a tick *)

Lemma callsAll_pure {A : Type} (Q : nvmlCall -> Prop) (a : A) : callsAll Q (pure a).
Proof. intros env w. exists []. split; [simpl; now rewrite app_nil_r | constructor]. Qed.

Lemma callsAll_write (Q : nvmlCall -> Prop) (s : stream) (msg : string) :
  callsAll Q (write s msg).
Proof. intros env w. exists []. split; [simpl; now rewrite app_nil_r | constructor]. Qed.

Lemma callsAll_nvml (Q : nvmlCall -> Prop) (c : nvmlCall) : Q c -> callsAll Q (nvml c).
Proof. intros H env w. exists [c]. split; [reflexivity | now constructor]. Qed.

Lemma callsAll_bind {A B : Type} (Q : nvmlCall -> Prop) (m : Prog A) (k : A -> Prog B) :
  callsAll Q m -> (forall a, callsAll Q (k a)) -> callsAll Q (bind m k).
Proof.
  intros Hm Hk env w. unfold bind.
  destruct (Hm env w) as (n1 & E1 & F1).
  destruct (m env w) as [a w1]. simpl in E1.
  destruct (Hk a env w1) as (n2 & E2 & F2).
  exists (n1 ++ n2). split; [now rewrite E2, E1, app_assoc | now apply Forall_app].
Qed.

(** Closes a goal [callsAll Q m] for a program built from [bind], [pure],
    [write], [nvml] and case distinctions, given [Q] for the calls. *)
Ltac calls_all :=
  repeat first
    [ apply callsAll_pure
    | apply callsAll_write
    | apply callsAll_nvml
    | apply callsAll_bind; [|intros ?]
    | match goal with
      | |- callsAll _ (if ?b then _ else _) => destruct b
      | |- callsAll _ (match ?x with _ => _ end) => destruct x
      end ].

Lemma fanCalls_Forall (Q : nvmlCall -> Prop) (device : N) (decide : Z -> option Z) :
  (forall f, Q (DeviceSetFanControlPolicy device f FAN_POLICY_MANUAL)) ->
  (forall f s v, decide s = Some v -> Q (DeviceSetFanSpeed_v2 device f v)) ->
  forall fanIdx fans cs, fanCalls device decide fanIdx fans cs -> Forall Q cs.
Proof.
  intros HP HS. induction 1; repeat constructor; eauto.
Qed.

Lemma autoWrites_Forall (Q : nvmlCall -> Prop) (device : N) :
  (forall f, Q (DeviceSetFanControlPolicy device f FAN_POLICY_TEMPERATURE_CONTINOUS_SW)) ->
  forall fans fanIdx, Forall Q (autoWrites device fanIdx fans).
Proof.
  intros HP. induction fans as [|s fans IH]; intros fanIdx; simpl; constructor; auto.
Qed.

(** The calls of a tick for one GPU, by mode. *)
Lemma controlGpu_calls_shape (config : Config) (m : loopMode) (device : N) (t : Z)
  (g : gpuState) (env : nvmlEnv) (w : world) :
  exists new,
    calls (snd (controlGpu config m device t g env w)) = calls w ++ new /\
    ((useCurve m = true /\ nextInAuto (inAuto g) t (prof m) = true /\
      new = autoWrites device 0 (prevFanSpeeds g)) \/
     (useCurve m = true /\ nextInAuto (inAuto g) t (prof m) = false /\
      fanCalls device (curveDecision t (prof m) (lastFanChangeTemp g)) 0
               (prevFanSpeeds g) new) \/
     (useCurve m = false /\
      fanCalls device (stepDecision t (prevTemp g) (TemperatureRanges config)) 0
               (prevFanSpeeds g) new)).
Proof.
  destruct (useCurve m) eqn:Hc.
  - destruct (nextInAuto (inAuto g) t (prof m)) eqn:Hm.
    + exists (autoWrites device 0 (prevFanSpeeds g)).
      split; [apply controlGpu_auto_calls; assumption | now left].
    + destruct (controlGpu_manual_form config m device t g env w Hc Hm) as (w1 & Hw1 & ->).
      cbv zeta.
      destruct (attemptLoop_trace device
                  "ERROR: Unable to set MANUAL fan policy for GPU %d Fan %d: %v"
                  "WARN: MANUAL fan policy not supported for GPU %d Fan %d."
                  "INFO: Updated GPU %d Fan %d (curve): Temp=%d C, PrevSpeed=%d%%, NewSpeed=%d%%, Hyst=%d C"
                  (curveDecision t (prof m) (lastFanChangeTemp g)) (prevFanSpeeds g) 0 env w1)
        as (new & Hnew & Hfc).
      exists new. simpl. rewrite Hnew, Hw1. split; [reflexivity|]. right. left. auto.
  - rewrite controlGpu_step_form by assumption.
    destruct (attemptLoop_trace device
                "ERROR: Unable to set manual fan control policy for GPU %d Fan %d: %v"
                "WARN: Manual fan control policy not supported for GPU %d Fan %d. Cannot set speed."
                "INFO: Updated GPU %d Fan %d: Temp=%d C, PrevSpeed=%d%%, NewSpeed=%d%%"
                (stepDecision t (prevTemp g) (TemperatureRanges config)) (prevFanSpeeds g) 0 env w)
      as (new & Hnew & Hfc).
    exists new. simpl. split; [exact Hnew|]. right. right. auto.
Qed.

Lemma step_value_by_find (tempC prevT prevSpeed : Z) (ranges : list TemperatureRange) :
  getFanSpeedForTemperature tempC prevT prevSpeed ranges =
  match find (inBand tempC) ranges with
  | Some r => FanSpeed r
  | None => prevSpeed
  end.
Proof.
  induction ranges as [|r ranges IH]; [reflexivity|].
  destruct (inBand tempC r) eqn:E.
  - rewrite step_match_value by exact E. simpl. now rewrite E.
  - simpl. rewrite E. exact IH.
Qed.

Lemma stepDecision_some (t prevT s v : Z) (ranges : list TemperatureRange) :
  stepDecision t prevT ranges s = Some v ->
  exists r, In r ranges /\ inBand t r = true /\ v = FanSpeed r.
Proof.
  unfold stepDecision. rewrite step_value_by_find.
  destruct (find (inBand t) ranges) as [r|] eqn:Ef.
  - destruct (FanSpeed r =? s); [discriminate|]. intros H. injection H as <-.
    apply find_some in Ef. exists r. tauto.
  - rewrite Z.eqb_refl. discriminate.
Qed.

Lemma curveDecision_some (t lastChange s v : Z) (p : curveProfile) :
  curveDecision t p lastChange s = Some v ->
  v = fst (curveSpeedForTempWithProfile t p).
Proof.
  unfold curveDecision. destruct (curveSpeedForTempWithProfile t p) as [v0 h].
  destruct (v0 =? s); [discriminate|].
  destruct (abs (GoInt.sub t lastChange) <? h); [discriminate|].
  intros H. now injection H as <-.
Qed.

Lemma autoWrites_no_speed_write (device d : N) (f v : Z) (fans : list Z) (fanIdx : Z) :
  ~ In (DeviceSetFanSpeed_v2 d f v) (autoWrites device fanIdx fans).
Proof.
  revert fanIdx. induction fans as [|s fans IH]; intros fanIdx; simpl; [tauto|].
  intros [H|H]; [discriminate | exact (IH _ H)].
Qed.

(** X15.  Every speed a tick writes goes to the GPU of the tick and to one
    of its fans, directly after the MANUAL policy write for that fan; in
    curve mode it is the speed of the lookup at the temperature read, in
    step mode the fan speed of a configured range whose band holds that
    temperature. *)
Theorem speed_write_follows_manual_policy :
  forall (config : Config) (m : loopMode) (device : N) (t : Z) (g : gpuState)
         (env : nvmlEnv) (w : world),
    exists new,
      calls (snd (controlGpu config m device t g env w)) = calls w ++ new /\
      forall pre d f v post,
        new = pre ++ DeviceSetFanSpeed_v2 d f v :: post ->
        d = device /\
        (exists pre',
            pre = pre' ++ [DeviceSetFanControlPolicy device f FAN_POLICY_MANUAL]) /\
        0 <= f < Z.of_nat (List.length (prevFanSpeeds g)) /\
        (useCurve m = true -> v = fst (curveSpeedForTempWithProfile t (prof m))) /\
        (useCurve m = false ->
         exists r, In r (TemperatureRanges config) /\ inBand t r = true /\
                   v = FanSpeed r).
Proof.
  intros config m device t g env w.
  destruct (controlGpu_calls_shape config m device t g env w) as (new & Hnew & Hshape).
  exists new. split; [exact Hnew|].
  intros pre d f v post Heq.
  destruct Hshape as [(Hc & _ & Ha)|[(Hc & _ & Hfc)|(Hc & Hfc)]].
  - exfalso. apply (autoWrites_no_speed_write device d f v (prevFanSpeeds g) 0).
    rewrite <- Ha, Heq. apply in_elt.
  - destruct (fanCalls_speed_write _ _ _ _ _ Hfc pre d f v post Heq)
      as (Hd & Hpre & j & s & Hj & Hf & Hv).
    split; [exact Hd|]. split; [exact Hpre|]. split.
    + assert (j < List.length (prevFanSpeeds g))%nat
        by (apply nth_error_Some; congruence). lia.
    + split; [intros _; now apply curveDecision_some in Hv | congruence].
  - destruct (fanCalls_speed_write _ _ _ _ _ Hfc pre d f v post Heq)
      as (Hd & Hpre & j & s & Hj & Hf & Hv).
    split; [exact Hd|]. split; [exact Hpre|]. split.
    + assert (j < List.length (prevFanSpeeds g))%nat
        by (apply nth_error_Some; congruence). lia.
    + split; [congruence | intros _; now apply stepDecision_some in Hv].
Qed.

Lemma speed_write_follows_manual_policy_witness :
  calls (snd (controlGpu (mkConfig 5 exampleRanges true) (mkMode true exampleProfile)
                7%N 70 (mkGpu 1 50 [40] false 50) (steadyEnv 70) emptyWorld)) =
  [DeviceSetFanControlPolicy 7 0 FAN_POLICY_MANUAL; DeviceSetFanSpeed_v2 7 0 85] /\
  85 = fst (curveSpeedForTempWithProfile 70 exampleProfile).
Proof.
  destruct (speed_write_follows_manual_policy (mkConfig 5 exampleRanges true)
              (mkMode true exampleProfile) 7%N 70 (mkGpu 1 50 [40] false 50)
              (steadyEnv 70) emptyWorld) as (new & Hnew & Hall).
  assert (Hn : new = [DeviceSetFanControlPolicy 7 0 FAN_POLICY_MANUAL;
                      DeviceSetFanSpeed_v2 7 0 85]).
  { vm_compute in Hnew. exact (eq_sym Hnew). }
  split; [rewrite Hnew, Hn; reflexivity|].
  destruct (Hall [DeviceSetFanControlPolicy 7 0 FAN_POLICY_MANUAL] 7%N 0 85 [])
    as (_ & _ & _ & Hv & _); [exact Hn|].
  exact (Hv eq_refl).
Defined.

Lemma tickGpu_callsAll (Q : nvmlCall -> Prop) (config : Config) (m : loopMode) :
  (forall i, Q (DeviceGetHandleByIndex i)) ->
  (forall d, Q (DeviceGetTemperature d)) ->
  (forall device t g, callsAll Q (controlGpu config m device t g)) ->
  forall i g, callsAll Q (tickGpu config m i g).
Proof.
  intros Hh Ht Hctl i g. unfold tickGpu, logf.
  destruct (fanCount g =? 0); [apply callsAll_pure|].
  apply callsAll_bind; [apply callsAll_nvml, Hh|]. intros h.
  destruct (negb (isSuccess (ret h))); [calls_all|].
  apply callsAll_bind; [apply callsAll_nvml, Ht|]. intros t.
  destruct (negb (isSuccess (ret t))); [calls_all|]. apply Hctl.
Qed.

Lemma ticks_callsAll (Q : nvmlCall -> Prop) (config : Config) (m : loopMode) :
  (forall i, Q (DeviceGetHandleByIndex i)) ->
  (forall d, Q (DeviceGetTemperature d)) ->
  (forall device t g, callsAll Q (controlGpu config m device t g)) ->
  forall n gs, callsAll Q (ticks config m n gs).
Proof.
  intros Hh Ht Hctl.
  assert (Hgs : forall gs i, callsAll Q (tickGpus config m i gs)).
  { induction gs as [|g gs IH]; intros i; cbn [tickGpus]; [apply callsAll_pure|].
    apply callsAll_bind; [now apply tickGpu_callsAll|]. intros g'.
    apply callsAll_bind; [apply IH|]. intros rest. apply callsAll_pure. }
  induction n as [|n IH]; intros gs; cbn [ticks]; [apply callsAll_pure|].
  apply callsAll_bind; [apply Hgs|]. intros gs'. apply IH.
Qed.

Lemma controlGpu_callsAll (Q : nvmlCall -> Prop) (config : Config) (m : loopMode) :
  (useCurve m = true ->
   forall d f, Q (DeviceSetFanControlPolicy d f FAN_POLICY_TEMPERATURE_CONTINOUS_SW)) ->
  (forall d f, Q (DeviceSetFanControlPolicy d f FAN_POLICY_MANUAL)) ->
  (useCurve m = true ->
   forall d f t, Q (DeviceSetFanSpeed_v2 d f (fst (curveSpeedForTempWithProfile t (prof m))))) ->
  (useCurve m = false ->
   forall d f r, In r (TemperatureRanges config) -> Q (DeviceSetFanSpeed_v2 d f (FanSpeed r))) ->
  forall device t g, callsAll Q (controlGpu config m device t g).
Proof.
  intros Hauto Hman Hcurve Hstep device t g env w.
  destruct (controlGpu_calls_shape config m device t g env w) as (new & Hnew & Hshape).
  exists new. split; [exact Hnew|].
  destruct Hshape as [(Hc & _ & ->)|[(Hc & _ & Hfc)|(Hc & Hfc)]].
  - apply autoWrites_Forall. intros f. now apply Hauto.
  - apply (fanCalls_Forall Q _ _ (Hman device)) in Hfc; [exact Hfc|].
    intros f s v Hv. apply curveDecision_some in Hv. subst v. now apply Hcurve.
  - apply (fanCalls_Forall Q _ _ (Hman device)) in Hfc; [exact Hfc|].
    intros f s v Hv. apply stepDecision_some in Hv.
    destruct Hv as (r & Hr & _ & ->). now apply Hstep.
Qed.

Lemma lookup_percent_range (ranges : list TemperatureRange) (p : curveProfile) (t : Z) :
  buildCurveProfileFromRanges ranges = inr p ->
  0 <= fst (curveSpeedForTempWithProfile t p) <= 100.
Proof.
  intros Hb. destruct (builder_point_speed _ _ Hb) as [Hfloor Hpts].
  unfold curveSpeedForTempWithProfile, curveSpeedSite.
  destruct (t <? floorEndTemp p); [exact Hfloor|].
  destruct (points p) as [|p0 rest] eqn:Ep; [exact Hfloor|].
  destruct (t <? temp p0); [exact Hfloor|].
  assert (Hl : 0 <= speed (last (p0 :: rest) p0) <= 100) by (apply Hpts, last_In).
  destruct (t >=? temp (last (p0 :: rest) p0)); [exact Hl|].
  now apply segmentLoop_speed_bounds.
Qed.

Lemma chooseMode_result (config : Config) (env : nvmlEnv) (w : world) :
  let m := fst (chooseMode config env w) in
  calls (snd (chooseMode config env w)) = calls w /\
  ((useCurve m = true /\ Curve config = true /\
    buildCurveProfileFromRanges (TemperatureRanges config) = inr (prof m)) \/
   (useCurve m = false /\ prof m = zeroProfile /\
    (Curve config = false \/ TemperatureRanges config = []))).
Proof.
  cbv zeta. unfold chooseMode.
  destruct (Curve config) eqn:Hc.
  - destruct (buildCurveProfileFromRanges (TemperatureRanges config)) as [msg|p] eqn:Hb.
    + simpl. split; [reflexivity|]. right. repeat split.
      right. destruct (TemperatureRanges config); [reflexivity|discriminate].
    + simpl. split; [reflexivity|]. left. repeat split.
  - simpl. split; [reflexivity|]. right. repeat split. now left.
Qed.

Lemma runMonitoringLoop_callsAll (Q : nvmlCall -> Prop) (config : Config)
  (devices : list gpuInit) (n : nat) (env : nvmlEnv) (w : world) :
  (forall i, Q (DeviceGetHandleByIndex i)) ->
  (forall d, Q (DeviceGetTemperature d)) ->
  (forall device t g,
      callsAll Q (controlGpu config (fst (chooseMode config env
                    (mkWorld (calls w)
                       (output w ++ [(LogOut, "INFO: Starting monitoring loop..."%string)]))))
                    device t g)) ->
  exists new,
    calls (snd (runMonitoringLoop config devices n env w)) = calls w ++ new /\
    Forall Q new /\
    fst (fst (runMonitoringLoop config devices n env w)) =
    fst (chooseMode config env
           (mkWorld (calls w)
              (output w ++ [(LogOut, "INFO: Starting monitoring loop..."%string)]))).
Proof.
  intros Hh Ht Hctl. unfold runMonitoringLoop.
  rewrite (bind_eq _ _ _ _ _ _ (eq_refl : logf _ env w = (tt, _))).
  set (w0 := mkWorld (calls w) _) in *.
  pose proof (chooseMode_result config env w0) as Hm. cbv zeta in Hm.
  destruct (chooseMode config env w0) as [m w1] eqn:Em. simpl in Hm, Hctl.
  rewrite (bind_eq _ _ _ _ _ _ Em). cbv zeta.
  destruct (tickerInterval config <=? 0).
  { exists []. destruct Hm as [Hw1 _]. simpl. rewrite Hw1, app_nil_r.
    repeat split. constructor. }
  destruct (ticks_callsAll Q config m Hh Ht Hctl n (map (startGpu m) devices) env w1)
    as (new & Hnew & HQ).
  destruct (ticks config m n (map (startGpu m) devices) env w1) as [gs w2] eqn:Et.
  rewrite (bind_eq _ _ _ _ _ _ Et). simpl in *.
  exists new. destruct Hm as [Hw1 _]. rewrite Hnew, Hw1.
  repeat split. exact HQ.
Qed.

Lemma runMonitoringLoop_mode (config : Config) (devices : list gpuInit) (n : nat)
  (env : nvmlEnv) (w : world) :
  fst (fst (runMonitoringLoop config devices n env w)) =
  fst (chooseMode config env
         (mkWorld (calls w)
            (output w ++ [(LogOut, "INFO: Starting monitoring loop..."%string)]))).
Proof.
  unfold runMonitoringLoop.
  rewrite (bind_eq _ _ _ _ _ _ (eq_refl : logf _ env w = (tt, _))).
  destruct (chooseMode config env _) as [m w1] eqn:Em.
  rewrite (bind_eq _ _ _ _ _ _ Em). cbv zeta.
  destruct (tickerInterval config <=? 0); [reflexivity|].
  destruct (ticks config m n (map (startGpu m) devices) env w1) as [gs w2] eqn:Et.
  rewrite (bind_eq _ _ _ _ _ _ Et). reflexivity.
Qed.

(** X16.  In curve mode every speed the monitoring loop writes to the
    hardware is a percentage from 0 to 100, whatever fan speeds the
    configuration holds and whatever the hardware answers. *)
Theorem curve_loop_writes_percentages :
  forall (config : Config) (devices : list gpuInit) (n : nat)
         (env : nvmlEnv) (w : world),
    let r := runMonitoringLoop config devices n env w in
    useCurve (fst (fst r)) = true ->
    exists new,
      calls (snd r) = calls w ++ new /\
      forall d f v, In (DeviceSetFanSpeed_v2 d f v) new -> 0 <= v <= 100.
Proof.
  intros config devices n env w r Hc. subst r.
  rewrite runMonitoringLoop_mode in Hc.
  set (Q := fun c => match c with
                     | DeviceSetFanSpeed_v2 _ _ v => 0 <= v <= 100
                     | _ => True
                     end).
  pose proof (chooseMode_result config env
                (mkWorld (calls w)
                   (output w ++ [(LogOut, "INFO: Starting monitoring loop..."%string)])))
    as Hm. cbv zeta in Hm.
  destruct (runMonitoringLoop_callsAll Q config devices n env w)
    as (new & Hnew & HQ & _); try (intros; exact I).
  - apply controlGpu_callsAll; try (intros; exact I).
    + intros Hcm d f t. simpl.
      destruct Hm as [_ [(_ & _ & Hb)|(Hf & _)]]; [|congruence].
      exact (lookup_percent_range _ _ t Hb).
    + congruence.
  - exists new. split; [exact Hnew|].
    intros d f v Hin. rewrite Forall_forall in HQ. exact (HQ _ Hin).
Qed.

Lemma curve_loop_writes_percentages_witness :
  exists new,
    calls (snd (runMonitoringLoop
                  (mkConfig 5 [mkRange 0 40 30 3; mkRange 40 60 250 3] true)
                  [mkGpuInit 1 20 [30]] 2 (steadyEnv 90) emptyWorld)) = new /\
    forall d f v, In (DeviceSetFanSpeed_v2 d f v) new -> 0 <= v <= 100.
Proof.
  destruct (curve_loop_writes_percentages
              (mkConfig 5 [mkRange 0 40 30 3; mkRange 40 60 250 3] true)
              [mkGpuInit 1 20 [30]] 2 (steadyEnv 90) emptyWorld eq_refl)
    as (new & Hnew & H).
  exists new. split; [exact Hnew | exact H].
Defined.

(** X17.  In step mode the monitoring loop never hands a fan back to
    automatic control, and every speed it writes is the fan speed of a
    configured range, unclamped. *)
Theorem step_loop_writes_configured_speeds :
  forall (config : Config) (devices : list gpuInit) (n : nat)
         (env : nvmlEnv) (w : world),
    let r := runMonitoringLoop config devices n env w in
    useCurve (fst (fst r)) = false ->
    exists new,
      calls (snd r) = calls w ++ new /\
      (forall d f, ~ In (DeviceSetFanControlPolicy d f FAN_POLICY_TEMPERATURE_CONTINOUS_SW) new) /\
      (forall d f v, In (DeviceSetFanSpeed_v2 d f v) new ->
                     exists r0, In r0 (TemperatureRanges config) /\ v = FanSpeed r0).
Proof.
  intros config devices n env w r Hc. subst r.
  set (Q := fun c => match c with
                     | DeviceSetFanSpeed_v2 _ _ v =>
                         exists r0, In r0 (TemperatureRanges config) /\ v = FanSpeed r0
                     | DeviceSetFanControlPolicy _ _ FAN_POLICY_TEMPERATURE_CONTINOUS_SW =>
                         False
                     | _ => True
                     end).
  rewrite runMonitoringLoop_mode in Hc.
  destruct (runMonitoringLoop_callsAll Q config devices n env w)
    as (new & Hnew & HQ & _); try (intros; exact I).
  - apply controlGpu_callsAll; try (intros; exact I); try congruence.
    intros _ d f r0 Hr. simpl. now exists r0.
  - exists new. split; [exact Hnew|]. rewrite Forall_forall in HQ. split.
    + intros d f Hin. exact (HQ _ Hin).
    + intros d f v Hin. exact (HQ _ Hin).
Qed.

Lemma step_loop_writes_configured_speeds_witness :
  exists new,
    calls (snd (runMonitoringLoop (mkConfig 5 [mkRange 0 40 30 3; mkRange 40 60 250 3] false)
                  [mkGpuInit 1 20 [30]] 2 (steadyEnv 50) emptyWorld)) = new /\
    In (DeviceSetFanSpeed_v2 50 0 250) new.
Proof.
  destruct (step_loop_writes_configured_speeds
              (mkConfig 5 [mkRange 0 40 30 3; mkRange 40 60 250 3] false)
              [mkGpuInit 1 20 [30]] 2 (steadyEnv 50) emptyWorld eq_refl)
    as (new & Hnew & _).
  exists new. split; [exact Hnew|].
  change (calls emptyWorld ++ new) with new in Hnew. rewrite <- Hnew.
  vm_compute. tauto.
Defined.

(* ------------------------------------------------------------------ *)
(** ** Device initialisation and the daemon *)

Lemma initialFanSpeeds_length (dev : N) :
  forall (n : nat) (fanIdx : Z) (env : nvmlEnv) (w : world),
    List.length (fst (initialFanSpeeds dev fanIdx n env w)) = n.
Proof.
  induction n as [|n IH]; intros fanIdx env w; [reflexivity|].
  cbn [initialFanSpeeds]. unfold bind at 1.
  destruct (nvml (DeviceGetFanSpeed_v2 dev fanIdx) env w) as [s w1].
  unfold bind at 1.
  match goal with |- context [let (a, w') := ?m env w1 in _] =>
    destruct (m env w1) as [v w2] end.
  unfold bind. specialize (IH (fanIdx + 1) env w2).
  destruct (initialFanSpeeds dev (fanIdx + 1) n env w2) as [rest w3].
  simpl in *. now rewrite IH.
Qed.

Lemma initializeDevice_spec (i : Z) (env : nvmlEnv) (w : world) :
  let r := fst (initializeDevice i env w) in
  gpuInitSized (fst r) /\
  (snd r = true -> 0 < initFanCount (fst r)) /\
  (snd r = false -> initFanSpeeds (fst r) = []).
Proof.
  cbv zeta. destruct (initializeDevice i env w) as [[d ok] w'] eqn:E.
  cbn [fst snd]. unfold initializeDevice in E.
  unfold bind at 1 in E. destruct (nvml (DeviceGetHandleByIndex i) env w) as [h w1].
  destruct (negb (isSuccess (ret h))).
  { simpl in E. injection E as <- <- <-.
    repeat split; discriminate || reflexivity. }
  unfold bind at 1 in E.
  destruct (nvml (DeviceGetNumFans (value h)) env w1) as [nf w2].
  destruct (negb (isSuccess (ret nf))).
  { simpl in E. injection E as <- <- <-.
    repeat split; discriminate || reflexivity. }
  destruct (Z.leb_spec (Z.of_N (value nf)) 0) as [Hz|Hz].
  { simpl in E. injection E as <- <- <-.
    assert (value nf = 0%N) as -> by lia.
    repeat split; discriminate || reflexivity. }
  unfold bind at 1 in E. cbn [logf write] in E.
  unfold bind at 1 in E.
  destruct (nvml (DeviceGetTemperature (value h)) env _) as [t w3].
  unfold bind at 1 in E.
  match type of E with context [let (a, w') := ?m env w3 in _] =>
    destruct (m env w3) as [t0 w4] end.
  unfold bind at 1 in E.
  pose proof (initialFanSpeeds_length (value h) (N.to_nat (value nf)) 0 env w4) as HL.
  destruct (initialFanSpeeds (value h) 0 (N.to_nat (value nf)) env w4) as [speeds w5].
  simpl in E, HL. injection E as <- <- <-. unfold gpuInitSized. simpl.
  split; [rewrite HL; lia|]. split; [intros _; exact Hz | discriminate].
Qed.

Lemma initializeDeviceLoop_spec :
  forall (n : nat) (i : Z) (env : nvmlEnv) (w : world),
    let r := fst (initializeDeviceLoop i n env w) in
    Forall gpuInitSized (fst r) /\
    List.length (fst r) = n /\
    0 <= snd r /\
    (snd r <> 0 -> exists d, In d (fst r) /\ 0 < initFanCount d).
Proof.
  induction n as [|n IH]; intros i env w; cbv zeta.
  - simpl. repeat split; try constructor; try lia.
  - cbn [initializeDeviceLoop].
    pose proof (initializeDevice_spec i env w) as Hd. cbv zeta in Hd.
    destruct (initializeDevice i env w) as [[d ok] w1] eqn:E1.
    rewrite (bind_eq _ _ _ _ _ _ E1).
    specialize (IH (i + 1) env w1). cbv zeta in IH.
    destruct (initializeDeviceLoop (i + 1) n env w1) as [[ds k] w2] eqn:E2.
    rewrite (bind_eq _ _ _ _ _ _ E2).
    simpl in *. destruct Hd as (Hs & Hok & _). destruct IH as (Hf & HL & Hk & Hex).
    split; [now constructor|]. split; [now rewrite HL|].
    split; [destruct ok; lia|].
    intros Hne. destruct ok.
    + exists d. split; [now left | now apply Hok].
    + destruct Hex as (d' & Hin & Hpos); [lia|]. exists d'. split; [now right | exact Hpos].
Qed.

(** X18.  When [initializeDevices] succeeds it returns one entry for each
    GPU that NVML counted, every entry with as many initial speeds as the
    GPU has fans, and at least one GPU with a fan; with no GPU, or with no
    GPU that has a fan, it fails. *)
Theorem initializeDevices_result :
  forall (env : nvmlEnv) (w : world) (devices : list gpuInit),
    fst (initializeDevices env w) = Some devices ->
    List.length devices = N.to_nat (value (env (calls w) DeviceGetCount)) /\
    Forall gpuInitSized devices /\
    exists d, In d devices /\ 0 < initFanCount d.
Proof.
  intros env w devices E. unfold initializeDevices in E.
  unfold bind at 1, nvml at 1 in E.
  destruct (negb (isSuccess (ret (env (calls w) DeviceGetCount)))); [discriminate|].
  destruct (Z.eqb_spec (Z.of_N (value (env (calls w) DeviceGetCount))) 0);
    [discriminate|].
  unfold bind at 1 in E. cbn [logf write] in E.
  match type of E with context [bind (initializeDeviceLoop 0 ?n) _ env ?w0] =>
    pose proof (initializeDeviceLoop_spec n 0 env w0) as Hl;
    destruct (initializeDeviceLoop 0 n env w0) as [[ds k] w2] eqn:E2
  end.
  rewrite (bind_eq _ _ _ _ _ _ E2) in E.
  cbv zeta in Hl. simpl in Hl. cbn [fst snd] in E.
  destruct (Z.eqb_spec k 0) as [Hk|Hk].
  - destruct (Z.gtb_spec (Z.of_N (value (env (calls w) DeviceGetCount))) 0);
      [discriminate | lia].
  - simpl in E. injection E as <-.
    destruct Hl as (Hf & HL & _ & Hex). split; [exact HL|]. split; [exact Hf|].
    now apply Hex.
Qed.

Lemma initializeDevices_result_witness :
  exists devices,
    fst (initializeDevices (steadyEnv 2) emptyWorld) = Some devices /\
    List.length devices = 2%nat /\ Forall gpuInitSized devices.
Proof.
  exists [mkGpuInit 2 2 [2; 2]; mkGpuInit 2 2 [2; 2]].
  split; [reflexivity|].
  destruct (initializeDevices_result (steadyEnv 2) emptyWorld
              [mkGpuInit 2 2 [2; 2]; mkGpuInit 2 2 [2; 2]] eq_refl) as (H1 & H2 & _).
  split; [exact H1 | exact H2].
Defined.

Lemma controlGpu_slots (config : Config) (m : loopMode) (device : N) (t : Z)
  (g : gpuState) (env : nvmlEnv) (w : world) :
  fanCount (fst (controlGpu config m device t g env w)) = fanCount g /\
  List.length (prevFanSpeeds (fst (controlGpu config m device t g env w))) =
  List.length (prevFanSpeeds g).
Proof.
  destruct (useCurve m) eqn:Hc.
  - destruct (nextInAuto (inAuto g) t (prof m)) eqn:Hm.
    + rewrite controlGpu_auto_state by assumption. split; reflexivity.
    + destruct (controlGpu_manual_form config m device t g env w Hc Hm) as (w1 & _ & ->).
      cbv zeta. simpl. rewrite attemptLoop_length. split; reflexivity.
  - rewrite controlGpu_step_form by assumption. simpl.
    rewrite attemptLoop_length. split; reflexivity.
Qed.

Lemma tickGpu_sized (config : Config) (m : loopMode) (i : Z) (g : gpuState)
  (env : nvmlEnv) (w : world) :
  gpuSized g -> gpuSized (fst (tickGpu config m i g env w)).
Proof.
  intros Hs. unfold tickGpu.
  destruct (fanCount g =? 0); [exact Hs|].
  unfold bind at 1. destruct (nvml (DeviceGetHandleByIndex i) env w) as [h w1].
  destruct (negb (isSuccess (ret h))); [exact Hs|].
  unfold bind at 1. destruct (nvml (DeviceGetTemperature (value h)) env w1) as [t w2].
  destruct (negb (isSuccess (ret t))); [exact Hs|].
  unfold gpuSized in *.
  destruct (controlGpu_slots config m (value h) (Z.of_N (value t)) g env w2) as [H1 H2].
  now rewrite H1, H2.
Qed.

Lemma ticks_sized (config : Config) (m : loopMode) :
  forall (n : nat) (gs : list gpuState) (env : nvmlEnv) (w : world),
    Forall gpuSized gs -> Forall gpuSized (fst (ticks config m n gs env w)).
Proof.
  assert (Hgs : forall gs i env w,
             Forall gpuSized gs -> Forall gpuSized (fst (tickGpus config m i gs env w))).
  { induction gs as [|g gs IH]; intros i env w Hf; [constructor|].
    inversion Hf as [|? ? Hg Hrest]; subst. cbn [tickGpus].
    pose proof (tickGpu_sized config m i g env w Hg) as H1.
    destruct (tickGpu config m i g env w) as [g' w1] eqn:E1.
    rewrite (bind_eq _ _ _ _ _ _ E1).
    pose proof (IH (i + 1) env w1 Hrest) as H2.
    destruct (tickGpus config m (i + 1) gs env w1) as [gs' w2] eqn:E2.
    rewrite (bind_eq _ _ _ _ _ _ E2). simpl in *. now constructor. }
  induction n as [|n IH]; intros gs env w Hf; [exact Hf|].
  cbn [ticks].
  pose proof (Hgs gs 0 env w Hf) as H1.
  destruct (tickGpus config m 0 gs env w) as [gs' w1] eqn:E1.
  rewrite (bind_eq _ _ _ _ _ _ E1). now apply IH.
Qed.

Lemma nvmlCleanup_calls (env : nvmlEnv) (w : world) :
  calls (snd (nvmlCleanup env w)) = calls w ++ [Shutdown].
Proof.
  unfold nvmlCleanup, bind, logf, write, nvml. cbn.
  destruct (negb (isSuccess (ret (env (calls w) Shutdown)))); reflexivity.
Qed.

Lemma validateConfiguration_time (config : Config) (env : nvmlEnv) (w : world) :
  TimeToUpdate (fst (validateConfiguration config env w)) =
  (if TimeToUpdate config <=? 0 then 5 else TimeToUpdate config).
Proof.
  unfold validateConfiguration, bind, logf, write, pure.
  destruct (TimeToUpdate config <=? 0) eqn:Et; cbn [TemperatureRanges fst snd];
    match goal with
    | |- context [if ?b then _ else _] => destruct b
    end; cbn; try rewrite Et; reflexivity.
Qed.

(** X19.  The daemon never ends with exit code 0.  It ends with code 1; or
    [time.NewTicker] panics, which happens exactly when the interval (the
    [time_to_update] in force, 5 for a value that is not positive, times
    [10^9] in 64 bits) is not positive: then NVML is shut down by the
    deferred cleanup and the process ends with code 2; or it is in the
    monitoring loop, and then every GPU has as many recorded speeds as it
    has fans.  (The return for "no controllable fans" is never reached:
    [initializeDevices] fails before.) *)
Theorem daemon_never_exits_0 :
  forall (os : osEnv) (cfgPath lgPath : string) (curveOverride : bool) (n : nat)
         (env : nvmlEnv) (w : world),
    let r := cmdDaemon os cfgPath lgPath curveOverride n env w in
    let interval config :=
      GoInt.mul (if TimeToUpdate config <=? 0 then 5 else TimeToUpdate config)
                1000000000 in
    fst r = Exited 1 \/
    (exists config,
        loadConfig os cfgPath = Some config /\
        interval config <= 0 /\
        fst r = Exited 2 /\
        (exists before, calls (snd r) = before ++ [Shutdown]) /\
        (exists lines,
            output (snd r) =
            lines ++ [(Stderr, "panic: non-positive interval for NewTicker"%string)])) \/
    (exists config m gs,
        loadConfig os cfgPath = Some config /\
        0 < interval config /\
        fst r = Looping m gs /\
        Forall gpuSized gs).
Proof.
  intros os cfgPath lgPath curveOverride n env w. cbv zeta.
  destruct (cmdDaemon os cfgPath lgPath curveOverride n env w) as [o w'] eqn:E.
  cbn [fst snd]. unfold cmdDaemon in E.
  destruct (negb (openLogFile os lgPath)); [injection E as <- _; now left|].
  unfold bind at 1 in E. cbn [logf write] in E.
  destruct (loadConfig os cfgPath) as [config|]; [|injection E as <- _; now left].
  unfold bind at 1 in E.
  pose proof (validateConfiguration_time config env
                (mkWorld (calls w)
                   (output w ++ [(LogOut, "INFO: Logging setup complete."%string)])))
    as Htime.
  destruct (validateConfiguration config env _) as [config' w1].
  cbn [fst] in Htime.
  unfold bind at 1 in E. destruct (initializeNVML env w1) as [up w2].
  destruct (negb up); [injection E as <- _; now left|].
  unfold bind at 1 in E.
  pose proof (initializeDevices_result env w2) as Hinit.
  destruct (initializeDevices env w2) as [[devices|] w3];
    [|injection E as <- _; now left].
  simpl in Hinit. destruct (Hinit devices eq_refl) as (_ & Hsized & d & Hd & Hpos).
  assert (Hex : existsb (fun g => initFanCount g >? 0) devices = true).
  { apply existsb_exists. exists d. split; [exact Hd|]. now apply Z.gtb_lt. }
  rewrite Hex in E. cbn [negb] in E. right.
  match type of E with context [bind (runMonitoringLoop ?c devices n) _ env w3] =>
    set (cfg := c) in E end.
  assert (Hcfg : tickerInterval cfg =
                 GoInt.mul (if TimeToUpdate config <=? 0 then 5 else TimeToUpdate config)
                           1000000000).
  { unfold tickerInterval. rewrite <- Htime. subst cfg.
    destruct curveOverride; reflexivity. }
  unfold runMonitoringLoop in E.
  unfold bind at 1 in E.
  rewrite (bind_eq _ _ _ _
             (mkWorld (calls w3)
                (output w3 ++ [(LogOut, "INFO: Starting monitoring loop..."%string)]))
             tt eq_refl) in E.
  destruct (chooseMode cfg env
              (mkWorld (calls w3)
                 (output w3 ++ [(LogOut, "INFO: Starting monitoring loop..."%string)])))
    as [m w4] eqn:Em.
  rewrite (bind_eq _ _ _ _ _ _ Em) in E. cbv zeta in E.
  destruct (Z.leb_spec (tickerInterval cfg) 0) as [Hle|Hgt].
  - left. exists config. cbn [pure fst snd] in E.
    pose proof (nvmlCleanup_calls env w4) as Hcl.
    destruct (nvmlCleanup env w4) as [[] w5] eqn:Ec.
    rewrite (bind_eq _ _ _ _ _ _ Ec) in E. cbn in E, Hcl.
    injection E as <- <-. cbn [calls output].
    split; [reflexivity|]. split; [now rewrite <- Hcfg|]. split; [reflexivity|].
    split; eexists; [exact Hcl | reflexivity].
  - right. exists config.
    pose proof (ticks_sized cfg m n (map (startGpu m) devices) env w4) as Ht.
    destruct (ticks cfg m n (map (startGpu m) devices) env w4) as [gs w5] eqn:Et.
    rewrite (bind_eq _ _ _ _ _ _ Et) in E. cbn in E.
    injection E as <- _. exists m, gs.
    split; [reflexivity|]. split; [now rewrite <- Hcfg|]. split; [reflexivity|].
    apply Ht.
    rewrite Forall_forall in *. intros g Hg. apply in_map_iff in Hg.
    destruct Hg as (d0 & <- & Hd0). exact (Hsized d0 Hd0).
Qed.

(* ------------------------------------------------------------------ *)
(** ** The command line: errors before any hardware call *)

(** X20.  [main] ends with exit code 2 and without any hardware call when
    no subcommand is given, when the subcommand is not one of [daemon],
    [status], [set], [auto] (in both cases [printUsage] is all that ran,
    and it makes no call), and when the flags of a subcommand do not parse
    (nothing ran but the [flag] package, which wrote its text to the
    standard error stream). *)
Theorem main_usage_errors :
  forall (os : osEnv) (args : list string) (n : nat) (env : nvmlEnv) (w : world),
    calls (snd (printUsage env w)) = calls w /\
    ((List.length args < 2)%nat ->
     main os args n env w = (Exited 2, snd (printUsage env w))) /\
    (forall prog cmd rest,
        args = prog :: cmd :: rest ->
        ~ In cmd ["daemon"; "status"; "set"; "auto"]%string ->
        main os args n env w = (Exited 2, snd (printUsage env w))) /\
    (forall prog cmd rest,
        args = prog :: cmd :: rest ->
        In cmd ["daemon"; "status"; "set"; "auto"]%string ->
        flagParse os cmd rest = None ->
        main os args n env w =
        (Exited 2,
         mkWorld (calls w) (output w ++ [(Stderr, flagErrorText os cmd rest)]))).
Proof.
  intros os args n env w. split; [reflexivity|]. split; [|split].
  - intros HL. destruct args as [|a [|b args]]; [reflexivity|reflexivity|simpl in HL; lia].
  - intros prog cmd rest -> Hn. unfold main.
    destruct (String.eqb_spec cmd "daemon") as [->|_]; [exfalso; apply Hn; simpl; tauto|].
    destruct (String.eqb_spec cmd "status") as [->|_]; [exfalso; apply Hn; simpl; tauto|].
    destruct (String.eqb_spec cmd "set") as [->|_]; [exfalso; apply Hn; simpl; tauto|].
    destruct (String.eqb_spec cmd "auto") as [->|_]; [exfalso; apply Hn; simpl; tauto|].
    reflexivity.
  - intros prog cmd rest -> Hin Hp. simpl in Hin.
    destruct Hin as [<-|[<-|[<-|[<-|[]]]]]; unfold main;
      cbn [String.eqb Ascii.eqb Bool.eqb]; rewrite Hp; reflexivity.
Qed.

Lemma main_usage_errors_witness :
  fst (main (fixedOs (flagsWithSpeed 50) None) ["nvidia_fan_control"]%string
         0 (steadyEnv 1) emptyWorld) = Exited 2 /\
  fst (main (fixedOs (flagsWithSpeed 50) None) ["nvidia_fan_control"; "fans"]%string
         0 (steadyEnv 1) emptyWorld) = Exited 2 /\
  main (mkOs (fun _ _ => None) (fun _ _ => "invalid value for flag -speed"%string)
             (fun s => s) (fun s => [s]) (fun _ => Some 0)
             (fun _ => true) (fun _ => None))
       ["nvidia_fan_control"; "set"; "-speed"; "x"]%string 0 (steadyEnv 1) emptyWorld =
  (Exited 2, mkWorld [] [(Stderr, "invalid value for flag -speed"%string)]).
Proof.
  split; [|split].
  - rewrite (proj1 (proj2 (main_usage_errors (fixedOs (flagsWithSpeed 50) None)
                             ["nvidia_fan_control"]%string 0 (steadyEnv 1) emptyWorld))).
    + reflexivity.
    + simpl. lia.
  - rewrite (proj1 (proj2 (proj2 (main_usage_errors (fixedOs (flagsWithSpeed 50) None)
                                    ["nvidia_fan_control"; "fans"]%string 0 (steadyEnv 1)
                                    emptyWorld)))
               "nvidia_fan_control"%string "fans"%string [] eq_refl).
    + reflexivity.
    + simpl. intros [H|[H|[H|[H|[]]]]]; discriminate H.
  - apply (proj2 (proj2 (proj2 (main_usage_errors
                                  (mkOs (fun _ _ => None)
                                     (fun _ _ => "invalid value for flag -speed"%string)
                                     (fun s => s) (fun s => [s]) (fun _ => Some 0)
                                     (fun _ => true) (fun _ => None))
                                  _ 0 (steadyEnv 1) emptyWorld)))
             "nvidia_fan_control"%string "set"%string ["-speed"; "x"]%string eq_refl).
    + simpl. tauto.
    + reflexivity.
Defined.

(* ------------------------------------------------------------------ *)
(** ** The commands [status], [auto] and [set] *)

Lemma callsAll_filter {A : Type} (m : Prog A) (f : nvmlCall -> bool) :
  callsAll (fun c => f c = false) m ->
  forall env w, filter f (calls (snd (m env w))) = filter f (calls w).
Proof.
  intros H env w. destruct (H env w) as (new & -> & HF).
  rewrite filter_app.
  assert (filter f new = []) as ->; [|apply app_nil_r].
  induction HF as [|c l Hc _ IH]; [reflexivity|]. simpl. now rewrite Hc.
Qed.

Lemma initializeNVML_spec (env : nvmlEnv) (w : world) :
  calls (snd (initializeNVML env w)) = calls w ++ [Init] /\
  fst (initializeNVML env w) = isSuccess (ret (env (calls w) Init)).
Proof.
  unfold initializeNVML, bind, nvml.
  destruct (ret (env (calls w) Init)); split; reflexivity.
Qed.

(** The shape the three commands share: [initializeNVML], on failure the
    result 1, else the body and then the deferred cleanup. *)
Lemma session_spec (body : Prog Z) (failmsg : string) (env : nvmlEnv) (w : world) :
  let prog :=
    bind initializeNVML
      (fun up => if negb up then bind (write Stderr failmsg) (fun _ => pure 1)
                 else bind body (fun code => bind nvmlCleanup (fun _ => pure code))) in
  (ret (env (calls w) Init) <> SUCCESS ->
   fst (prog env w) = 1 /\ calls (snd (prog env w)) = calls w ++ [Init]) /\
  (ret (env (calls w) Init) = SUCCESS ->
   exists w1,
     calls w1 = calls w ++ [Init] /\
     fst (prog env w) = fst (body env w1) /\
     calls (snd (prog env w)) = calls (snd (body env w1)) ++ [Shutdown]).
Proof.
  cbv zeta.
  destruct (initializeNVML_spec env w) as [Hc Hu].
  destruct (initializeNVML env w) as [up w1] eqn:Ei. simpl in Hc, Hu.
  rewrite (bind_eq _ _ _ _ _ _ Ei). split.
  - intros Hf. assert (up = false) as ->
      by (rewrite Hu; destruct (ret (env (calls w) Init)); [contradiction|reflexivity..]).
    simpl. split; [reflexivity | exact Hc].
  - intros Hs. rewrite Hs in Hu. cbn in Hu. subst up. cbn [negb].
    exists w1. split; [exact Hc|].
    destruct (body env w1) as [code w2] eqn:Eb.
    rewrite (bind_eq _ _ _ _ _ _ Eb).
    pose proof (nvmlCleanup_calls env w2) as Hcl.
    destruct (nvmlCleanup env w2) as [[] w3] eqn:Ec.
    rewrite (bind_eq _ _ _ _ _ _ Ec). simpl in *. split; [reflexivity | exact Hcl].
Qed.

Lemma session_bracketed (body : Prog Z) (failmsg : string) :
  callsAll (fun c => c <> Init /\ c <> Shutdown) body ->
  bracketed
    (bind initializeNVML
       (fun up => if negb up then bind (write Stderr failmsg) (fun _ => pure 1)
                  else bind body (fun code => bind nvmlCleanup (fun _ => pure code)))).
Proof.
  intros Hbody env w.
  destruct (session_spec body failmsg env w) as [H1 H2]. cbv zeta in H1, H2.
  split; [exact H1|].
  intros Hs. destruct (H2 Hs) as (w1 & Hw1 & _ & Hc).
  destruct (Hbody env w1) as (mid & Hmid & HF).
  exists mid. rewrite Hc, Hmid, Hw1, <- !app_assoc. split; [reflexivity|].
  rewrite Forall_forall in HF.
  split; intros Hin; destruct (HF _ Hin) as [Ha Hb]; congruence.
Qed.

Lemma statusFans_callsAll (Q : nvmlCall -> Prop) (dev : N) :
  (forall f, Q (DeviceGetFanSpeed_v2 dev f)) -> Q (DeviceGetFanSpeed dev) ->
  forall n fanIdx, callsAll Q (statusFans dev fanIdx n).
Proof.
  intros H2 H1. induction n as [|n IH]; intros fanIdx; cbn [statusFans];
    [apply callsAll_pure|].
  apply callsAll_bind; [apply callsAll_nvml, H2|]. intros s.
  apply callsAll_bind; [|intros _; apply IH].
  destruct (isSuccess (ret s)); [apply callsAll_write|].
  destruct (fanIdx =? 0); [|apply callsAll_write].
  apply callsAll_bind; [apply callsAll_nvml, H1|]. intros l.
  destruct (isSuccess (ret l)); apply callsAll_write.
Qed.

(** The body of [cmdStatus] between [initializeNVML] and the cleanup. *)
Lemma cmdStatus_body_callsAll (Q : nvmlCall -> Prop) (gpu : Z) :
  Q DeviceGetCount -> (forall i, Q (DeviceGetHandleByIndex i)) ->
  (forall d, Q (DeviceGetTemperature d)) -> (forall d, Q (DeviceGetNumFans d)) ->
  (forall d f, Q (DeviceGetFanSpeed_v2 d f)) -> (forall d, Q (DeviceGetFanSpeed d)) ->
  callsAll Q
    (c <- nvml DeviceGetCount ;;
     if negb (isSuccess (ret c)) then
       write Stderr "unable to get NVIDIA device count: %v" ;;; pure 1
     else if (gpu <? 0) || (gpu >=? Z.of_N (value c)) then
       write Stderr "invalid -gpu %d (found %d device(s), valid range: 0..%d)" ;;; pure 1
     else
       h <- nvml (DeviceGetHandleByIndex gpu) ;;
       if negb (isSuccess (ret h)) then
         write Stderr "unable to get handle for device %d: %v" ;;; pure 1
       else
         t <- nvml (DeviceGetTemperature (value h)) ;;
         if negb (isSuccess (ret t)) then
           write Stderr "unable to get temperature for device %d: %v" ;;; pure 1
         else
           nf <- nvml (DeviceGetNumFans (value h)) ;;
           if negb (isSuccess (ret nf)) then
             write Stdout "GPU %d: Temp=%d C, Fans=unknown (DeviceGetNumFans: %v)" ;;; pure 0
           else
             write Stdout "GPU %d: Temp=%d C, Fans=%d" ;;;
             statusFans (value h) 0 (N.to_nat (value nf)) ;;;
             pure 0).
Proof.
  intros Hc Hh Ht Hn H2 H1.
  apply callsAll_bind; [apply callsAll_nvml, Hc|]. intros c.
  destruct (negb (isSuccess (ret c))); [calls_all|].
  destruct ((gpu <? 0) || (gpu >=? Z.of_N (value c))); [calls_all|].
  apply callsAll_bind; [apply callsAll_nvml, Hh|]. intros h.
  destruct (negb (isSuccess (ret h))); [calls_all|].
  apply callsAll_bind; [apply callsAll_nvml, Ht|]. intros t.
  destruct (negb (isSuccess (ret t))); [calls_all|].
  apply callsAll_bind; [apply callsAll_nvml, Hn|]. intros nf.
  destruct (negb (isSuccess (ret nf))); [calls_all|].
  apply callsAll_bind; [apply callsAll_write|]. intros _.
  apply callsAll_bind; [|intros _; apply callsAll_pure].
  apply statusFans_callsAll; [apply H2 | apply H1].
Qed.

Lemma openGpu_callsAll (Q : nvmlCall -> Prop) (gpu : Z) (fans : list Z) :
  Q DeviceGetCount -> (forall i, Q (DeviceGetHandleByIndex i)) ->
  (forall d, Q (DeviceGetNumFans d)) ->
  callsAll Q (openGpu gpu fans).
Proof.
  intros Hc Hh Hn. unfold openGpu.
  apply callsAll_bind; [apply callsAll_nvml, Hc|]. intros c.
  destruct (negb (isSuccess (ret c))); [calls_all|].
  destruct ((gpu <? 0) || (gpu >=? Z.of_N (value c))); [calls_all|].
  apply callsAll_bind; [apply callsAll_nvml, Hh|]. intros h.
  destruct (negb (isSuccess (ret h))); [calls_all|].
  apply callsAll_bind; [apply callsAll_nvml, Hn|]. intros nf.
  destruct (negb (isSuccess (ret nf))); [calls_all|].
  destruct (negb (fansInRange fans (Z.of_N (value nf)))); calls_all.
Qed.

Lemma autoFans_callsAll (Q : nvmlCall -> Prop) (dev : N) (fans : list Z) :
  (forall f, In f fans ->
             Q (DeviceSetFanControlPolicy dev f FAN_POLICY_TEMPERATURE_CONTINOUS_SW)) ->
  callsAll Q (autoFans dev fans).
Proof.
  induction fans as [|f fans IH]; intros HQ; cbn [autoFans]; [apply callsAll_pure|].
  apply callsAll_bind; [apply callsAll_nvml, HQ; now left|]. intros a.
  destruct (negb (isSuccess (ret a)) && negb (isNotSupported (ret a))); [calls_all|].
  destruct (isNotSupported (ret a)); [calls_all|].
  apply IH. intros f' Hf'. apply HQ. now right.
Qed.

Lemma setFans_callsAll (Q : nvmlCall -> Prop) (dev : N) (speedPct : Z) (fans : list Z) :
  (forall f, In f fans -> Q (DeviceSetFanControlPolicy dev f FAN_POLICY_MANUAL)) ->
  (forall f, In f fans -> Q (DeviceSetFanSpeed_v2 dev f speedPct)) ->
  callsAll Q (setFans dev fans speedPct).
Proof.
  induction fans as [|f fans IH]; intros HP HS; cbn [setFans]; [apply callsAll_pure|].
  apply callsAll_bind; [apply callsAll_nvml, HP; now left|]. intros a.
  destruct (negb (isSuccess (ret a)) && negb (isNotSupported (ret a))); [calls_all|].
  destruct (isNotSupported (ret a)); [calls_all|].
  apply callsAll_bind; [apply callsAll_nvml, HS; now left|]. intros b.
  destruct (negb (isSuccess (ret b))); [calls_all|].
  apply IH; intros f' Hf'; [apply HP | apply HS]; now right.
Qed.

Lemma initializeNVML_callsAll (Q : nvmlCall -> Prop) :
  Q Init -> callsAll Q initializeNVML.
Proof.
  intros H. unfold initializeNVML, logf.
  apply callsAll_bind; [now apply callsAll_nvml|]. intros a.
  destruct (negb (isSuccess (ret a))); calls_all.
Qed.

Lemma nvmlCleanup_callsAll (Q : nvmlCall -> Prop) :
  Q Shutdown -> callsAll Q nvmlCleanup.
Proof.
  intros H. unfold nvmlCleanup, logf.
  apply callsAll_bind; [apply callsAll_write|]. intros _.
  apply callsAll_bind; [now apply callsAll_nvml|]. intros a.
  destruct (negb (isSuccess (ret a))); apply callsAll_write.
Qed.

Lemma session_callsAll (Q : nvmlCall -> Prop) (body : Prog Z) (failmsg : string) :
  Q Init -> Q Shutdown -> callsAll Q body ->
  callsAll Q
    (bind initializeNVML
       (fun up => if negb up then bind (write Stderr failmsg) (fun _ => pure 1)
                  else bind body (fun code => bind nvmlCleanup (fun _ => pure code)))).
Proof.
  intros Hi Hs Hb.
  apply callsAll_bind; [now apply initializeNVML_callsAll|]. intros up.
  destruct (negb up); [calls_all|].
  apply callsAll_bind; [exact Hb|]. intros code.
  apply callsAll_bind; [now apply nvmlCleanup_callsAll|]. intros _. apply callsAll_pure.
Qed.

(** X21.  [status] only reads: it never sets a fan policy and never
    writes a fan speed, whatever the hardware answers. *)
Theorem status_is_read_only :
  forall (gpu : Z) (v : bool) (env : nvmlEnv) (w : world),
    filter isWrite (calls (snd (cmdStatus gpu v env w))) = filter isWrite (calls w).
Proof.
  intros gpu v. apply callsAll_filter.
  unfold cmdStatus, configureCLILogging.
  apply callsAll_bind; [apply callsAll_pure|]. intros _.
  apply session_callsAll; try reflexivity.
  apply cmdStatus_body_callsAll; intros; reflexivity.
Qed.

(** X22.  [auto] never writes a fan speed: each of its writes sets the
    automatic policy for a fan of the list it was given. *)
Theorem auto_only_sets_automatic_policy :
  forall (gpu : Z) (fans : list Z) (v : bool) (env : nvmlEnv) (w : world),
    exists new,
      calls (snd (cmdAuto gpu fans v env w)) = calls w ++ new /\
      forall c, In c new -> isWrite c = true ->
                exists d f,
                  c = DeviceSetFanControlPolicy d f FAN_POLICY_TEMPERATURE_CONTINOUS_SW /\
                  In f fans.
Proof.
  intros gpu fans v env w.
  set (Q := fun c => isWrite c = true ->
                     exists d f,
                       c = DeviceSetFanControlPolicy d f FAN_POLICY_TEMPERATURE_CONTINOUS_SW /\
                       In f fans).
  assert (H : callsAll Q (cmdAuto gpu fans v)).
  { unfold cmdAuto, configureCLILogging.
    apply callsAll_bind; [apply callsAll_pure|]. intros _.
    apply session_callsAll; try (intros H; discriminate H).
    apply callsAll_bind.
    - apply openGpu_callsAll; intros; intros H; discriminate H.
    - intros [code|dev]; [apply callsAll_pure|].
      apply autoFans_callsAll. intros f Hf _. now exists dev, f. }
  destruct (H env w) as (new & Hnew & HF).
  exists new. split; [exact Hnew|]. rewrite Forall_forall in HF. exact HF.
Qed.

(** X23.  The three commands bracket their NVML session: if [Init] fails
    it is the only call and the exit code is 1; if it succeeds [Shutdown]
    is called last on every path, and neither is called in between. *)
Theorem commands_bracket_nvml_session :
  (forall gpu v, bracketed (cmdStatus gpu v)) /\
  (forall gpu fans v, bracketed (cmdAuto gpu fans v)) /\
  (forall gpu fans speedPct v,
      0 <= speedPct <= 100 -> bracketed (cmdSet gpu fans speedPct v)).
Proof.
  split; [|split].
  - intros gpu v env w. unfold cmdStatus, configureCLILogging.
    rewrite (bind_eq _ _ _ _ w tt eq_refl).
    revert env w. apply session_bracketed.
    apply cmdStatus_body_callsAll; intros; split; discriminate.
  - intros gpu fans v env w. unfold cmdAuto, configureCLILogging.
    rewrite (bind_eq _ _ _ _ w tt eq_refl).
    revert env w. apply session_bracketed.
    apply callsAll_bind.
    + apply openGpu_callsAll; intros; split; discriminate.
    + intros [code|dev]; [apply callsAll_pure|].
      apply autoFans_callsAll. intros; split; discriminate.
  - intros gpu fans speedPct v Hs env w.
    assert (E : cmdSet gpu fans speedPct v env w =
                (bind initializeNVML
                   (fun up => if negb up
                              then bind (write Stderr "unable to initialize NVML: %v")
                                        (fun _ => pure 1)
                              else bind (bind (openGpu gpu fans)
                                           (fun g => match g with
                                                     | inl code => pure code
                                                     | inr dev => setFans dev fans speedPct
                                                     end))
                                        (fun code => bind nvmlCleanup (fun _ => pure code))))
                  env w).
    { unfold cmdSet, configureCLILogging.
      rewrite (bind_eq _ _ _ _ w tt eq_refl).
      destruct (Z.ltb_spec speedPct 0); [lia|].
      destruct (Z.gtb_spec speedPct 100); [lia|]. reflexivity. }
    rewrite E. revert env w E. intros env w _. revert env w.
    apply session_bracketed.
    apply callsAll_bind.
    + apply openGpu_callsAll; intros; split; discriminate.
    + intros [code|dev]; [apply callsAll_pure|].
      apply setFans_callsAll; intros; split; discriminate.
Qed.

Lemma commands_bracket_nvml_session_witness :
  calls (snd (cmdSet 0 [0] 80 false (steadyEnv 1) emptyWorld)) =
  [Init; DeviceGetCount; DeviceGetHandleByIndex 0; DeviceGetNumFans 1;
   DeviceSetFanControlPolicy 1 0 FAN_POLICY_MANUAL; DeviceSetFanSpeed_v2 1 0 80;
   Shutdown] /\
  (exists mid, calls (snd (cmdSet 0 [0] 80 false (steadyEnv 1) emptyWorld)) =
               Init :: mid ++ [Shutdown]).
Proof.
  split; [reflexivity|].
  destruct commands_bracket_nvml_session as (_ & _ & H).
  destruct (H 0 [0] 80 false ltac:(lia) (steadyEnv 1) emptyWorld) as [_ H2].
  destruct (H2 eq_refl) as (mid & Hmid & _).
  exists mid. exact Hmid.
Defined.

Lemma fansInRange_false (fans : list Z) (numFans f : Z) :
  In f fans -> f < 0 \/ numFans <= f -> fansInRange fans numFans = false.
Proof.
  induction fans as [|a fans IH]; intros Hin Hf; [contradiction|].
  cbn [fansInRange].
  destruct ((a <? 0) || (a >=? numFans)) eqn:Ea; [reflexivity|].
  destruct Hin as [->|Hin]; [|now apply IH].
  apply Bool.orb_false_iff in Ea. destruct Ea as [E1 E2].
  apply Z.ltb_ge in E1. rewrite Z.geb_leb in E2. apply Z.leb_gt in E2. lia.
Qed.

Lemma openGpu_rejects (gpu : Z) (fans : list Z) (f : Z) (env : nvmlEnv) (w : world) :
  In f fans ->
  f < 0 \/
  Z.of_N (value (env (calls w ++ [DeviceGetCount; DeviceGetHandleByIndex gpu])
                     (DeviceGetNumFans
                        (value (env (calls w ++ [DeviceGetCount])
                                    (DeviceGetHandleByIndex gpu)))))) <= f ->
  fst (openGpu gpu fans env w) = inl 1.
Proof.
  intros Hin Hf. unfold openGpu, bind, nvml, write. cbn.
  destruct (negb (isSuccess (ret (env (calls w) DeviceGetCount)))); [reflexivity|].
  destruct ((gpu <? 0) || (gpu >=? Z.of_N (value (env (calls w) DeviceGetCount))));
    [reflexivity|]. cbn.
  destruct (negb (isSuccess (ret (env (calls w ++ [DeviceGetCount])
                                    (DeviceGetHandleByIndex gpu))))); [reflexivity|]. cbn.
  match goal with
  | |- context [negb (isSuccess (ret ?a))] => destruct (negb (isSuccess (ret a)))
  end; [reflexivity|].
  rewrite <- app_assoc. cbn [app].
  rewrite (fansInRange_false fans _ f Hin); [reflexivity|].
  destruct Hf as [Hf|Hf]; [now left | right; exact Hf].
Qed.

Lemma session_open_fails (gpu : Z) (fans : list Z) (k : N -> Prog Z) (failmsg : string)
  (env : nvmlEnv) (w : world) :
  (forall w', calls w' = calls w ++ [Init] -> fst (openGpu gpu fans env w') = inl 1) ->
  let prog :=
    bind initializeNVML
      (fun up => if negb up then bind (write Stderr failmsg) (fun _ => pure 1)
                 else bind (bind (openGpu gpu fans)
                              (fun g => match g with
                                        | inl code => pure code
                                        | inr dev => k dev
                                        end))
                           (fun code => bind nvmlCleanup (fun _ => pure code))) in
  fst (prog env w) = 1 /\
  filter isWrite (calls (snd (prog env w))) = filter isWrite (calls w).
Proof.
  intros Hopen. cbv zeta.
  match goal with
  | |- fst (bind _ (fun up => if negb up then _ else bind ?b _) env w) = _ /\ _ =>
      destruct (session_spec b failmsg env w) as [H1 H2]
  end.
  cbv zeta in H1, H2.
  destruct (ret (env (calls w) Init)) eqn:Er.
  - destruct (H2 eq_refl) as (w1 & Hw1 & Hfst & Hcalls).
    rewrite Hfst, Hcalls. clear H1 H2 Hfst Hcalls.
    pose proof (Hopen w1 Hw1) as Ho.
    pose proof (callsAll_filter (openGpu gpu fans) isWrite
                  (openGpu_callsAll _ gpu fans eq_refl (fun _ => eq_refl)
                     (fun _ => eq_refl)) env w1) as Hf.
    destruct (openGpu gpu fans env w1) as [g w2] eqn:Eo. simpl in Ho, Hf. subst g.
    rewrite (bind_eq _ _ _ _ _ _ Eo). simpl.
    split; [reflexivity|].
    rewrite filter_app, Hf, Hw1, filter_app. simpl. now rewrite !app_nil_r.
  - destruct H1 as [Ha Hb]; [discriminate|]. rewrite Ha, Hb, filter_app. simpl.
    split; [reflexivity | apply app_nil_r].
  - destruct H1 as [Ha Hb]; [discriminate|]. rewrite Ha, Hb, filter_app. simpl.
    split; [reflexivity | apply app_nil_r].
Qed.

Lemma setFans_spec (dev : N) (speedPct : Z) :
  forall (fans : list Z) (env : nvmlEnv) (w : world),
    exists ws rest,
      calls (snd (setFans dev fans speedPct env w)) = calls w ++ ws /\
      ws ++ rest = setWrites dev speedPct fans /\
      (fst (setFans dev fans speedPct env w) = 0 /\ rest = [] \/
       fst (setFans dev fans speedPct env w) = 1).
Proof.
  induction fans as [|f fans IH]; intros env w.
  - exists [], []. cbn. rewrite app_nil_r. auto.
  - cbn [setFans].
    destruct (nvml (DeviceSetFanControlPolicy dev f FAN_POLICY_MANUAL) env w)
      as [a w1] eqn:Ea.
    rewrite (bind_eq _ _ _ _ _ _ Ea). unfold nvml in Ea. injection Ea as _ Hw1.
    destruct (negb (isSuccess (ret a)) && negb (isNotSupported (ret a))).
    { exists [DeviceSetFanControlPolicy dev f FAN_POLICY_MANUAL],
        (DeviceSetFanSpeed_v2 dev f speedPct :: setWrites dev speedPct fans).
      subst w1. cbn. auto. }
    destruct (isNotSupported (ret a)).
    { exists [DeviceSetFanControlPolicy dev f FAN_POLICY_MANUAL],
        (DeviceSetFanSpeed_v2 dev f speedPct :: setWrites dev speedPct fans).
      subst w1. cbn. auto. }
    destruct (nvml (DeviceSetFanSpeed_v2 dev f speedPct) env w1) as [b w2] eqn:Eb.
    rewrite (bind_eq _ _ _ _ _ _ Eb). unfold nvml in Eb. injection Eb as _ Hw2.
    destruct (negb (isSuccess (ret b))).
    { exists [DeviceSetFanControlPolicy dev f FAN_POLICY_MANUAL;
              DeviceSetFanSpeed_v2 dev f speedPct],
        (setWrites dev speedPct fans).
      subst w2 w1. cbn. rewrite <- app_assoc. auto. }
    destruct (IH env w2) as (ws & rest & Hc & Hp & Hr).
    exists (DeviceSetFanControlPolicy dev f FAN_POLICY_MANUAL
              :: DeviceSetFanSpeed_v2 dev f speedPct :: ws), rest.
    split; [|split].
    + rewrite Hc. subst w2 w1. cbn. now rewrite <- !app_assoc.
    + cbn. now rewrite Hp.
    + exact Hr.
Qed.

Lemma setWrites_all_writes (dev : N) (speedPct : Z) (fans : list Z) :
  filter isWrite (setWrites dev speedPct fans) = setWrites dev speedPct fans.
Proof.
  induction fans as [|f fans IH]; [reflexivity|].
  cbn [setWrites flat_map app filter isWrite]. fold (setWrites dev speedPct fans).
  now rewrite IH.
Qed.

Lemma filter_prefix_all {A : Type} (f : A -> bool) (l1 l2 : list A) :
  filter f (l1 ++ l2) = l1 ++ l2 -> filter f l1 = l1.
Proof.
  induction l1 as [|a l1 IH]; intros H; [reflexivity|].
  cbn in *. destruct (f a) eqn:Ea.
  - injection H as H. now rewrite IH.
  - exfalso.
    assert (Hl : (List.length (filter f (l1 ++ l2)) <= List.length (l1 ++ l2))%nat)
      by apply filter_length_le.
    rewrite H in Hl. cbn in Hl. lia.
Qed.

(** X24.  What [set] writes is an initial part of one sequence: for each
    fan of the list in order the manual policy and then the speed, all to
    one device.  It stops where it fails and undoes nothing.  The exit
    code is 0 or 1, and 0 means that the speed is in 0..100 and that the
    whole sequence was written. *)
Theorem set_writes_policy_then_speed :
  forall (gpu : Z) (fans : list Z) (speedPct : Z) (v : bool)
         (env : nvmlEnv) (w : world),
    exists (dev : N) (ws rest : list nvmlCall),
      filter isWrite (calls (snd (cmdSet gpu fans speedPct v env w))) =
        filter isWrite (calls w) ++ ws /\
      ws ++ rest = setWrites dev speedPct fans /\
      (fst (cmdSet gpu fans speedPct v env w) = 0 /\ rest = [] /\
       0 <= speedPct <= 100 \/
       fst (cmdSet gpu fans speedPct v env w) = 1).
Proof.
  intros gpu fans speedPct v env w.
  unfold cmdSet, configureCLILogging. rewrite (bind_eq _ _ _ _ w tt eq_refl).
  destruct ((speedPct <? 0) || (speedPct >? 100)) eqn:Es.
  { exists 0%N, [], (setWrites 0%N speedPct fans). cbn. rewrite app_nil_r. auto. }
  assert (Hs : 0 <= speedPct <= 100).
  { apply Bool.orb_false_iff in Es. destruct Es as [E1 E2].
    apply Z.ltb_ge in E1. rewrite Z.gtb_ltb in E2. apply Z.ltb_ge in E2. lia. }
  match goal with
  | |- context [bind initializeNVML
                  (fun up => if negb up then bind (write Stderr ?msg) _ else bind ?b _)] =>
      destruct (session_spec b msg env w) as [H1 H2]
  end.
  cbv zeta in H1, H2.
  assert (Hfail : ret (env (calls w) Init) <> SUCCESS ->
                  exists (dev : N) (ws rest : list nvmlCall),
                    ws = [] /\ rest = setWrites dev speedPct fans /\ dev = 0%N)
    by (intros _; now exists 0%N, [], (setWrites 0%N speedPct fans)).
  destruct (ret (env (calls w) Init)) eqn:Er.
  - clear H1 Hfail. destruct (H2 eq_refl) as (w1 & Hw1 & Hfst & Hcalls). clear H2.
    rewrite Hfst, Hcalls. clear Hfst Hcalls.
    pose proof (callsAll_filter (openGpu gpu fans) isWrite
                  (openGpu_callsAll _ gpu fans eq_refl (fun _ => eq_refl)
                     (fun _ => eq_refl)) env w1) as Hf.
    destruct (openGpu gpu fans env w1) as [g w2] eqn:Eo. simpl in Hf.
    rewrite (bind_eq _ _ _ _ _ _ Eo).
    assert (Hg : forall c, g = inl c -> c = 1).
    { intros c ->. revert Eo. unfold openGpu, bind, nvml, write. cbn.
      repeat match goal with
             | |- context [if ?b then _ else _] => destruct b; cbn
             end; intros E; injection E as E _; congruence. }
    destruct g as [code|dev].
    + rewrite (Hg code eq_refl).
      exists 0%N, [], (setWrites 0%N speedPct fans). cbn.
      rewrite filter_app, Hf, Hw1, filter_app. cbn. rewrite !app_nil_r. auto.
    + destruct (setFans_spec dev speedPct fans env w2) as (ws & rest & Hc & Hp & Hr).
      exists dev, ws, rest. rewrite filter_app, Hc, filter_app, Hf, Hw1, filter_app.
      cbn. rewrite !app_nil_r.
      assert (filter isWrite ws = ws) as ->.
      { apply (filter_prefix_all isWrite ws rest). rewrite Hp.
        apply setWrites_all_writes. }
      split; [reflexivity|]. split; [exact Hp|].
      destruct Hr as [[Hz Hn]|Ho]; [left | right]; auto.
  - destruct H1 as [Ha Hb]; [discriminate|].
    exists 0%N, [], (setWrites 0%N speedPct fans).
    rewrite Ha, Hb, filter_app. cbn. rewrite !app_nil_r. auto.
  - destruct H1 as [Ha Hb]; [discriminate|].
    exists 0%N, [], (setWrites 0%N speedPct fans).
    rewrite Ha, Hb, filter_app. cbn. rewrite !app_nil_r. auto.
Qed.

(** X25.  [set] and [auto] check the whole fan list against the fan count
    the device reports in this run before they write anything: if one
    listed index is negative or not below that count, the exit code is 1
    and no fan, listed before it or after it, is touched.  (The count is
    the answer to [DeviceGetNumFans] for the handle this run received,
    after [Init], [DeviceGetCount] and [DeviceGetHandleByIndex].) *)
Theorem fan_list_checked_before_any_write :
  forall (gpu : Z) (fans : list Z) (f : Z) (speedPct : Z) (v : bool)
         (env : nvmlEnv) (w : world),
    let device :=
      value (env (calls w ++ [Init; DeviceGetCount]) (DeviceGetHandleByIndex gpu)) in
    let numFans :=
      Z.of_N (value (env (calls w ++ [Init; DeviceGetCount; DeviceGetHandleByIndex gpu])
                         (DeviceGetNumFans device))) in
    In f fans ->
    f < 0 \/ numFans <= f ->
    (fst (cmdSet gpu fans speedPct v env w) = 1 /\
     filter isWrite (calls (snd (cmdSet gpu fans speedPct v env w))) =
       filter isWrite (calls w)) /\
    (fst (cmdAuto gpu fans v env w) = 1 /\
     filter isWrite (calls (snd (cmdAuto gpu fans v env w))) =
       filter isWrite (calls w)).
Proof.
  intros gpu fans f speedPct v env w device numFans Hin Hf.
  assert (Hopen : forall w', calls w' = calls w ++ [Init] ->
                             fst (openGpu gpu fans env w') = inl 1).
  { intros w' Hw'. apply (openGpu_rejects gpu fans f env w' Hin).
    rewrite Hw', <- !app_assoc. cbn [app]. exact Hf. }
  split.
  - unfold cmdSet, configureCLILogging. rewrite (bind_eq _ _ _ _ w tt eq_refl).
    destruct ((speedPct <? 0) || (speedPct >? 100)); [split; reflexivity|].
    apply (session_open_fails gpu fans (fun dev => setFans dev fans speedPct) _ env w Hopen).
  - unfold cmdAuto, configureCLILogging. rewrite (bind_eq _ _ _ _ w tt eq_refl).
    apply (session_open_fails gpu fans (fun dev => autoFans dev fans) _ env w Hopen).
Qed.

(** A machine with two GPUs: GPU 0 has two fans, GPU 1 has four. *)
Lemma fan_list_checked_before_any_write_witness :
  let env : nvmlEnv := fun _ c =>
    match c with
    | DeviceGetCount => mkAnswer SUCCESS 2
    | DeviceGetHandleByIndex i => mkAnswer SUCCESS (Z.to_N i + 10)
    | DeviceGetNumFans d => mkAnswer SUCCESS (if (d =? 10)%N then 2 else 4)
    | _ => mkAnswer SUCCESS 0
    end in
  fst (cmdSet 0 [0; 3] 80 false env emptyWorld) = 1 /\
  filter isWrite (calls (snd (cmdSet 0 [0; 3] 80 false env emptyWorld))) = [] /\
  fst (cmdAuto 0 [0; 3] false env emptyWorld) = 1 /\
  fst (cmdSet 1 [0; 3] 80 false env emptyWorld) = 0.
Proof.
  intros env.
  assert (H : 3 < 0 \/
              Z.of_N (value (env (calls emptyWorld ++
                                  [Init; DeviceGetCount; DeviceGetHandleByIndex 0])
                                 (DeviceGetNumFans
                                    (value (env (calls emptyWorld ++ [Init; DeviceGetCount])
                                                (DeviceGetHandleByIndex 0)))))) <= 3)
    by (right; vm_compute; discriminate).
  destruct (fan_list_checked_before_any_write 0 [0; 3] 3 80 false env
              emptyWorld ltac:(simpl; tauto) H) as [[H1 H2] [H3 _]].
  split; [exact H1 | split; [exact H2 | split; [exact H3 | reflexivity]]].
Defined.

(** X26.  [main] refuses bad arguments of [set] and [auto] before NVML is
    touched: a negative (or missing, the default is -1) [-speed] of [set],
    and a fan list that [parseFanList] refuses, end with exit code 2 and
    without a hardware call.  So a negative speed never reaches the range
    check of [cmdSet]. *)
Theorem main_rejects_bad_arguments :
  forall (os : osEnv) (prog : string) (rest : list string) (f : flagValues)
         (n : nat) (env : nvmlEnv) (w : world),
    (flagParse os "set" rest = Some f ->
     speedFlag f < 0 \/ parseFanList os (fansStr f) = None ->
     fst (main os (prog :: "set"%string :: rest) n env w) = Exited 2 /\
     calls (snd (main os (prog :: "set"%string :: rest) n env w)) = calls w) /\
    (flagParse os "auto" rest = Some f ->
     parseFanList os (fansStr f) = None ->
     fst (main os (prog :: "auto"%string :: rest) n env w) = Exited 2 /\
     calls (snd (main os (prog :: "auto"%string :: rest) n env w)) = calls w).
Proof.
  intros os prog rest f n env w. split.
  - intros Hp Hbad. unfold main. cbn [String.eqb Ascii.eqb Bool.eqb]. rewrite Hp.
    destruct (Z.ltb_spec (speedFlag f) 0) as [Hneg|Hpos]; [split; reflexivity|].
    destruct Hbad as [Hbad|Hbad]; [lia|]. rewrite Hbad. split; reflexivity.
  - intros Hp Hbad. unfold main. cbn [String.eqb Ascii.eqb Bool.eqb]. rewrite Hp, Hbad.
    split; reflexivity.
Qed.

Lemma main_rejects_bad_arguments_witness :
  fst (main (fixedOs (flagsWithSpeed (-5)) None) ["nvidia_fan_control"; "set"]%string
         0 (steadyEnv 1) emptyWorld) = Exited 2 /\
  calls (snd (main (fixedOs (flagsWithSpeed (-5)) None)
                ["nvidia_fan_control"; "set"]%string 0 (steadyEnv 1) emptyWorld)) = [] /\
  fst (main (mkOs (fun _ _ => Some (flagsWithSpeed 50)) (fun _ _ => "flag provided but not defined"%string)
               (fun s => s) (fun s => [s])
               (fun _ => None) (fun _ => true) (fun _ => None))
         ["nvidia_fan_control"; "auto"]%string 0 (steadyEnv 1) emptyWorld) = Exited 2.
Proof.
  destruct (main_rejects_bad_arguments (fixedOs (flagsWithSpeed (-5)) None)
              "nvidia_fan_control"%string [] (flagsWithSpeed (-5)) 0 (steadyEnv 1)
              emptyWorld) as [H1 _].
  destruct (H1 eq_refl ltac:(left; simpl; lia)) as [Ha Hb].
  destruct (main_rejects_bad_arguments
              (mkOs (fun _ _ => Some (flagsWithSpeed 50)) (fun _ _ => "flag provided but not defined"%string)
               (fun s => s) (fun s => [s])
                 (fun _ => None) (fun _ => true) (fun _ => None))
              "nvidia_fan_control"%string [] (flagsWithSpeed 50) 0 (steadyEnv 1)
              emptyWorld) as [_ H2].
  destruct (H2 eq_refl eq_refl) as [Hc _].
  split; [exact Ha | split; [exact Hb | exact Hc]].
Defined.
